(** * Simple Stream Dashboard (app.py): a shallow embedding and its properties

    The script [app.py] is a Streamlit page that is re-run from top to bottom
    on every refresh or user interaction (one "pass").  It keeps pandas
    DataFrames: the rows of the simulated live feed, of an uploaded CSV file,
    or of a generated sample.

    The embedding follows the script:
    - a pandas DataFrame is a list of column names and a list of labelled
      rows, a row being a dictionary from column names to cells;
    - a float is an IEEE-754 binary64 number ([spec_float] of the Standard
      Library, precision 53, exponent bound 1024);
    - a Timestamp is an integer count of nanoseconds since the epoch;
    - the script runs in a monad that threads the state of the outside
      world (clock and random source), a heap of DataFrame objects (so that
      aliasing and in-place column assignment are visible), Streamlit's
      [session_state], and the list of widgets rendered so far, and that can
      raise Python exceptions.

    Left out: the page configuration and the style sheet (lines 16-30), and
    the bounds of int64 and of Timestamps (integers are unbounded here). *)

From Stdlib Require Import ZArith QArith Qabs Lia Lqa List Ascii String DecimalString.
From Stdlib Require Import SpecFloat PrimFloat FloatOps.
From stdpp Require Import base option list sorting gmap strings.

Local Open Scope string_scope.
Local Open Scope Z_scope.
Local Open Scope list_scope.

(** ** Floats: binary64 *)

Definition prec : Z := 53.
Definition emax : Z := 1024.

Definition float : Type := spec_float.
Definition fadd : float -> float -> float := SFadd prec emax.
Definition fmul : float -> float -> float := SFmul prec emax.
Definition fdiv : float -> float -> float := SFdiv prec emax.
Definition fltb : float -> float -> bool := SFltb.
Definition fleb : float -> float -> bool := SFleb.

(** [float(z)] for a Python int [z]: the nearest binary64 number. *)
Definition float_of_Z (z : Z) : float := binary_normalize prec emax z 0 false.

Definition is_nan (x : float) : bool :=
  match x with S754_nan => true | _ => false end.

(** The literals [100.0] and [0.1] of [generate_live_rows]. *)
Definition f100 : float := float_of_Z 100.
Definition f0_1 : float := S754_finite false 7205759403792794 (-56).

(** ** Cells, rows and DataFrames *)

Inductive cell : Type :=
| CStr (s : string)      (* a Python str *)
| CFloat (x : float)     (* a float64; [S754_nan] is pandas' missing value NaN *)
| CInt (z : Z)           (* an int64 *)
| CTime (t : Z)          (* a Timestamp: nanoseconds since the epoch *)
| CNaT.                  (* the missing Timestamp *)

Definition NaN : cell := CFloat S754_nan.

Abbreviation row := (gmap string cell).

(** A DataFrame: the column names in order, and the rows in order, each with
    its index label. *)
Record DataFrame : Type := mkDF {
  columns : list string;
  rows : list (nat * row)
}.

(** [pd.DataFrame()] *)
Definition empty_frame : DataFrame := mkDF [] [].

(** [len(df)] *)
Definition len (df : DataFrame) : nat := length (rows df).

(** [df.empty]: no rows or no columns. *)
Definition df_empty (df : DataFrame) : bool :=
  match rows df, columns df with
  | [], _ | _, [] => true
  | _, _ => false
  end.

(** ["c" in df.columns] *)
Definition has_column (c : string) (df : DataFrame) : bool :=
  bool_decide (c ∈ columns df).

(** [df[c]] as the list of its cells; a row that has no entry under [c]
    shows NaN, as pandas fills it. *)
Definition field (c : string) (r : row) : cell := default NaN (r !! c).
Definition series (c : string) (df : DataFrame) : list cell :=
  map (fun lr => field c lr.2) (rows df).

(** Index labels [0 .. n-1] ([RangeIndex], [reset_index(drop=True)],
    [ignore_index=True]). *)
Definition relabel (rs : list (nat * row)) : list (nat * row) :=
  imap (fun i lr => (i, lr.2)) rs.

(** [pd.DataFrame(records)] for a list of dictionaries written as key/value
    lists: the columns are the keys in order of first appearance. *)
Definition keys_of (recs : list (list (string * cell))) : list string :=
  remove_dups (concat (map (map fst) recs)).

Definition DataFrame_of_records (recs : list (list (string * cell))) : DataFrame :=
  mkDF (keys_of recs) (imap (fun i kv => (i, list_to_map kv)) recs).

(** ** Python and pandas helpers without state *)

(** [str(k)] for an int. *)
Definition str_of_Z (k : Z) : string := NilZero.string_of_int (Z.to_int k).

(** [range(n)]: [0, 1, ..., n-1]; empty when [n <= 0]. *)
Definition range (n : Z) : list Z := map Z.of_nat (seq 0 (Z.to_nat n)).

(** [timedelta(seconds=s)] in nanoseconds. *)
Definition timedelta_seconds (s : Z) : Z := s * 1000000000.

(** Truth value of a Python list: non-empty. *)
Definition nonempty {A} (l : list A) : bool :=
  match l with [] => false | _ => true end.

(** *** Row selection, concatenation, truncation *)

(** One element of [series.isin(values)] for a list of strings: only an
    equal string is a member; NaN, numbers and Timestamps are not. *)
Definition isin (values : list string) (c : cell) : bool :=
  match c with
  | CStr s => bool_decide (s ∈ values)
  | _ => false
  end.

(** [df[mask]] where the mask is [p] on each row: the rows kept, in order,
    with their labels. *)
Definition select_rows (p : row -> bool) (df : DataFrame) : DataFrame :=
  mkDF (columns df) (filter (fun lr => p lr.2) (rows df)).

(** [pd.concat([a, b], ignore_index=True)] *)
Definition concat_frames (a b : DataFrame) : DataFrame :=
  mkDF (remove_dups (columns a ++ columns b)) (relabel (rows a ++ rows b)).

(** [df.tail(n)]: the last [n] rows. *)
Definition tail (n : nat) (df : DataFrame) : DataFrame :=
  mkDF (columns df) (drop (length (rows df) - n) (rows df)).

(** [df.reset_index(drop=True)] *)
Definition reset_index_drop (df : DataFrame) : DataFrame :=
  mkDF (columns df) (relabel (rows df)).

(** [df.reset_index()]: the old labels become a column ["index"].  (On a
    frame that already has a column of this name pandas calls the new one
    ["level_0"]; this case is not modelled, and the statements that reach
    [reset_index] are about frames without such a column.) *)
Definition reset_index (df : DataFrame) : DataFrame :=
  mkDF ("index" :: columns df)
       (imap (fun i lr => (i, <["index" := CInt (Z.of_nat lr.1)]> lr.2)) (rows df)).

(** [df[c] = values]: a column is replaced, or added at the end; the values
    go to the rows in order (a row beyond them gets NaN). *)
Definition set_column (c : string) (values : list cell) (df : DataFrame) : DataFrame :=
  mkDF (if has_column c df then columns df else columns df ++ [c])
       (imap (fun i lr => (lr.1, <[c := default NaN (values !! i)]> lr.2)) (rows df)).

(** *** Sorting by the timestamp column *)

(** The sort key of a cell of a datetime column; [None] for a missing
    value.  A ["timestamp"] column holds Timestamps and NaT only: it comes
    from [generate_live_rows] or from [pd.to_datetime]. *)
Definition time_key (c : cell) : option Z :=
  match c with CTime t => Some t | _ => None end.

(** Order of two keys in [sort_values]: ascending or descending on the
    Timestamps, missing values last either way ([na_position="last"]). *)
Definition key_before (ascending : bool) (a b : option Z) : Prop :=
  match a, b with
  | Some x, Some y => if ascending then x <= y else y <= x
  | _, None => True
  | None, Some _ => False
  end.

Definition row_before (c : string) (ascending : bool) (a b : nat * row) : Prop :=
  key_before ascending (time_key (field c a.2)) (time_key (field c b.2)).

#[global] Instance key_before_dec asc a b : Decision (key_before asc a b).
Proof. destruct a, b, asc; simpl; apply _. Defined.

#[global] Instance row_before_dec c asc a b : Decision (row_before c asc a b).
Proof. unfold row_before; apply _. Defined.

(** [df.sort_values(c, ascending=..)].  pandas does not promise an order
    among rows with equal keys (its default sort is not stable), and neither
    does the merge sort used here: the order it leaves among such rows is
    one of many, and the statements below say nothing about it; they speak
    of the rows as a permutation and of the order of the keys. *)
Definition sort_values (c : string) (ascending : bool) (df : DataFrame) : DataFrame :=
  mkDF (columns df) (merge_sort (row_before c ascending) (rows df)).

(** *** Statistics of a numeric column *)

(** The float64 values of a column: ints are converted; a string or a
    Timestamp is not a number. *)
Definition to_float (c : cell) : option float :=
  match c with
  | CFloat x => Some x
  | CInt z => Some (float_of_Z z)
  | _ => None
  end.

Definition numeric (cs : list cell) : option (list float) := mapM to_float cs.

(** The values that are not NaN ([skipna=True]). *)
Definition dropna (xs : list float) : list float :=
  filter (fun x => is_nan x = false) xs.

(** Sum in float64, left to right from [0.0].  (pandas may add the values
    in another order; on three equal values every order gives the same
    sum.) *)
Definition fsum (xs : list float) : float := foldl fadd (S754_zero false) xs.

(** [series.mean()]: the float64 sum of the values present divided by their
    count; NaN when there is none. *)
Definition series_mean (xs : list float) : float :=
  match dropna xs with
  | [] => S754_nan
  | ys => fdiv (fsum ys) (float_of_Z (Z.of_nat (length ys)))
  end.

Definition fmin (a b : float) : float := if fltb b a then b else a.
Definition fmax (a b : float) : float := if fltb a b then b else a.

(** [series.min()], [series.max()]: over the values present; NaN when there
    is none. *)
Definition series_min (xs : list float) : float :=
  match dropna xs with
  | [] => S754_nan
  | y :: ys => foldl fmin y ys
  end.

Definition series_max (xs : list float) : float :=
  match dropna xs with
  | [] => S754_nan
  | y :: ys => foldl fmax y ys
  end.

(** [series.max()] of a datetime column: the latest Timestamp, [None] (NaT)
    when there is none. *)
Definition latest (cs : list cell) : option Z :=
  foldl (fun acc c => match acc, time_key c with
                      | Some a, Some t => Some (Z.max a t)
                      | None, k => k
                      | a, None => a
                      end) None cs.

(** A column is datetime-like when it holds Timestamps and NaT only (the
    [.dt] accessor needs that). *)
Definition is_datetimelike (cs : list cell) : bool :=
  forallb (fun c => match c with CTime _ | CNaT => true | _ => false end) cs.

(** *** The exact value of a float *)

(** The smallest exponent of binary64: [-1074]. *)
Definition emin : Z := SpecFloat.emin prec emax.

(** A number: a zero or a finite float in canonical form (what parsing and
    arithmetic produce); not NaN, not an infinity. *)
Definition is_number (x : float) : bool :=
  match x with
  | S754_zero _ => true
  | S754_finite _ m e => bounded prec emax m e
  | _ => false
  end.

(** The value [m * 2^e] of a number times [2^1074], an integer because
    [e >= -1074]. *)
Definition scaled (x : float) : Z :=
  match x with
  | S754_finite s m e => cond_Zopp s (Zpos m) * 2 ^ (e - emin)
  | _ => 0
  end.

(** The value of a number as a rational. *)
Definition exact (x : float) : Q := Qmake (scaled x) (2 ^ 1074)%positive.

(** The mean of the values in exact arithmetic. *)
Definition exact_sum (xs : list float) : Q := foldr Qplus 0%Q (map exact xs).
Definition exact_mean (xs : list float) : Q :=
  (exact_sum xs / inject_Z (Z.of_nat (length xs)))%Q.

(** *** The rounding error of the float64 mean *)

(** The unit roundoff of binary64, [2^-53], and half the least positive
    number, [2^-1075]. *)
Definition unit_roundoff : Q := 1 # (2 ^ 53).

Definition half_least : Q := 1 # (2 ^ 1075).

(** [(1 + 2^-53)^n] *)
Fixpoint growth (n : nat) : Q :=
  match n with
  | O => 1
  | S n' => (1 + unit_roundoff) * growth n'
  end.

(** The sum of the absolute values, in exact arithmetic. *)
Definition exact_abs_sum (xs : list float) : Q :=
  foldr Qplus 0%Q (map (fun x => Qabs (exact x)) xs).

(** How far the float64 mean of [xs] can be from their mean: the relative
    error [(1 + 2^-53)^(n+1) - 1] of [n - 1] additions and a division, on
    the mean of the absolute values, and the absolute error of a quotient
    that underflows. *)
Definition mean_error (xs : list float) : Q :=
  ((growth (S (length xs)) - 1) *
   (exact_abs_sum xs / inject_Z (Z.of_nat (length xs))) + half_least)%Q.

(** For the proofs about rounding.  [inb mrs N D]: the record [mrs] (a
    mantissa and the two bits that [SpecFloat] shifts out of it) locates the rational [N / D] between its
    integer [shr_m] and the next one; the two bits say where: on the
    integer, below the middle, on the middle, above it. *)
Definition inb (mrs : shr_record) (N D : Z) : Prop :=
  let m := shr_m mrs in
  0 <= m /\ 0 < D /\
  match shr_r mrs, shr_s mrs with
  | false, false => N = m * D
  | false, true => m * D < N /\ 2 * N < (2 * m + 1) * D
  | true, false => 2 * N = (2 * m + 1) * D
  | true, true => (2 * m + 1) * D < 2 * N /\ N < (m + 1) * D
  end.

(** An infinity: what an operation that overflows returns. *)
Definition is_infinity (x : float) : bool :=
  match x with S754_infinity _ => true | _ => false end.

(** *** The filter stage (app.py 119-124) *)

(** Line 120-121: the metric filter runs when the column exists and the
    selection is not empty; [None] when it does not run ([data_df] is not
    rebound). *)
Definition metric_step (metric_filter : list string) (d : DataFrame) : option DataFrame :=
  if has_column "metric_type" d && nonempty metric_filter
  then Some (select_rows (fun r => isin metric_filter (field "metric_type" r)) d)
  else None.

(** Line 122-124: the sensor filter, likewise. *)
Definition sensor_step (sensor_filter : list string) (d : DataFrame) : option DataFrame :=
  if nonempty sensor_filter then
    if has_column "sensor_id" d
    then Some (select_rows (fun r => isin sensor_filter (field "sensor_id" r)) d)
    else None
  else None.

(** The frame [data_df] is bound to after line 124. *)
Definition filter_stage (metric_filter sensor_filter : list string) (d : DataFrame) : DataFrame :=
  if df_empty d then d
  else
    let d1 := default d (metric_step metric_filter d) in
    default d1 (sensor_step sensor_filter d1).

(** What one of the two filters lets through: everything when the selection
    is empty or the frame has no such column, else the rows whose cell is one
    of the selected strings. *)
Definition passes (values : list string) (c : string) (d : DataFrame) (r : row) : bool :=
  negb (nonempty values) || negb (has_column c d) || isin values (field c r).

Definition retained (metric_filter sensor_filter : list string) (d : DataFrame) (r : row) : bool :=
  passes metric_filter "metric_type" d r && passes sensor_filter "sensor_id" d r.

(** A cell that holds no value. *)
Definition is_missing (c : cell) : bool :=
  match c with
  | CFloat S754_nan | CNaT => true
  | _ => false
  end.

(** *** CSV text *)

Definition comma : ascii := ","%char.
Definition dquote : ascii := ascii_of_nat 34.
Definition LF : ascii := ascii_of_nat 10.
Definition CR : ascii := ascii_of_nat 13.

Definition special (a : ascii) : bool :=
  bool_decide (a ∈ [comma; dquote; LF; CR]).

Fixpoint needs_quote (s : string) : bool :=
  match s with
  | EmptyString => false
  | String a s' => special a || needs_quote s'
  end.

(** Every quote doubled. *)
Fixpoint escape_quotes (s : string) : string :=
  match s with
  | EmptyString => EmptyString
  | String a s' =>
      if bool_decide (a = dquote) then String dquote (String dquote (escape_quotes s'))
      else String a (escape_quotes s')
  end.

(** A field as the csv writer puts it out ([QUOTE_MINIMAL]). *)
Definition csv_field (s : string) : string :=
  if needs_quote s then String dquote (escape_quotes s +:+ String dquote EmptyString)
  else s.

Definition join (sep : ascii) (fields : list string) : string :=
  match fields with
  | [] => EmptyString
  | f :: fs => foldl (fun acc g => acc +:+ String sep g) f fs
  end.

(** One record; a record that is a single empty field is written as a pair
    of quotes (a blank line would be skipped on reading). *)
Definition csv_line (fields : list string) : string :=
  match fields with
  | [EmptyString] => String dquote (String dquote (String LF EmptyString))
  | _ => join comma (map csv_field fields) +:+ String LF EmptyString
  end.

(** *** Shapes of a list of timestamps *)

(** Consecutive elements are exactly [d] apart. *)
Definition spaced (d : Z) (ts : list Z) : Prop :=
  forall i a b, ts !! i = Some a -> ts !! S i = Some b -> b = a + d.

(** Strictly increasing. *)
Definition increasing (ts : list Z) : Prop :=
  forall i j a b, (i < j)%nat -> ts !! i = Some a -> ts !! j = Some b -> a < b.

(** ** Exceptions, widgets, the state of a pass *)

(** The exceptions of the script and its libraries, all of them subclasses
    of [Exception]. *)
Inductive exn : Type :=
| KeyError (key : string)
| TypeError (msg : string)
| ValueError (msg : string)
| AttributeError (msg : string)
| OtherError (msg : string).   (* whatever a library call raises (ParserError, ...) *)

(** A heap address of a DataFrame object. *)
Definition loc : Type := nat.

(** [px.line(df, x=.., y=.., color=..)]: the frame plotted and the columns
    used.  The layout and color arguments do not enter. *)
Record figure : Type := mkFig {
  fig_data : DataFrame;
  fig_x : string;
  fig_y : string;
  fig_color : string
}.

(** What the script renders, in order.  Layout calls ([st.columns],
    [st.expander], [st.empty]) are not recorded, nor are the fixed headings
    and the input widgets of the sidebar (lines 74-86, 97): the values read
    from them are the [controls] below. *)
Inductive widget : Type :=
| st_sidebar_error (msg : string)
| st_sidebar_info (msg : string)
| st_title (s : string)
| st_subheader (s : string)
| st_info (msg : string)
| st_plotly_chart (fig : figure)
| st_write (s : string)
| st_metric (label value : string)
| st_markdown (s : string)
| st_dataframe (df : DataFrame)
| st_download_button (label data file_name mime : string).

(** [st.session_state]: the two keys the script uses; [None] is "key not
    in session_state". *)
Record session_state : Type := mkSession {
  live_buffer : option loc;
  last_live_time : option Z
}.

Inductive mode_t : Type := Live | UploadCSV | SampleData.

(** The sidebar controls of one pass.  The refresh interval only sets when
    the next pass starts; no line of the pass reads it. *)
Record controls : Type := mkControls {
  mode : mode_t;
  auto_refresh : bool;
  show_table : bool;
  download_btn : bool;
  metric_filter : list string;
  sensor_filter : list string;
  uploaded : option string       (* the bytes of the uploaded file, if any *)
}.

(** *** Texts that survive a CSV round trip *)


(** ** A model of [pd.read_csv]

    The reader with its default options, as far as the script's own
    exports need it: records and fields with the csv quoting rules, blank
    lines skipped, the first record as the header, pandas' default missing
    value tokens, and the type of a column inferred from all its fields
    (int64, else float64, else str).  Not modelled: boolean columns, index
    columns, renaming of repeated column names; a record longer than the
    header is refused. *)

Inductive tokenizer_state : Type :=
| LineStart        (* at the start of a line *)
| FieldStart       (* after a comma *)
| Unquoted         (* inside a field without quotes *)
| Quoted           (* inside a quoted field *)
| QuoteInQuoted.   (* after a quote inside a quoted field *)

Definition is_newline (a : ascii) : bool := bool_decide (a = LF) || bool_decide (a = CR).
Definition is_comma (a : ascii) : bool := bool_decide (a = comma).
Definition is_dquote (a : ascii) : bool := bool_decide (a = dquote).

Definition snoc_char (s : string) (a : ascii) : string := s +:+ String a EmptyString.

(** The records of a text, each the list of its fields; [field] and
    [record] are the field and the record read so far. *)
Fixpoint tokenize (st : tokenizer_state) (field : string) (record : list string)
    (s : string) : list (list string) :=
  match s with
  | EmptyString =>
      match st with
      | LineStart => []
      | _ => [record ++ [field]]
      end
  | String a s' =>
      match st with
      | LineStart =>
          if is_newline a then tokenize LineStart "" [] s'
          else if is_dquote a then tokenize Quoted "" [] s'
          else if is_comma a then tokenize FieldStart "" [""] s'
          else tokenize Unquoted (String a EmptyString) [] s'
      | FieldStart =>
          if is_newline a then (record ++ [""]) :: tokenize LineStart "" [] s'
          else if is_dquote a then tokenize Quoted "" record s'
          else if is_comma a then tokenize FieldStart "" (record ++ [""]) s'
          else tokenize Unquoted (String a EmptyString) record s'
      | Unquoted =>
          if is_newline a then (record ++ [field]) :: tokenize LineStart "" [] s'
          else if is_comma a then tokenize FieldStart "" (record ++ [field]) s'
          else tokenize Unquoted (snoc_char field a) record s'
      | Quoted =>
          if is_dquote a then tokenize QuoteInQuoted field record s'
          else tokenize Quoted (snoc_char field a) record s'
      | QuoteInQuoted =>
          if is_dquote a then tokenize Quoted (snoc_char field a) record s'
          else if is_newline a then (record ++ [field]) :: tokenize LineStart "" [] s'
          else if is_comma a then tokenize FieldStart "" (record ++ [field]) s'
          else tokenize Unquoted (snoc_char field a) record s'
      end
  end.

(** The default [na_values]. *)
Definition na_values : list string :=
  [""; "#N/A"; "#N/A N/A"; "#NA"; "-1.#IND"; "-1.#QNAN"; "-NaN"; "-nan"; "1.#IND";
   "1.#QNAN"; "<NA>"; "N/A"; "NA"; "NULL"; "NaN"; "None"; "n/a"; "nan"; "null"].

Definition is_na (f : string) : bool := bool_decide (f ∈ na_values).

(** A decimal integer, with an optional minus sign. *)
Definition parse_int (f : string) : option Z := Z.of_int <$> NilZero.int_of_string f.

Inductive kind : Type := KInt | KFloat | KStr.

Section Reader.

Variable parse_float : string -> option float.   (* the text of a float, read *)

(** The type of a column, from its fields: int64 when every field is an
    integer, float64 when the fields present are numbers, else str. *)
Definition column_kind (fields : list string) : kind :=
  let present := filter (fun f => is_na f = false) fields in
  if forallb (fun f => bool_decide (is_Some (parse_int f))) present then
    if forallb (fun f => negb (is_na f)) fields then KInt else KFloat
  else if forallb (fun f => bool_decide (is_Some (parse_float f))) present then KFloat
  else KStr.

(** The cell of a field in a column of kind [k]. *)
Definition convert (k : kind) (f : string) : cell :=
  if is_na f then NaN
  else
    match k with
    | KInt => from_option CInt NaN (parse_int f)
    | KFloat =>
        match parse_int f with
        | Some z => CFloat (float_of_Z z)
        | None => from_option CFloat NaN (parse_float f)
        end
    | KStr => CStr f
    end.

(** A record cut or filled with empty fields to [n] fields. *)
Definition pad (n : nat) (record : list string) : list string :=
  take n (record ++ replicate n "").

Definition read_csv_model (text : string) : exn + DataFrame :=
  match tokenize LineStart "" [] text with
  | [] => inl (OtherError "EmptyDataError: No columns to parse from file")
  | header :: records =>
      if existsb (fun record => (length header <? length record)%nat) records
      then inl (OtherError "ParserError: Error tokenizing data")
      else
        let records := map (pad (length header)) records in
        let kinds :=
          map (fun j => column_kind (map (fun record => default "" (record !! j)) records))
              (seq 0 (length header)) in
        inr (mkDF header
               (imap (fun i record =>
                        (i, list_to_map (zip header (zip_with convert kinds record))))
                     records))
  end.

End Reader.

(** ** A small outside world, to run the script on examples

    The clock counts seconds from 2024-01-01 00:00:00, the random integers
    count up, and [random.random()] is always [0.0].  The library calls are
    given for the inputs the examples meet: [round] and the float texts up to
    15 decimals, the time texts in the one format the script uses. *)

Definition demo_epoch : Z := 1704067200.     (* 2024-01-01 00:00:00 in seconds *)
Definition demo_now (w : Z) : Z * Z := (timedelta_seconds (demo_epoch + w), w + 1).
Definition demo_getrandbits (w : Z) : Z * Z := (w, w + 1).
Definition demo_random (w : Z) : float * Z := (S754_zero false, w).

(** [num / den] rounded to the nearest integer, ties to even. *)
Definition round_half_even (num den : Z) : Z :=
  let q := num / den in
  let r := num mod den in
  if 2 * r <? den then q
  else if den <? 2 * r then q + 1
  else if Z.even q then q else q + 1.

(** The value of a number times [10^k], rounded to an integer. *)
Definition decimal_digits (k : Z) (x : float) : Z :=
  round_half_even (scaled x * 10 ^ k) (2 ^ 1074).

(** [round(x, ndigits)]: the float nearest to the value rounded to
    [ndigits] decimals. *)
Definition demo_round (x : float) (ndigits : Z) : float :=
  if is_number x
  then fdiv (float_of_Z (decimal_digits ndigits x)) (float_of_Z (10 ^ ndigits))
  else x.

(** [n] in decimal, filled with zeros on the left to [width] digits. *)
Definition zero_padded (width : nat) (n : Z) : string :=
  let digits := str_of_Z n in
  foldr append digits (replicate (width - String.length digits) "0").

(** The text of [n / 10^k] with exactly [k] decimals ([k >= 1]). *)
Definition decimal_text (k : nat) (n : Z) : string :=
  let p := 10 ^ Z.of_nat k in
  (if n <? 0 then "-" else "") +:+ str_of_Z (Z.abs n / p) +:+ "." +:+
  zero_padded k (Z.abs n mod p).

(** [f"{x:.2f}"] *)
Definition demo_format_2f (x : float) : string :=
  if is_number x then decimal_text 2 (decimal_digits 2 x) else "nan".

Definition all_digits (s : string) : bool :=
  forallb (fun a => (48 <=? nat_of_ascii a)%nat && (nat_of_ascii a <=? 57)%nat)
          (list_ascii_of_string s).

(** The position of the first dot of a text. *)
Fixpoint dot_position (s : string) : option nat :=
  match s with
  | EmptyString => None
  | String a s' => if bool_decide (a = "."%char) then Some 0%nat else S <$> dot_position s'
  end.

(** [float(text)] for a plain decimal with at most 15 digits. *)
Definition demo_parse_float (text : string) : option float :=
  match dot_position text with
  | None => None
  | Some i =>
      let whole := substring 0 i text in
      let frac := substring (S i) (String.length text - S i) text in
      let unsigned := match whole with String "-" w => w | _ => whole end in
      if all_digits unsigned && all_digits frac && negb (bool_decide (unsigned = ""))
         && negb (bool_decide (frac = "")) && (String.length unsigned + String.length frac <=? 15)%nat
      then
        match parse_int (whole +:+ frac) with
        | Some n => Some (fdiv (float_of_Z n) (float_of_Z (10 ^ Z.of_nat (String.length frac))))
        | None => None
        end
      else None
  end.

(** The shortest decimal text that reads back as [x], trying 1 to 15
    decimals. *)
Fixpoint shortest_text (fuel k : nat) (x : float) : string :=
  match fuel with
  | O => "nan"
  | S fuel' =>
      let text := decimal_text k (decimal_digits (Z.of_nat k) x) in
      match demo_parse_float text with
      | Some y => if bool_decide (scaled y = scaled x) then text else shortest_text fuel' (S k) x
      | None => shortest_text fuel' (S k) x
      end
  end.

(** [repr(x)] *)
Definition demo_repr_float (x : float) : string :=
  if is_number x then shortest_text 15 1 x else "nan".

(** The civil date of a day number (days since 1970-01-01). *)
Definition civil_from_days (z : Z) : Z * Z * Z :=
  let z := z + 719468 in
  let era := z / 146097 in
  let doe := z mod 146097 in
  let yoe := (doe - doe / 1460 + doe / 36524 - doe / 146096) / 365 in
  let doy := doe - (365 * yoe + yoe / 4 - yoe / 100) in
  let mp := (5 * doy + 2) / 153 in
  let d := doy - (153 * mp + 2) / 5 + 1 in
  let m := if mp <? 10 then mp + 3 else mp - 9 in
  (yoe + era * 400 + (if m <=? 2 then 1 else 0), m, d).

Definition days_from_civil (y m d : Z) : Z :=
  let y := y - (if m <=? 2 then 1 else 0) in
  let era := y / 400 in
  let yoe := y - era * 400 in
  let doy := (153 * (if 2 <? m then m - 3 else m + 9) + 2) / 5 + d - 1 in
  let doe := yoe * 365 + yoe / 4 - yoe / 100 + doy in
  era * 146097 + doe - 719468.

(** [YYYY-MM-DD HH:MM:SS] of a Timestamp. *)
Definition date_time_text (t : Z) : string :=
  let secs := t / 1000000000 in
  let '(y, m, d) := civil_from_days (secs / 86400) in
  let sod := secs mod 86400 in
  zero_padded 4 y +:+ "-" +:+ zero_padded 2 m +:+ "-" +:+ zero_padded 2 d +:+ " " +:+
  zero_padded 2 (sod / 3600) +:+ ":" +:+ zero_padded 2 (sod / 60 mod 60) +:+ ":" +:+
  zero_padded 2 (sod mod 60).

(** [ts.strftime(fmt)] for the format of the script. *)
Definition demo_strftime (fmt : string) (t : Z) : string :=
  if bool_decide (fmt = "%Y-%m-%d %H:%M:%S") then date_time_text t else fmt.

(** [str(ts)]: the fraction of the second follows when it is not zero. *)
Definition demo_str_of_timestamp (t : Z) : string :=
  let ns := t mod 1000000000 in
  if ns =? 0 then date_time_text t
  else if ns mod 1000 =? 0 then date_time_text t +:+ "." +:+ zero_padded 6 (ns / 1000)
  else date_time_text t +:+ "." +:+ zero_padded 9 ns.

Definition digits_at (start n : nat) (s : string) : option Z :=
  let part := substring start n s in
  if all_digits part && (String.length part =? n)%nat then parse_int part else None.

(** The Timestamp of a text [YYYY-MM-DD HH:MM:SS] with an optional fraction
    of 1 to 9 digits. *)
Definition demo_parse_timestamp (s : string) : option Z :=
  y ← digits_at 0 4 s; m ← digits_at 5 2 s; d ← digits_at 8 2 s;
  h ← digits_at 11 2 s; mi ← digits_at 14 2 s; sec ← digits_at 17 2 s;
  let separators := [get 4 s; get 7 s; get 10 s; get 13 s; get 16 s] in
  if negb (bool_decide (separators = [Some "-"; Some "-"; Some " "; Some ":"; Some ":"]%char))
  then None
  else
    let whole := ((days_from_civil y m d * 86400) + h * 3600 + mi * 60 + sec) * 1000000000 in
    let len := String.length s in
    if (len =? 19)%nat then Some whole
    else if bool_decide (get 19 s = Some "."%char) && (20 <? len)%nat && (len <=? 29)%nat then
      frac ← digits_at 20 (len - 20) s;
      Some (whole + frac * 10 ^ Z.of_nat (29 - len))
    else None.

(** [pd.to_datetime(series, errors="coerce")]: what does not read as a
    time is NaT. *)
Definition demo_to_datetime (cs : list cell) : exn + list (option Z) :=
  inr (map (fun c => match c with
                     | CStr s => demo_parse_timestamp s
                     | CTime t => Some t
                     | _ => None
                     end) cs).

(** ** Row sets and controls of the examples *)

(** The columns of a generated row set. *)
Definition four_columns : list string := ["timestamp"; "sensor_id"; "metric_type"; "value"].

(** Three rows with value [0.1] (the binary64 number nearest to 0.1), as an
    uploaded file with a [value] column [0.1, 0.1, 0.1] gives. *)
Definition three_tenths : DataFrame :=
  mkDF ["value"]
       [(0%nat, {[ "value" := CFloat f0_1 ]});
        (1%nat, {[ "value" := CFloat f0_1 ]});
        (2%nat, {[ "value" := CFloat f0_1 ]})].

(** The filter rule in the words of C3: a row is kept iff its [metric_type] is selected or the
    metric selection is empty, and likewise for [sensor_id]. *)
Definition filter_claim_as_stated : Prop :=
  forall (mf sf : list string) (d : DataFrame) (lr : nat * row),
    lr ∈ rows (filter_stage mf sf d) <->
    lr ∈ rows d /\
    (mf = [] \/ exists m, lr.2 !! "metric_type" = Some (CStr m) /\ m ∈ mf) /\
    (sf = [] \/ exists x, lr.2 !! "sensor_id" = Some (CStr x) /\ x ∈ sf).


(** Two rows of the four columns: one with a Timestamp, one without. *)
Definition two_rows : DataFrame :=
  mkDF four_columns
       [(0%nat, {[ "timestamp" := CTime 1704067200500000000;
                   "sensor_id" := CStr "sensor_1";
                   "metric_type" := CStr "temperature";
                   "value" := CFloat (fdiv (float_of_Z 201) (float_of_Z 2)) ]});
        (1%nat, {[ "timestamp" := CNaT;
                   "sensor_id" := CStr "sensor_4";
                   "metric_type" := CStr "humidity";
                   "value" := CFloat (float_of_Z 95) ]})].




(** Two generated rows, the later one first. *)
Definition sample_rows : DataFrame :=
  mkDF four_columns
       [(0%nat, {[ "timestamp" := CTime 1704067204000000000;
                   "sensor_id" := CStr "sensor_2";
                   "metric_type" := CStr "humidity";
                   "value" := CFloat (float_of_Z 101) ]});
        (1%nat, {[ "timestamp" := CTime 1704067202000000000;
                   "sensor_id" := CStr "sensor_1";
                   "metric_type" := CStr "temperature";
                   "value" := CFloat (float_of_Z 99) ]})].

(** A row set without a [value] column. *)
Definition ids_only : DataFrame :=
  mkDF ["sensor_id"] [(0%nat, {[ "sensor_id" := CStr "sensor_1" ]})].

(** An upload with a [timestamp] column: one time, and one text that is
    none; and the frame [read_csv] makes of it. *)
Definition stamped_file : string :=
  "timestamp,value" +:+ String LF
  ("2024-01-01 00:00:02,1.5" +:+ String LF
  ("soon,2.5" +:+ String LF "")).

Definition stamped_rows : DataFrame :=
  mkDF ["timestamp"; "value"]
       [(0%nat, {[ "timestamp" := CStr "2024-01-01 00:00:02";
                   "value" := CFloat (fdiv (float_of_Z 3) (float_of_Z 2)) ]});
        (1%nat, {[ "timestamp" := CStr "soon";
                   "value" := CFloat (fdiv (float_of_Z 5) (float_of_Z 2)) ]})].

(** A row whose [sensor_id] holds a comma and a quote. *)
Definition quoted_rows : DataFrame :=
  mkDF ["sensor_id"; "value"]
       [(0%nat, {[ "sensor_id" := CStr ("a,b" +:+ String dquote "c");
                   "value" := CFloat f100 ]})].

(** A row set filtered down to nothing: the four columns, no rows. *)
Definition no_rows : DataFrame := mkDF four_columns [].

(** The sidebar as the script first shows it, in the given mode. *)
Definition demo_controls (m : mode_t) (auto : bool) (file : option string) : controls :=
  mkControls m auto true true ["temperature"; "humidity"] [] file.

Section Dashboard.

(** The outside world and the library calls whose results the script only
    passes on: the clock and random source, [round], float and time
    formatting, and pandas' CSV reader and date parser. *)
Variable W : Type.
Variable datetime_now : W -> Z * W.              (* datetime.now() *)
Variable getrandbits : W -> Z * W.               (* raw random integer *)
Variable random_random : W -> float * W.         (* random.random() *)
Variable py_round : float -> Z -> float.         (* round(x, ndigits) *)

Record state : Type := mkState {
  world : W;
  heap : list DataFrame;
  session : session_state;
  ui : list widget
}.

(** A computation: from a state to a value or a raised exception, and the
    state reached. *)
Definition M (A : Type) : Type := state -> (exn + A) * state.

Definition ret {A} (a : A) : M A := fun s => (inr a, s).
Definition raise {A} (e : exn) : M A := fun s => (inl e, s).
Definition bind {A B} (m : M A) (k : A -> M B) : M B :=
  fun s => match m s with
           | (inl e, s') => (inl e, s')
           | (inr a, s') => k a s'
           end.
(** [try: m  except Exception: h] *)
Definition try_except {A} (m : M A) (h : exn -> M A) : M A :=
  fun s => match m s with
           | (inl e, s') => h e s'
           | (inr a, s') => (inr a, s')
           end.

Notation "'let*' x ':=' m 'in' k" := (bind m (fun x => k))
  (at level 10, x name, m at level 200, k at level 200, only parsing).
Notation "m ';;' k" := (bind m (fun _ => k))
  (at level 100, k at level 200, only parsing).

Fixpoint for_each {A B} (body : A -> M B) (xs : list A) : M (list B) :=
  match xs with
  | [] => ret []
  | x :: xs' => let* y := body x in let* ys := for_each body xs' in ret (y :: ys)
  end.

(** *** Primitive effects *)

Definition with_world {A} (f : W -> A * W) : M A :=
  fun s => let '(a, w) := f (world s) in
           (inr a, mkState w (heap s) (session s) (ui s)).

(** A new DataFrame object. *)
Definition alloc (df : DataFrame) : M loc :=
  fun s => (inr (length (heap s)),
            mkState (world s) (heap s ++ [df]) (session s) (ui s)).

Definition load (l : loc) : M DataFrame :=
  fun s => match heap s !! l with
           | Some df => (inr df, s)
           | None => (inl (OtherError "dangling reference"), s)
           end.

(** In-place update of the object at [l]. *)
Definition store (l : loc) (df : DataFrame) : M unit :=
  fun s => (inr tt, mkState (world s) (<[l := df]> (heap s)) (session s) (ui s)).

Definition get_session : M session_state := fun s => (inr (session s), s).
Definition put_session (ss : session_state) : M unit :=
  fun s => (inr tt, mkState (world s) (heap s) ss (ui s)).

Definition render (w : widget) : M unit :=
  fun s => (inr tt, mkState (world s) (heap s) (session s) (ui s ++ [w])).

(** *** The [random] module *)

Definition randbelow (n : Z) : M Z :=
  let* k := with_world getrandbits in ret (k mod n).

(** [random.randint(a, b)] *)
Definition randint (a b : Z) : M Z :=
  let* k := randbelow (b - a + 1) in ret (a + k).

(** [random.choice(seq)] on a non-empty list of strings *)
Definition choice (l : list string) : M string :=
  let* k := randbelow (Z.of_nat (length l)) in
  ret (default "" (l !! Z.to_nat k)).

(** [random.uniform(a, b)] for ints [a], [b]: [a + (b - a) * random()] *)
Definition uniform (a b : Z) : M float :=
  let* r := with_world random_random in
  ret (fadd (float_of_Z a) (fmul (float_of_Z (b - a)) r)).

(** *** [generate_live_rows] (app.py 35-48) *)

(** The body of the loop for index [i]: one record. *)
Definition generate_row (n start_time i : Z) : M (list (string * cell)) :=
  let t := start_time - timedelta_seconds ((n - i) * 2) in
  let* k := randint 1 4 in
  let* m := choice ["temperature"; "humidity"] in
  let* u := uniform (-5) 5 in
  ret [("timestamp", CTime t);
       ("sensor_id", CStr ("sensor_" +:+ str_of_Z k));
       ("metric_type", CStr m);
       ("value", CFloat (py_round (fadd (fadd f100 u) (fmul (float_of_Z i) f0_1)) 2))].

Definition generate_live_rows (n : Z) (start_time : option Z) : M loc :=
  let* start_time :=
    match start_time with
    | None => with_world datetime_now
    | Some t => ret t
    end in
  let* recs := for_each (generate_row n start_time) (range n) in
  alloc (DataFrame_of_records recs).

(** *** Text of cells: [astype(str)] and [to_csv] *)

Variable repr_float : float -> string.           (* repr(x) of a float *)
Variable str_of_timestamp : Z -> string.         (* str(ts) of a Timestamp *)
Variable strftime : string -> Z -> string.       (* ts.strftime(fmt) *)
Variable format_2f : float -> string.            (* f"{x:.2f}" *)

(** [str(x)] of a cell. *)
Definition py_str (c : cell) : string :=
  match c with
  | CStr s => s
  | CFloat x => repr_float x
  | CInt z => str_of_Z z
  | CTime t => str_of_timestamp t
  | CNaT => "NaT"
  end.

(** A cell as [to_csv] writes it: a missing value is the empty field. *)
Definition csv_text (c : cell) : string :=
  match c with
  | CFloat x => if is_nan x then "" else repr_float x
  | CNaT => ""
  | _ => py_str c
  end.

(** [df.to_csv(index=False)]: the header line and one line per row. *)
Definition to_csv (df : DataFrame) : string :=
  foldr append "" (csv_line (columns df) ::
                   map (fun lr => csv_line (map (fun c => csv_text (field c lr.2)) (columns df)))
                       (rows df)).

(** *** [parse_uploaded_csv] (app.py 53-60) *)

(** [pd.to_datetime(.., errors="coerce")] raises, or returns a datetime64
    column: Timestamps and NaT.  (For texts with different UTC offsets
    pandas before 3.0 returns a column of Python datetimes instead, on which
    the [.dt] of line 200 raises; a result of that kind is not modelled: a
    statement with [to_datetime .. = inr ts] is about a call that returned a
    datetime64 column.) *)
Variable read_csv : string -> exn + DataFrame.              (* pd.read_csv *)
Variable to_datetime : list cell -> exn + list (option Z).  (* pd.to_datetime(.., errors="coerce") *)

Definition lift {A} (r : exn + A) : M A :=
  match r with inl e => raise e | inr a => ret a end.

Definition time_cell (t : option Z) : cell :=
  match t with Some t => CTime t | None => CNaT end.

Definition parse_uploaded_csv (uploaded_file : string) : M (option loc) :=
  try_except
    (let* d := lift (read_csv uploaded_file) in
     let* df := alloc d in
     (if has_column "timestamp" d then
        let* ts := lift (to_datetime (series "timestamp" d)) in
        store df (set_column "timestamp" (map time_cell ts) d)
      else ret tt);;
     ret (Some df))
    (fun _ => ret None).

(** *** [format_df_for_plot] (app.py 65-69) *)

Definition format_df_for_plot (df : loc) : M loc :=
  let* d := load df in
  let* df2 := alloc d in                                   (* df.copy() *)
  if has_column "timestamp" d then alloc (sort_values "timestamp" true d)
  else ret df2.

(** *** The data of the pass (app.py 89-116) *)

Definition set_live_buffer (b : loc) : M unit :=
  let* ss := get_session in put_session (mkSession (Some b) (last_live_time ss)).

Definition set_last_live_time (t : Z) : M unit :=
  let* ss := get_session in put_session (mkSession (live_buffer ss) (Some t)).

(** [st.session_state.live_buffer] *)
Definition get_live_buffer : M loc :=
  let* ss := get_session in
  match live_buffer ss with
  | Some b => ret b
  | None => raise (AttributeError "live_buffer")
  end.

(** Lines 109-111: the buffer is created on the first live pass. *)
Definition init_buffer : M unit :=
  let* ss := get_session in
  match live_buffer ss with
  | None =>
      let* b := generate_live_rows 60 None in
      set_live_buffer b;;
      let* now := with_world datetime_now in
      set_last_live_time now
  | Some _ => ret tt
  end.

(** The frame a tick leaves in the buffer: the new rows appended, the last
    500 rows kept. *)
Definition appended (buffer new_rows : DataFrame) : DataFrame :=
  reset_index_drop (tail 500 (concat_frames buffer new_rows)).

(** Lines 113-115: one tick. *)
Definition tick : M unit :=
  let* now := with_world datetime_now in
  let* new_rows := generate_live_rows 5 (Some now) in
  let* b := get_live_buffer in
  let* old := load b in
  let* new := load new_rows in
  let* c := alloc (concat_frames old new) in
  set_live_buffer c;;
  let* b := get_live_buffer in
  let* cat := load b in
  let* tl := alloc (tail 500 cat) in
  let* last := load tl in
  let* t := alloc (reset_index_drop last) in
  set_live_buffer t.

(** Lines 109-115: the only part of a pass that assigns the buffer. *)
Definition live_step (c : controls) : M unit :=
  init_buffer;;
  (if auto_refresh c then tick else ret tt).

Definition produce_data (c : controls) : M loc :=
  let* data_df := alloc empty_frame in
  match mode c with
  | SampleData =>
      let* now := with_world datetime_now in
      generate_live_rows 200 (Some now)
  | UploadCSV =>
      match uploaded c with
      | Some file =>
          let* parsed := parse_uploaded_csv file in
          match parsed with
          | None => render (st_sidebar_error "Failed to parse CSV.");; ret data_df
          | Some p => ret p
          end
      | None => render (st_sidebar_info "No file uploaded.");; ret data_df
      end
  | Live =>
      live_step c;;
      let* b := get_live_buffer in
      let* d := load b in
      alloc d                                              (* .copy() *)
  end.

(** *** The filter stage as the script runs it (app.py 119-124) *)

(** [data_df = data_df[...]] when the step runs: a new object. *)
Definition rebind (step : DataFrame -> option DataFrame) (df : loc) : M loc :=
  let* d := load df in
  match step d with
  | Some d' => alloc d'
  | None => ret df
  end.

Definition apply_filters (c : controls) (data_df : loc) : M loc :=
  let* d := load data_df in
  if df_empty d then ret data_df
  else
    let* data_df := rebind (metric_step (metric_filter c)) data_df in
    rebind (sensor_step (sensor_filter c)) data_df.

(** *** The views (app.py 127-209) *)

(** [series.fillna("unknown")] on one cell. *)
Definition fillna_unknown (c : cell) : cell :=
  match c with
  | CFloat S754_nan | CNaT => CStr "unknown"
  | _ => c
  end.

(** [px.line(df, x, y, color)]: the columns must exist. *)
Definition px_line (d : DataFrame) (x y color : string) : M figure :=
  if has_column x d && has_column y d && has_column color d
  then ret (mkFig d x y color)
  else raise (ValueError "px.line: not a column of the data frame").

(** Lines 132-167. *)
Definition trend (data_df : loc) : M unit :=
  render (st_subheader "Trend");;
  let* d := load data_df in
  if df_empty d then render (st_info "No data available.")
  else
    let* df_plot := format_df_for_plot data_df in
    let* p := load df_plot in
    (if has_column "metric_type" p
     then store df_plot (set_column "metric_type" (map fillna_unknown (series "metric_type" p)) p)
     else store df_plot (set_column "metric_type" (replicate (len p) (CStr "unknown")) p));;
    let* p := load df_plot in
    let* fig :=
      (if has_column "timestamp" p
       then px_line p "timestamp" "value" "metric_type"
       else px_line (reset_index p) "index" "value" "metric_type") in
    render (st_plotly_chart fig).

(** [data_df["value"]] and a reduction of it. *)
Definition value_column (d : DataFrame) : M (list cell) :=
  if has_column "value" d then ret (series "value" d)
  else raise (KeyError "value").

Definition reduce (f : list float -> float) (cs : list cell) : M float :=
  match numeric cs with
  | Some xs => ret (f xs)
  | None => raise (TypeError "could not convert to numeric")
  end.

(** Lines 170-179. *)
Definition quick_stats (data_df : loc) : M unit :=
  let* d := load data_df in
  if df_empty d then render (st_write "-")
  else
    let* v := value_column d in
    let* avg := reduce series_mean v in
    let* v := value_column d in
    let* mn := reduce series_min v in
    let* v := value_column d in
    let* mx := reduce series_max v in
    render (st_metric "Average value" (format_2f avg));;
    render (st_metric "Min value" (format_2f mn));;
    render (st_metric "Max value" (format_2f mx)).

Definition time_format : string := "%Y-%m-%d %H:%M:%S".

Definition mode_name (m : mode_t) : string :=
  match m with
  | Live => "Live (simulated)"
  | UploadCSV => "Upload CSV"
  | SampleData => "Sample data"
  end.

(** Lines 183-193. *)
Definition controls_info (c : controls) (data_df : loc) : M unit :=
  render (st_subheader "Controls & Info");;
  let* d := load data_df in
  render (st_markdown ("- Mode: **" +:+ mode_name (mode c) +:+ "**"));;
  render (st_markdown ("- Rows: **" +:+ str_of_Z (Z.of_nat (len d)) +:+ "**"));;
  (if has_column "timestamp" d then
     match latest (series "timestamp" d) with
     | None => render (st_markdown "- Last timestamp: N/A")
     | Some last_ts =>
         render (st_markdown ("- Last timestamp: **" +:+ strftime time_format last_ts +:+ "**"))
     end
   else ret tt);;
  render (st_markdown "---").

(** One cell of [series.dt.strftime(fmt)]: NaT gives NaN. *)
Definition strftime_cell (c : cell) : cell :=
  match c with
  | CTime t => CStr (strftime time_format t)
  | _ => NaN
  end.

(** [display_df.assign(timestamp=display_df["timestamp"].dt.strftime(..))] *)
Definition assign_strftime (d : DataFrame) : exn + DataFrame :=
  if is_datetimelike (series "timestamp" d)
  then inr (set_column "timestamp" (map strftime_cell (series "timestamp" d)) d)
  else inl (AttributeError "Can only use .dt accessor with datetimelike values").

(** The frame handed to [st.dataframe] (lines 198-201). *)
Definition display_table (d : DataFrame) : exn + DataFrame :=
  let display_df := if has_column "timestamp" d then sort_values "timestamp" false d else d in
  if has_column "timestamp" display_df then
    match assign_strftime display_df with
    | inr t => inr (reset_index_drop t)
    | inl e => inl e
    end
  else inr (reset_index_drop display_df).

(** Lines 196-201. *)
Definition raw_table (c : controls) (data_df : loc) : M unit :=
  let* d := load data_df in
  if show_table c && negb (df_empty d) then
    render (st_subheader "Raw data (latest first)");;
    let* display_df :=
      (if has_column "timestamp" d then alloc (sort_values "timestamp" false d)
       else ret data_df) in
    let* dd := load display_df in
    let* display_df :=
      (if has_column "timestamp" dd then
         let* t := lift (assign_strftime dd) in alloc t
       else ret display_df) in
    let* dd := load display_df in
    let* shown := alloc (reset_index_drop dd) in
    let* sd := load shown in
    render (st_dataframe sd)
  else ret tt.

(** The bytes offered for download (lines 205-208). *)
Definition export_csv (d : DataFrame) : string :=
  let to_download :=
    if has_column "timestamp" d
    then set_column "timestamp" (map (fun c => CStr (py_str c)) (series "timestamp" d)) d
    else d in
  to_csv to_download.

(** Lines 204-209. *)
Definition download (c : controls) (data_df : loc) : M unit :=
  let* d := load data_df in
  if download_btn c && negb (df_empty d) then
    let* to_download := alloc d in                         (* .copy() *)
    let* td := load to_download in
    (if has_column "timestamp" td
     then store to_download
            (set_column "timestamp" (map (fun c => CStr (py_str c)) (series "timestamp" td)) td)
     else ret tt);;
    let* td := load to_download in
    let csv_buf := to_csv td in
    render (st_download_button "Download CSV" csv_buf "export.csv" "text/csv")
  else ret tt.

Definition render_views (c : controls) (data_df : loc) : M unit :=
  render (st_title "📡 Simple Streaming Dashboard");;
  trend data_df;;
  quick_stats data_df;;
  controls_info c data_df;;
  raw_table c data_df;;
  download c data_df.

(** *** One pass of the script *)

Definition run_pass (c : controls) : M unit :=
  let* data_df := produce_data c in
  let* data_df := apply_filters c data_df in
  render_views c data_df.


(** [k] ticks in a row. *)
Fixpoint ticks (k : nat) : M unit :=
  match k with
  | O => ret tt
  | S k' => tick;; ticks k'
  end.


(** The rows of the display table: labels [0 .. n-1], each timestamp
    formatted. *)
Definition formatted (rs : list (nat * row)) : list (nat * row) :=
  imap (fun i lr => (i, <["timestamp" := strftime_cell (field "timestamp" lr.2)]> lr.2)) rs.


(** *** Row sets that survive export and ingestion *)







(** *** States and frames in the statements *)

(** What a computation that touches only the world leaves alone. *)
Definition same_store (s s' : state) : Prop :=
  heap s' = heap s /\ session s' = session s /\ ui s' = ui s.

(** The record of index [i]: the timestamp is fixed, the other three fields
    come from the random source. *)
Definition record_at (n start_time i : Z) (rec : list (string * cell)) : Prop :=
  exists k m v,
    rec = [("timestamp", CTime (start_time - timedelta_seconds ((n - i) * 2)));
           ("sensor_id", CStr k); ("metric_type", CStr m); ("value", CFloat v)].

(** The frame [generate_live_rows] builds from records for the indices
    [range n]. *)
Definition generated (n start_time : Z) (df : DataFrame) : Prop :=
  exists recs, df = DataFrame_of_records recs /\
               Forall2 (record_at n start_time) (range n) recs.

(** The timestamps of the rows, oldest first: [start_time - (n - i) * 2s]. *)
Definition stamps (n start_time : Z) : list Z :=
  map (fun i => start_time - timedelta_seconds ((n - i) * 2)) (range n).

(** The frame the session's buffer refers to. *)
Definition buffer_of (s : state) : option DataFrame :=
  match live_buffer (session s) with
  | Some b => heap s !! b
  | None => None
  end.

Definition rendered (s : state) (ws : list widget) : state :=
  mkState (world s) (heap s) (session s) (ui s ++ ws).

(** The widgets of the info panel (lines 183-193). *)
Definition info_panel (c : controls) (d : DataFrame) : list widget :=
  [st_subheader "Controls & Info";
   st_markdown ("- Mode: **" +:+ mode_name (mode c) +:+ "**");
   st_markdown ("- Rows: **" +:+ str_of_Z (Z.of_nat (len d)) +:+ "**")] ++
  (if has_column "timestamp" d then
     [st_markdown
        match latest (series "timestamp" d) with
        | None => "- Last timestamp: N/A"
        | Some last_ts => "- Last timestamp: **" +:+ strftime time_format last_ts +:+ "**"
        end]
   else []) ++
  [st_markdown "---"].

(** [s'] is [s] with new objects on the heap; nothing else differs and no
    object of [s] has changed. *)
Definition allocates (s s' : state) : Prop :=
  world s' = world s /\ session s' = session s /\ ui s' = ui s /\
  exists new, heap s' = heap s ++ new.

(** [keeps n m Q]: run from a heap of at least [n] objects, [m] leaves the
    session and the first [n] objects as they are, whether it returns or
    raises, never shrinks the heap, and returns only values in [Q]. *)
Definition keeps {A} (n : nat) (m : M A) (Q : A -> Prop) : Prop :=
  forall s r s', m s = (r, s') -> (n <= length (heap s))%nat ->
    session s' = session s /\
    (length (heap s) <= length (heap s'))%nat /\
    (forall l, (l < n)%nat -> heap s' !! l = heap s !! l) /\
    (forall a, r = inr a -> Q a).

(** What a live pass runs after the init/tick step: the copy of the buffer,
    the filters and the views. *)
Definition after_live_step (c : controls) : M unit :=
  let* b := get_live_buffer in
  let* d := load b in
  let* data_df := alloc d in
  let* data_df := apply_filters c data_df in
  render_views c data_df.

(** *** Generated rows *)

(** The choices of the sidebar's two filters (lines 85-86); the metric types
    and, as [sensor_1 .. sensor_4], the sensor ids [generate_live_rows] draws
    from (lines 44-45). *)
Definition metric_options : list string := ["temperature"; "humidity"].
Definition sensor_options : list string := ["sensor_1"; "sensor_2"; "sensor_3"; "sensor_4"].

(** A row as [generate_live_rows] builds it: a Timestamp, one of the four
    sensor ids, one of the two metric types, a float. *)
Definition generated_row (r : row) : Prop :=
  (exists t, r !! "timestamp" = Some (CTime t)) /\
  (exists x, r !! "sensor_id" = Some (CStr x) /\ x ∈ sensor_options) /\
  (exists m, r !! "metric_type" = Some (CStr m) /\ m ∈ metric_options) /\
  (exists v, r !! "value" = Some (CFloat v)).

(** A frame of such rows under the four columns: a generated frame, and
    what the rolling buffer holds. *)
Definition generated_rows (d : DataFrame) : Prop :=
  columns d = four_columns /\ Forall (fun lr => generated_row lr.2) (rows d).

(** *** The views as values *)

(** The frame [format_df_for_plot] returns (lines 66-69). *)
Definition sorted_for_plot (d : DataFrame) : DataFrame :=
  if has_column "timestamp" d then sort_values "timestamp" true d else d.

(** Lines 142-145 on the frame to plot. *)
Definition with_metric_type (p : DataFrame) : DataFrame :=
  if has_column "metric_type" p
  then set_column "metric_type" (map fillna_unknown (series "metric_type" p)) p
  else set_column "metric_type" (replicate (len p) (CStr "unknown")) p.

Definition plot_frame (d : DataFrame) : DataFrame := with_metric_type (sorted_for_plot d).

(** The figure of lines 148-163. *)
Definition figure_of (d : DataFrame) : figure :=
  let p := plot_frame d in
  if has_column "timestamp" p then mkFig p "timestamp" "value" "metric_type"
  else mkFig (reset_index p) "index" "value" "metric_type".

(** The three metrics of lines 177-179. *)
Definition stats_widgets (xs : list float) : list widget :=
  [st_metric "Average value" (format_2f (series_mean xs));
   st_metric "Min value" (format_2f (series_min xs));
   st_metric "Max value" (format_2f (series_max xs))].

(** A row set the views can show: a [value] column of numbers (missing
    values allowed), and a [timestamp] column of Timestamps and NaT or, when
    there is none, no column named [index] (which [reset_index] would have
    to insert a second time). *)
Definition plottable (d : DataFrame) : bool :=
  has_column "value" d && bool_decide (is_Some (numeric (series "value" d))) &&
  (if has_column "timestamp" d then is_datetimelike (series "timestamp" d)
   else negb (has_column "index" d)).

(** Everything lines 127-209 render for the row set [d], in order. *)
Definition views_of (c : controls) (d : DataFrame) : list widget :=
  [st_title "📡 Simple Streaming Dashboard"; st_subheader "Trend"] ++
  (if df_empty d then [st_info "No data available."; st_write "-"]
   else st_plotly_chart (figure_of d) ::
        stats_widgets (default [] (numeric (series "value" d)))) ++
  info_panel c d ++
  (if show_table c && negb (df_empty d)
   then st_subheader "Raw data (latest first)" ::
        match display_table d with inr t => [st_dataframe t] | inl _ => [] end
   else []) ++
  (if download_btn c && negb (df_empty d)
   then [st_download_button "Download CSV" (export_csv d) "export.csv" "text/csv"]
   else []).

(** The session has no buffer yet, or a buffer of generated rows, at most
    500 of them: what every live pass finds and leaves. *)
Definition buffer_ok (s : state) : Prop :=
  match live_buffer (session s) with
  | None => True
  | Some b => exists d, heap s !! b = Some d /\ generated_rows d /\ (len d <= 500)%nat
  end.

(** The number of rows in the buffer after the init/tick step of a pass. *)
Definition next_size (c : controls) (s : state) : nat :=
  Nat.min (match buffer_of s with Some d => len d | None => 60 end +
           (if auto_refresh c then 5 else 0)) 500.

(** The frame the ingestor returns for the frame [d0] that [read_csv] gave
    and the times [ts] that [to_datetime] made of its [timestamp] column
    (lines 56-58). *)
Definition ingested (d0 : DataFrame) (ts : list (option Z)) : DataFrame :=
  if has_column "timestamp" d0 then set_column "timestamp" (map time_cell ts) d0 else d0.

(** * Properties *)

(** ** Running computations *)

Lemma bind_ok {A B} (m : M A) (k : A -> M B) s a s' :
  m s = (inr a, s') -> bind m k s = k a s'.
Proof. unfold bind. by intros ->. Qed.

Lemma bind_raise {A B} (m : M A) (k : A -> M B) s e s' :
  m s = (inl e, s') -> bind m k s = (inl e, s').
Proof. unfold bind. by intros ->. Qed.

Lemma same_store_refl s : same_store s s.
Proof. by repeat split. Qed.

Lemma same_store_trans s1 s2 s3 :
  same_store s1 s2 -> same_store s2 s3 -> same_store s1 s3.
Proof. unfold same_store. intros (-> & -> & ->) (-> & -> & ->). done. Qed.

Lemma with_world_ok {A} (f : W -> A * W) s :
  exists a s', with_world f s = (inr a, s') /\ same_store s s'.
Proof.
  unfold with_world. destruct (f (world s)) as [a w].
  exists a, (mkState w (heap s) (session s) (ui s)). by repeat split.
Qed.

(** ** The row generator *)

Lemma generate_row_ok n start_time i s :
  exists rec s', generate_row n start_time i s = (inr rec, s') /\
                 record_at n start_time i rec /\ same_store s s'.
Proof.
  unfold generate_row, randint, choice, randbelow, uniform.
  destruct (with_world_ok getrandbits s) as (k1 & s1 & E1 & F1).
  destruct (with_world_ok getrandbits s1) as (k2 & s2 & E2 & F2).
  destruct (with_world_ok random_random s2) as (r & s3 & E3 & F3).
  eexists _, s3. split.
  - unfold bind, ret. rewrite E1; simpl. rewrite E2; simpl. rewrite E3. reflexivity.
  - split; [ by eexists _, _, _ | eauto using same_store_trans ].
Qed.

Lemma for_each_generate_row n start_time idx s :
  exists recs s', for_each (generate_row n start_time) idx s = (inr recs, s') /\
                  Forall2 (record_at n start_time) idx recs /\ same_store s s'.
Proof.
  revert s. induction idx as [|i idx IH]; intros s; simpl.
  - exists [], s. split; [done|]. split; [constructor | apply same_store_refl].
  - destruct (generate_row_ok n start_time i s) as (rec & s1 & E1 & R1 & F1).
    destruct (IH s1) as (recs & s2 & E2 & R2 & F2).
    exists (rec :: recs), s2. split.
    + erewrite bind_ok by eassumption. erewrite bind_ok by eassumption. done.
    + split; [by constructor | eauto using same_store_trans].
Qed.

Lemma generate_live_rows_ok n start s :
  exists s' df start_time,
    generate_live_rows n start s = (inr (length (heap s)), s') /\
    heap s' = heap s ++ [df] /\ session s' = session s /\ ui s' = ui s /\
    generated n start_time df /\
    (forall t, start = Some t -> start_time = t).
Proof.
  unfold generate_live_rows.
  assert (exists t s0, (match start with
                        | None => with_world datetime_now
                        | Some t => ret t
                        end) s = (inr t, s0) /\ same_store s s0 /\
                       (forall t', start = Some t' -> t = t'))
    as (t & s0 & E0 & (Hh0 & Hs0 & Hu0) & Ht).
  { destruct start as [t|].
    - exists t, s. split; [done|]. split; [apply same_store_refl|]. by intros ? [= ->].
    - destruct (with_world_ok datetime_now s) as (t & s0 & E & F). by exists t, s0. }
  destruct (for_each_generate_row n t (range n) s0) as (recs & s1 & E & R & (Hh & Hs & Hu)).
  exists (mkState (world s1) (heap s1 ++ [DataFrame_of_records recs]) (session s1) (ui s1)),
         (DataFrame_of_records recs), t.
  split.
  - erewrite bind_ok by eassumption. erewrite bind_ok by eassumption.
    unfold alloc. by rewrite Hh, Hh0.
  - simpl. rewrite Hh, Hs, Hu, Hh0, Hs0, Hu0. repeat split; try done. by exists recs.
Qed.

Lemma generated_len n start_time df :
  generated n start_time df -> len df = Z.to_nat n.
Proof.
  intros (recs & -> & R). unfold len, DataFrame_of_records. simpl.
  rewrite length_imap. apply Forall2_length in R. rewrite <- R.
  unfold range. by rewrite length_map, length_seq.
Qed.

Lemma map_imap_const {A B C} (F : nat -> A -> B) (G : B -> C) (K : A -> C) (l : list A) :
  (forall i x, G (F i x) = K x) -> map G (imap F l) = map K l.
Proof.
  revert F. induction l as [|x l IH]; intros F HF; simpl; [done|].
  rewrite HF. f_equal. apply IH. intros i y. apply HF.
Qed.

Lemma generated_timestamps n start_time df :
  generated n start_time df ->
  series "timestamp" df =
  map (fun i => CTime (start_time - timedelta_seconds ((n - i) * 2))) (range n).
Proof.
  intros (recs & -> & R). unfold series, DataFrame_of_records. simpl.
  rewrite (map_imap_const _ _ (fun kv => field "timestamp" (list_to_map kv))) by done.
  induction R as [|i rec idx recs (k & m & v & ->) R IH]; simpl; [done|].
  by f_equal.
Qed.

Lemma range_lookup n (i : nat) :
  (i < Z.to_nat n)%nat -> range n !! i = Some (Z.of_nat i).
Proof.
  intros Hi. unfold range. rewrite list_lookup_fmap, lookup_seq_lt by done. done.
Qed.

Lemma range_length n : length (range n) = Z.to_nat n.
Proof. unfold range. by rewrite length_map, length_seq. Qed.

Lemma stamps_lookup n start_time (i : nat) t :
  stamps n start_time !! i = Some t ->
  (i < Z.to_nat n)%nat /\ t = start_time - timedelta_seconds ((n - Z.of_nat i) * 2).
Proof.
  unfold stamps. rewrite list_lookup_fmap. intros H.
  destruct (range n !! i) as [j|] eqn:E; [|done].
  assert (i < Z.to_nat n)%nat as Hi.
  { apply lookup_lt_Some in E. by rewrite range_length in E. }
  rewrite range_lookup in E by done. simplify_eq/=. done.
Qed.

Lemma stamps_spaced n start_time : spaced (timedelta_seconds 2) (stamps n start_time).
Proof.
  intros i a b Ha Hb.
  apply stamps_lookup in Ha as [_ ->]. apply stamps_lookup in Hb as [_ ->].
  unfold timedelta_seconds. lia.
Qed.

Lemma stamps_increasing n start_time : increasing (stamps n start_time).
Proof.
  intros i j a b Hij Ha Hb.
  apply stamps_lookup in Ha as [_ ->]. apply stamps_lookup in Hb as [_ ->].
  unfold timedelta_seconds. lia.
Qed.

Lemma stamps_last n start_time t :
  last (stamps n start_time) = Some t -> t = start_time - timedelta_seconds 2.
Proof.
  rewrite last_lookup. intros H. apply stamps_lookup in H as [Hi ->].
  unfold stamps in *. rewrite length_map, range_length in *.
  unfold timedelta_seconds. lia.
Qed.

(** C1, as the code has it: [generate_live_rows n start_time] returns a new
    frame of exactly [n] rows ([max n 0] for an int [n]); their timestamps are
    [start_time - (n - i) * 2s] for [i = 0 .. n-1], so strictly increasing
    and exactly 2 seconds apart; the last row's timestamp is
    [start_time - 2s], two seconds before [start_time]. *)
Theorem generate_live_rows_timestamps (n start_time : Z) (s : state) :
  exists s' df,
    generate_live_rows n (Some start_time) s = (inr (length (heap s)), s') /\
    heap s' !! length (heap s) = Some df /\
    len df = Z.to_nat n /\
    series "timestamp" df = map CTime (stamps n start_time) /\
    length (stamps n start_time) = Z.to_nat n /\
    increasing (stamps n start_time) /\
    spaced (timedelta_seconds 2) (stamps n start_time) /\
    (forall t, last (stamps n start_time) = Some t -> t = start_time - timedelta_seconds 2).
Proof.
  destruct (generate_live_rows_ok n (Some start_time) s) as (s' & df & t & E & Hh & _ & _ & G & Ht).
  rewrite (Ht start_time eq_refl) in G.
  exists s', df. split; [done|]. split.
  { rewrite Hh. by rewrite lookup_app_r, Nat.sub_diag by done. }
  split; [by eapply generated_len|]. split.
  { erewrite generated_timestamps by done. unfold stamps. by rewrite <- list_fmap_compose. }
  split. { unfold stamps. by rewrite length_map, range_length. }
  split; [apply stamps_increasing|]. split; [apply stamps_spaced|].
  apply stamps_last.
Qed.

(** ** The rolling buffer *)

Lemma ret_ok {A} (a : A) s : ret a s = (inr a, s).
Proof. done. Qed.

Lemma load_ok l s d : heap s !! l = Some d -> load l s = (inr d, s).
Proof. unfold load. by intros ->. Qed.

Lemma lookup_snoc_new {A} (l : list A) x : (l ++ [x]) !! length l = Some x.
Proof. by rewrite lookup_app_r, Nat.sub_diag by done. Qed.

Lemma lookup_snoc_old {A} (l : list A) x i y : l !! i = Some y -> (l ++ [x]) !! i = Some y.
Proof. intros H. rewrite lookup_app_l; [done | by eapply lookup_lt_Some]. Qed.

Lemma get_live_buffer_ok s b :
  live_buffer (session s) = Some b -> get_live_buffer s = (inr b, s).
Proof. unfold get_live_buffer, get_session, bind. simpl. by intros ->. Qed.

Lemma alloc_ok d s :
  alloc d s = (inr (length (heap s)), mkState (world s) (heap s ++ [d]) (session s) (ui s)).
Proof. done. Qed.

Lemma set_live_buffer_ok b s :
  set_live_buffer b s =
  (inr tt, mkState (world s) (heap s) (mkSession (Some b) (last_live_time (session s))) (ui s)).
Proof. done. Qed.

Ltac step_with tac := erewrite bind_ok by tac.
Ltac step_load := step_with ltac:(apply load_ok; simpl; eauto using lookup_snoc_new, lookup_snoc_old).
Ltac step_alloc := step_with ltac:(apply alloc_ok).

Lemma tick_ok s d :
  buffer_of s = Some d ->
  exists s' new now,
    tick s = (inr tt, s') /\
    buffer_of s' = Some (appended d new) /\
    generated 5 now new /\
    ui s' = ui s /\
    (forall l x, heap s !! l = Some x -> heap s' !! l = Some x).
Proof.
  unfold buffer_of. destruct (live_buffer (session s)) as [b|] eqn:Hb; [|done]. intros Hd.
  destruct (with_world_ok datetime_now s) as (now & s1 & E1 & (Hh1 & Hs1 & Hu1)).
  destruct (generate_live_rows_ok 5 (Some now) s1) as (s2 & new & t & E2 & Hh2 & Hs2 & Hu2 & G & _).
  destruct s2 as [w2 h2 ss2 u2]. simpl in *. subst h2 ss2 u2.
  rewrite Hh1, Hs1, Hu1 in *.
  eexists _, new, t. split; [|split; [|split; [done|split]]].
  - unfold tick. step_with eassumption. step_with eassumption.
    step_with ltac:(apply get_live_buffer_ok; simpl; eassumption).
    step_load. step_load. step_alloc.
    step_with ltac:(apply set_live_buffer_ok).
    step_with ltac:(apply get_live_buffer_ok; reflexivity).
    step_load. step_alloc. step_load. step_alloc.
    rewrite set_live_buffer_ok. simpl. reflexivity.
  - simpl. rewrite !length_app. simpl.
    replace (length (heap s) + 1 + 1 + 1)%nat with (length (((heap s ++ [new]) ++ [concat_frames d new]) ++ [tail 500 (concat_frames d new)])).
    + by rewrite lookup_snoc_new.
    + rewrite !length_app. simpl. lia.
  - simpl. done.
  - simpl. intros l x Hl. by do 4 apply lookup_snoc_old.
Qed.

Lemma init_buffer_ok s :
  live_buffer (session s) = None ->
  exists s' d now,
    init_buffer s = (inr tt, s') /\
    buffer_of s' = Some d /\
    generated 60 now d /\
    ui s' = ui s.
Proof.
  intros Hb.
  destruct (generate_live_rows_ok 60 None s) as (s1 & d & t & E1 & Hh1 & Hs1 & Hu1 & G & _).
  destruct s1 as [w1 h1 ss1 u1]. simpl in *. subst h1 ss1 u1.
  destruct (with_world_ok datetime_now
              (mkState w1 (heap s ++ [d]) (mkSession (Some (length (heap s))) (last_live_time (session s))) (ui s)))
    as (now & s2 & E2 & (Hh2 & Hs2 & Hu2)).
  simpl in *.
  eexists _, d, t. split; [|split; [|split; [done|]]].
  - unfold init_buffer. unfold bind at 1, get_session at 1. simpl. rewrite Hb.
    step_with eassumption. step_with ltac:(apply set_live_buffer_ok).
    simpl. step_with eassumption. unfold set_last_live_time, get_session, put_session, bind.
    simpl. reflexivity.
  - unfold buffer_of. simpl. rewrite Hs2, Hh2. simpl. apply lookup_snoc_new.
  - simpl. done.
Qed.

Lemma relabel_length rs : length (relabel rs) = length rs.
Proof. unfold relabel. by rewrite length_imap. Qed.

Lemma relabel_rows rs : map snd (relabel rs) = map snd rs.
Proof. unfold relabel. by apply map_imap_const. Qed.

Lemma appended_len d new :
  len (appended d new) = Nat.min (len d + len new) 500.
Proof.
  unfold appended, len. simpl.
  rewrite relabel_length, length_drop, relabel_length, length_app. lia.
Qed.

(** A tick on a full buffer: the 5 oldest rows go, the 5 new rows follow the
    rest. *)
Lemma appended_full d new :
  len d = 500%nat -> len new = 5%nat ->
  map snd (rows (appended d new)) = drop 5 (map snd (rows d)) ++ map snd (rows new).
Proof.
  unfold appended, len. simpl. intros Hd Hn.
  rewrite relabel_rows, relabel_length, length_app, Hd, Hn.
  rewrite fmap_drop, relabel_rows, fmap_app.
  change (500 + 5 - 500)%nat with 5%nat.
  rewrite drop_app_le by (rewrite length_fmap; lia). done.
Qed.

Lemma ticks_ok k s d :
  buffer_of s = Some d -> (len d <= 500)%nat ->
  exists s' d',
    ticks k s = (inr tt, s') /\
    buffer_of s' = Some d' /\
    len d' = Nat.min (len d + 5 * k) 500 /\
    ui s' = ui s.
Proof.
  revert s d. induction k as [|k IH]; intros s d Hd Hle.
  - exists s, d. split; [done|]. split; [done|]. split; [lia|done].
  - destruct (tick_ok s d Hd) as (s1 & new & now & E1 & Hd1 & G & Hu1 & _).
    pose proof (generated_len _ _ _ G) as Hn. change (Z.to_nat 5) with 5%nat in Hn.
    destruct (IH s1 _ Hd1) as (s2 & d2 & E2 & Hd2 & Hlen & Hu2).
    { rewrite appended_len. lia. }
    exists s2, d2. simpl. erewrite bind_ok by eassumption.
    split; [done|]. split; [done|]. split; [|congruence].
    rewrite Hlen, appended_len, Hn. lia.
Qed.

(** C2: from a fresh session, [init] then [k] ticks leave a buffer of exactly
    [min (60 + 5k) 500] rows, so never more than 500; and one more tick on a
    buffer that is at 500 keeps it at exactly 500, dropping the 5 oldest rows
    and appending the 5 new ones. *)
Theorem rolling_buffer_size (s : state) (k : nat) :
  live_buffer (session s) = None ->
  exists s1 d,
    (init_buffer;; ticks k) s = (inr tt, s1) /\
    buffer_of s1 = Some d /\
    len d = Nat.min (60 + 5 * k) 500 /\
    (len d <= 500)%nat /\
    exists s2 d' new,
      tick s1 = (inr tt, s2) /\
      buffer_of s2 = Some d' /\
      len new = 5%nat /\
      (len d' <= 500)%nat /\
      (len d = 500%nat ->
       len d' = 500%nat /\
       map snd (rows d') = drop 5 (map snd (rows d)) ++ map snd (rows new)).
Proof.
  intros Hb.
  destruct (init_buffer_ok s Hb) as (s0 & d0 & now & E0 & Hd0 & G0 & _).
  pose proof (generated_len _ _ _ G0) as H60. change (Z.to_nat 60) with 60%nat in H60.
  destruct (ticks_ok k s0 d0 Hd0) as (s1 & d & E1 & Hd & Hlen & _); [lia|].
  rewrite H60 in Hlen.
  exists s1, d. split; [by erewrite bind_ok by eassumption|].
  split; [done|]. split; [lia|]. split; [lia|].
  destruct (tick_ok s1 d Hd) as (s2 & new & now' & E2 & Hd2 & G & _).
  pose proof (generated_len _ _ _ G) as Hn. change (Z.to_nat 5) with 5%nat in Hn.
  exists s2, (appended d new), new. split; [done|]. split; [done|]. split; [done|].
  split; [rewrite appended_len; lia|].
  intros H500. split; [rewrite appended_len; lia|]. by apply appended_full.
Qed.

(** ** The filter stage *)

Lemma filter_all {A} (P : A -> Prop) `{!forall x, Decision (P x)} (l : list A) :
  (forall x, P x) -> filter P l = l.
Proof.
  intros HP. induction l as [|x l IH]; [done|]. by rewrite filter_cons_True, IH.
Qed.

Lemma frame_eta d : mkDF (columns d) (rows d) = d.
Proof. by destruct d. Qed.

Lemma keep_all (c : string) (values : list string) d :
  negb (nonempty values) || negb (has_column c d) = true ->
  d = mkDF (columns d) (filter (fun lr => passes values c d lr.2) (rows d)).
Proof.
  intros H. rewrite filter_all; [by rewrite frame_eta|].
  intros x. unfold passes. by rewrite H.
Qed.

Lemma metric_step_eq mf d :
  default d (metric_step mf d) =
  mkDF (columns d) (filter (fun lr => passes mf "metric_type" d lr.2) (rows d)).
Proof.
  unfold metric_step.
  destruct (has_column "metric_type" d) eqn:Hc, (nonempty mf) eqn:Hm; simpl;
    try (apply keep_all; by rewrite Hc, Hm).
  unfold select_rows, passes. by rewrite Hc, Hm.
Qed.

Lemma sensor_step_eq sf d :
  default d (sensor_step sf d) =
  mkDF (columns d) (filter (fun lr => passes sf "sensor_id" d lr.2) (rows d)).
Proof.
  unfold sensor_step.
  destruct (has_column "sensor_id" d) eqn:Hc, (nonempty sf) eqn:Hm; simpl;
    try (apply keep_all; by rewrite Hc, Hm).
  unfold select_rows, passes. by rewrite Hc, Hm.
Qed.

(** The filter stage keeps the columns and keeps exactly the rows that pass
    both filters, in their order and with their labels. *)
Lemma filter_stage_eq mf sf d :
  filter_stage mf sf d =
  mkDF (columns d) (filter (fun lr => retained mf sf d lr.2) (rows d)).
Proof.
  unfold filter_stage. destruct (df_empty d) eqn:He.
  - destruct d as [cols [|lr rs]]; [done|]. destruct cols as [|c cols]; [|done].
    simpl. rewrite filter_all; [done|].
    intros x. unfold retained, passes, has_column. simpl.
    by rewrite !orb_true_r.
  - rewrite metric_step_eq, sensor_step_eq. simpl. f_equal.
    rewrite list_filter_filter. apply list_filter_iff. intros x.
    unfold retained, passes, has_column. simpl. rewrite andb_True. tauto.
Qed.

Lemma isin_spec values c :
  isin values c = true <-> exists x, c = CStr x /\ x ∈ values.
Proof.
  destruct c; simpl; try (split; [done | by intros (? & ? & ?)]).
  rewrite bool_decide_eq_true. split; [by eauto | by intros (? & [= ->] & ?)].
Qed.

Lemma nonempty_false {A} (l : list A) : negb (nonempty l) = true <-> l = [].
Proof. by destruct l. Qed.

Lemma passes_spec values c d r :
  passes values c d r = true <->
  values = [] \/ c ∉ columns d \/ exists x, field c r = CStr x /\ x ∈ values.
Proof.
  unfold passes, has_column.
  rewrite !orb_true_iff, nonempty_false, negb_true_iff, bool_decide_eq_false, isin_spec.
  tauto.
Qed.

(** C3, as the code has it: the filter stage keeps the columns, and keeps a
    row iff (the metric selection is empty, or the row set has no
    [metric_type] column, or the row's [metric_type] is selected) and (the
    same for the sensor selection and [sensor_id]).  A row whose cell is
    missing passes a filter only when the selection is empty or the row set
    does not have the column at all. *)
Theorem filter_stage_retains (mf sf : list string) (d : DataFrame) :
  columns (filter_stage mf sf d) = columns d /\
  rows (filter_stage mf sf d) = filter (fun lr => retained mf sf d lr.2) (rows d) /\
  (forall lr, lr ∈ rows (filter_stage mf sf d) <->
     lr ∈ rows d /\
     (mf = [] \/ "metric_type" ∉ columns d \/
      exists m, field "metric_type" lr.2 = CStr m /\ m ∈ mf) /\
     (sf = [] \/ "sensor_id" ∉ columns d \/
      exists x, field "sensor_id" lr.2 = CStr x /\ x ∈ sf)) /\
  (forall values c r, is_missing (field c r) = true ->
     (passes values c d r = true <-> values = [] \/ c ∉ columns d)).
Proof.
  rewrite filter_stage_eq. simpl. split; [done|]. split; [done|]. split.
  - intros lr. rewrite list_elem_of_filter. unfold retained.
    rewrite andb_True, !Is_true_true, !passes_spec. tauto.
  - intros values c r Hmiss. rewrite passes_spec.
    split; [|tauto]. intros [?|[?|(x & Hx & _)]]; [tauto|tauto|].
    rewrite Hx in Hmiss. done.
Qed.

(** C9: filtering the filtered rows again with the same selections changes
    nothing. *)
Theorem filter_stage_idempotent (mf sf : list string) (d : DataFrame) :
  filter_stage mf sf (filter_stage mf sf d) = filter_stage mf sf d.
Proof.
  rewrite (filter_stage_eq mf sf d). rewrite filter_stage_eq. simpl. f_equal.
  rewrite list_filter_filter. apply list_filter_iff. intros x.
  unfold retained, passes, has_column. simpl. tauto.
Qed.

(** ** Floats: the order and the exact values *)

Lemma digits2_pos_bounds m :
  2 ^ (Zpos (digits2_pos m) - 1) <= Zpos m < 2 ^ Zpos (digits2_pos m).
Proof.
  induction m as [p IH|p IH|]; simpl digits2_pos; [| |simpl; lia];
    rewrite Pos2Z.inj_succ;
    replace (Z.succ (Zpos (digits2_pos p)) - 1) with (Z.succ (Zpos (digits2_pos p) - 1)) by lia;
    rewrite !Z.pow_succ_r by lia; lia.
Qed.

Lemma bounded_inv m e :
  bounded prec emax m e = true ->
  emin <= e /\ Zpos m < 2 ^ prec /\ (emin < e -> 2 ^ (prec - 1) <= Zpos m).
Proof.
  unfold bounded, canonical_mantissa, fexp. rewrite andb_true_iff, Z.eqb_eq.
  intros [Hc _]. pose proof (digits2_pos_bounds m) as [Hlo Hhi].
  set (d := Zpos (digits2_pos m)) in *.
  assert (0 < d) by (unfold d; lia).
  unfold emin, SpecFloat.emin, emax in *.
  split; [lia|]. split.
  - eapply Z.lt_le_trans; [exact Hhi|]. apply Z.pow_le_mono_r; lia.
  - intros He. assert (d = prec) as -> by lia. done.
Qed.

(** Two positive numbers compare as the pairs (exponent, mantissa). *)
Lemma compare_magnitude m1 e1 m2 e2 :
  bounded prec emax m1 e1 = true -> bounded prec emax m2 e2 = true ->
  match (e1 ?= e2)%Z with
  | Lt => Lt
  | Gt => Gt
  | Eq => Pos.compare_cont Eq m1 m2
  end = (Zpos m1 * 2 ^ (e1 - emin) ?= Zpos m2 * 2 ^ (e2 - emin))%Z.
Proof.
  intros H1 H2.
  apply bounded_inv in H1 as (Hmin1 & Hhi1 & Hlo1).
  apply bounded_inv in H2 as (Hmin2 & Hhi2 & Hlo2).
  assert (forall ma ea mb eb, emin <= ea -> ea < eb -> Zpos ma < 2 ^ prec ->
            2 ^ (prec - 1) <= Zpos mb ->
            Zpos ma * 2 ^ (ea - emin) < Zpos mb * 2 ^ (eb - emin)) as Hlt.
  { intros ma ea mb eb Hea Hlt Hma Hmb.
    replace (eb - emin) with ((eb - ea - 1) + 1 + (ea - emin)) by lia.
    rewrite !Z.pow_add_r by lia.
    assert (0 < 2 ^ (ea - emin)) by (apply Z.pow_pos_nonneg; lia).
    assert (1 <= 2 ^ (eb - ea - 1)) by (apply (Z.pow_le_mono_r 2 0); lia).
    change (2 ^ prec) with (2 ^ (prec - 1) * 2) in Hma. change (2 ^ 1) with 2.
    generalize dependent (2 ^ (prec - 1)). generalize dependent (2 ^ (ea - emin)).
    generalize dependent (2 ^ (eb - ea - 1)). intros B HB A HA P _ _ Hma Hmb.
    assert (Z.pos ma * A < 2 * Z.pos mb * A) by nia.
    assert (2 * Z.pos mb * A <= Z.pos mb * (B * 2 * A)) by nia.
    lia. }
  destruct (Z.compare_spec e1 e2) as [->|He|He].
  - rewrite Pos.compare_cont_spec. simpl. symmetry.
    assert (0 < 2 ^ (e2 - emin)) by (apply Z.pow_pos_nonneg; lia).
    rewrite <- Zmult_compare_compat_r by lia. simpl. by destruct (m1 ?= m2)%positive.
  - symmetry. apply Z.compare_lt_iff. apply Hlt; [done|done|done|]. apply Hlo2. lia.
  - symmetry. apply Z.compare_gt_iff. apply Hlt; [done|done|done|]. apply Hlo1. lia.
Qed.

(** On numbers, the float comparison is the comparison of the values. *)
Lemma SFcompare_scaled a b :
  is_number a = true -> is_number b = true ->
  SFcompare a b = Some (scaled a ?= scaled b)%Z.
Proof.
  destruct a as [sa|sa| |sa ma ea], b as [sb|sb| |sb mb eb]; try done;
    unfold is_number; intros Ha Hb; unfold SFcompare, scaled, cond_Zopp.
  - assert (0 < 2 ^ (eb - emin)) by (apply bounded_inv in Hb; apply Z.pow_pos_nonneg; lia).
    destruct sb; f_equal; symmetry; [apply Z.compare_gt_iff|apply Z.compare_lt_iff]; nia.
  - assert (0 < 2 ^ (ea - emin)) by (apply bounded_inv in Ha; apply Z.pow_pos_nonneg; lia).
    destruct sa; f_equal; symmetry; [apply Z.compare_lt_iff|apply Z.compare_gt_iff]; nia.
  - pose proof (compare_magnitude _ _ _ _ Ha Hb) as Hab.
    pose proof (compare_magnitude _ _ _ _ Hb Ha) as Hba.
    assert (0 < 2 ^ (ea - emin)) by (apply bounded_inv in Ha; apply Z.pow_pos_nonneg; lia).
    assert (0 < 2 ^ (eb - emin)) by (apply bounded_inv in Hb; apply Z.pow_pos_nonneg; lia).
    destruct sa, sb; f_equal.
    + rewrite !Z.mul_opp_l, Z.compare_opp, <- Hba.
      rewrite (Z.compare_antisym ea eb), (Pos.compare_cont_antisym ma mb Eq).
      by destruct (ea ?= eb)%Z.
    + symmetry. apply Z.compare_lt_iff. nia.
    + symmetry. apply Z.compare_gt_iff. nia.
    + done.
Qed.

Lemma fltb_scaled a b :
  is_number a = true -> is_number b = true ->
  fltb a b = true <-> scaled a < scaled b.
Proof.
  intros Ha Hb. unfold fltb, SFltb. rewrite (SFcompare_scaled a b Ha Hb).
  destruct (Z.compare_spec (scaled a) (scaled b)); split; (done || lia).
Qed.

Lemma fleb_scaled a b :
  is_number a = true -> is_number b = true ->
  fleb a b = true <-> scaled a <= scaled b.
Proof.
  intros Ha Hb. unfold fleb, SFleb. rewrite (SFcompare_scaled a b Ha Hb).
  destruct (Z.compare_spec (scaled a) (scaled b)); split; (done || lia).
Qed.

Lemma fmin_scaled a b :
  is_number a = true -> is_number b = true ->
  is_number (fmin a b) = true /\ scaled (fmin a b) = Z.min (scaled a) (scaled b).
Proof.
  intros Ha Hb. unfold fmin. pose proof (fltb_scaled b a Hb Ha) as H.
  destruct (fltb b a); [split; [done|] | split; [done|]].
  - assert (scaled b < scaled a) by by apply H. lia.
  - assert (~ scaled b < scaled a) by (intros H'; by apply H in H'). lia.
Qed.

Lemma fmax_scaled a b :
  is_number a = true -> is_number b = true ->
  is_number (fmax a b) = true /\ scaled (fmax a b) = Z.max (scaled a) (scaled b).
Proof.
  intros Ha Hb. unfold fmax. pose proof (fltb_scaled a b Ha Hb) as H.
  destruct (fltb a b); [split; [done|] | split; [done|]].
  - assert (scaled a < scaled b) by by apply H. lia.
  - assert (~ scaled a < scaled b) by (intros H'; by apply H in H'). lia.
Qed.

Lemma foldl_fmin_scaled y ys :
  is_number y = true -> Forall (fun x => is_number x = true) ys ->
  is_number (foldl fmin y ys) = true /\
  scaled (foldl fmin y ys) <= scaled y /\
  Forall (fun x => scaled (foldl fmin y ys) <= scaled x) ys.
Proof.
  intros Hy Hys. revert y Hy. induction Hys as [|x ys Hx Hys IH]; intros y Hy; simpl.
  - split; [done|]. split; [lia|constructor].
  - destruct (fmin_scaled y x Hy Hx) as [Hn Hs].
    destruct (IH _ Hn) as (IH1 & IH2 & IH3).
    split; [done|]. split; [lia|]. constructor; [lia|done].
Qed.

Lemma foldl_fmax_scaled y ys :
  is_number y = true -> Forall (fun x => is_number x = true) ys ->
  is_number (foldl fmax y ys) = true /\
  scaled y <= scaled (foldl fmax y ys) /\
  Forall (fun x => scaled x <= scaled (foldl fmax y ys)) ys.
Proof.
  intros Hy Hys. revert y Hy. induction Hys as [|x ys Hx Hys IH]; intros y Hy; simpl.
  - split; [done|]. split; [lia|constructor].
  - destruct (fmax_scaled y x Hy Hx) as [Hn Hs].
    destruct (IH _ Hn) as (IH1 & IH2 & IH3).
    split; [done|]. split; [lia|]. constructor; [lia|done].
Qed.

Lemma dropna_numbers xs :
  Forall (fun x => is_number x = true) xs -> dropna xs = xs.
Proof.
  intros H. unfold dropna. induction H as [|x xs Hx _ IH]; [done|].
  rewrite filter_cons_True, IH; [done|]. by destruct x.
Qed.




(** *** Rounding: what a float operation returns *)

Lemma shr_1_inb mrs N D : inb mrs N D -> inb (shr_1 mrs) N (2 * D).
Proof.
  destruct mrs as [m r s]. unfold inb. cbn [shr_m shr_r shr_s].
  intros (Hm & HD & H).
  destruct m as [|p|p]; [| |lia].
  - destruct r, s; cbn; lia.
  - destruct p as [p|p|]; cbn [shr_1 shr_m shr_r shr_s orb];
      try pose proof (Pos2Z.inj_xI p); try pose proof (Pos2Z.inj_xO p);
      (split; [lia|]); (split; [lia|]);
      destruct r, s; cbn [orb]; lia.
Qed.

Lemma iter_shr_1_inb p mrs N D :
  inb mrs N D -> inb (SpecFloat.iter_pos shr_1 p mrs) N (2 ^ Zpos p * D).
Proof.
  revert mrs D. induction p as [p IH|p IH|]; intros mrs D H; cbn [SpecFloat.iter_pos].
  - apply shr_1_inb, IH, IH in H.
    replace (2 ^ Zpos p~1 * D) with (2 ^ Zpos p * (2 ^ Zpos p * (2 * D))); [done|].
    rewrite (Pos2Z.inj_xI p), Z.pow_add_r, Z.pow_mul_r by lia.
    change (2 ^ 2) with 4. change (2 ^ 1) with 2.
    replace (4 ^ Zpos p) with (2 ^ Zpos p * 2 ^ Zpos p); [ring|].
    rewrite <- Z.pow_add_r by lia. replace (Zpos p + Zpos p) with (2 * Zpos p) by lia.
    by rewrite Z.pow_mul_r by lia.
  - apply IH, IH in H.
    replace (2 ^ Zpos p~0 * D) with (2 ^ Zpos p * (2 ^ Zpos p * D)); [done|].
    rewrite (Pos2Z.inj_xO p), Z.pow_mul_r by lia. change (2 ^ 2) with 4.
    replace (4 ^ Zpos p) with (2 ^ Zpos p * 2 ^ Zpos p); [ring|].
    rewrite <- Z.pow_add_r by lia. replace (Zpos p + Zpos p) with (2 * Zpos p) by lia.
    by rewrite Z.pow_mul_r by lia.
  - apply shr_1_inb in H. by change (2 ^ 1 * D) with (2 * D).
Qed.

(** A shift by [n >= 0] places. *)
Lemma shr_inb mrs e n N D :
  0 <= n -> inb mrs N D ->
  inb (shr mrs e n).1 N (2 ^ n * D) /\ (shr mrs e n).2 = e + n.
Proof.
  intros Hn H. destruct n as [|p|p]; [| |lia]; cbn [shr fst snd].
  - split; [|lia]. by replace (2 ^ 0 * D) with D by lia.
  - split; [|done]. by apply iter_shr_1_inb.
Qed.

(** Rounding to the nearest integer: at most half a unit away. *)
Lemma round_nearest_even_inb mrs N D :
  inb mrs N D ->
  let m' := round_nearest_even (shr_m mrs) (loc_of_shr_record mrs) in
  shr_m mrs <= m' <= shr_m mrs + 1 /\
  - D <= 2 * (m' * D - N) <= D /\
  (shr_r mrs = false -> shr_s mrs = false -> m' = shr_m mrs).
Proof.
  destruct mrs as [m r s]. unfold inb. cbn [shr_m shr_r shr_s loc_of_shr_record].
  intros (Hm & HD & H).
  destruct r, s; cbn [round_nearest_even]; try destruct (Z.even m); lia.
Qed.

Lemma Zdigits2_bounds m : 0 < m -> 2 ^ (Zdigits2 m - 1) <= m < 2 ^ Zdigits2 m.
Proof. destruct m as [|p|p]; [lia| |lia]. intros _. apply digits2_pos_bounds. Qed.

Lemma Zdigits2_nonneg m : 0 <= Zdigits2 m.
Proof. destruct m; simpl; lia. Qed.

Lemma Zdigits2_unique m d : 0 < d -> 2 ^ (d - 1) <= m < 2 ^ d -> Zdigits2 m = d.
Proof.
  intros Hd [Hlo Hhi].
  assert (0 < m) as Hm by (pose proof (Z.pow_pos_nonneg 2 (d - 1)); lia).
  destruct (Zdigits2_bounds m Hm) as [Hlo' Hhi'].
  pose proof (Zdigits2_nonneg m).
  destruct (Z.lt_trichotomy (Zdigits2 m) d) as [Hlt|[->|Hgt]]; [|done|].
  - assert (2 ^ Zdigits2 m <= 2 ^ (d - 1)) by (apply Z.pow_le_mono_r; lia). lia.
  - assert (2 ^ d <= 2 ^ (Zdigits2 m - 1)) by (apply Z.pow_le_mono_r; lia). lia.
Qed.

Lemma Zdigits2_le m d : 0 <= d -> 0 <= m < 2 ^ d -> Zdigits2 m <= d.
Proof.
  intros Hd [Hlo Hhi]. destruct (Z.eq_dec m 0) as [->|Hne]; [done|].
  destruct (Zdigits2_bounds m ltac:(lia)) as [Hlo' Hhi'].
  destruct (Z_le_gt_dec (Zdigits2 m) d) as [|Hgt]; [done|].
  assert (2 ^ d <= 2 ^ (Zdigits2 m - 1)) by (apply Z.pow_le_mono_r; lia). lia.
Qed.

(** The integer part after a shift: [floor (mx / 2^k)]. *)
Lemma inb_floor mrs mx lx N D k :
  0 <= k -> inb (shr_record_of_loc mx lx) N D -> inb mrs N (2 ^ k * D) ->
  shr_m mrs * 2 ^ k <= mx < (shr_m mrs + 1) * 2 ^ k /\
  shr_m mrs * (2 ^ k * D) <= N.
Proof.
  intros Hk H0 H1.
  assert (0 < 2 ^ k) as HP by (apply Z.pow_pos_nonneg; lia).
  assert (mx * D <= N < (mx + 1) * D /\ 0 < D) as [[Ha Hb] HD].
  { destruct H0 as (Hm & HD & H). revert Hm H.
    destruct lx as [|[]]; cbn [shr_record_of_loc shr_m shr_r shr_s]; intros; lia. }
  set (m0 := shr_m mrs) in *. set (P := 2 ^ k) in *.
  assert (m0 * (P * D) <= N < (m0 + 1) * (P * D)) as [Hc Hd].
  { destruct H1 as (Hm & HD' & H). fold m0 in Hm, H.
    destruct (shr_r mrs), (shr_s mrs); lia. }
  split; [|done]. split.
  - assert (m0 * P * D < (mx + 1) * D) by lia.
    assert (m0 * P < mx + 1) by (apply (Z.mul_lt_mono_pos_r D); lia). lia.
  - assert (mx * D < (m0 + 1) * P * D) by lia.
    apply (Z.mul_lt_mono_pos_r D); lia.
Qed.

Lemma fexp_eq e : fexp prec emax e = Z.max (e - prec) emin.
Proof. done. Qed.

Lemma scaled_finite s m e : scaled (S754_finite s m e) = cond_Zopp s (Zpos m * 2 ^ (e - emin)).
Proof. unfold scaled. by destruct s; simpl; rewrite ?Z.mul_opp_l. Qed.

(** The second pass of [binary_round_aux]: a mantissa [m1 <= 2^prec] at an
    exponent [e1 >= emin], with [prec] digits when [e1 > emin]. *)
Lemma round_result sx m1 e1 :
  emin <= e1 -> 0 <= m1 <= 2 ^ prec ->
  (emin < e1 -> 2 ^ (prec - 1) <= m1) ->
  let '(mrs, e2) := shr_fexp prec emax m1 e1 loc_Exact in
  let r := match shr_m mrs with
           | Z0 => S754_zero sx
           | Zpos m => if Z.leb e2 (emax - prec) then S754_finite sx m e2 else S754_infinity sx
           | _ => S754_nan
           end in
  (r = S754_infinity sx /\ 2 ^ (emax - emin) <= m1 * 2 ^ (e1 - emin)) \/
  (is_number r = true /\ scaled r = cond_Zopp sx (m1 * 2 ^ (e1 - emin))).
Proof.
  intros He [Hlo Hhi] Hn.
  destruct (Z.eq_dec m1 (2 ^ prec)) as [->|Hne].
  - (* the mantissa was rounded up to [2^prec]: one more shift *)
    assert (fexp prec emax (Zdigits2 (2 ^ prec) + e1) - e1 = 1) as Hk.
    { rewrite fexp_eq. change (Zdigits2 (2 ^ prec)) with (prec + 1). lia. }
    unfold shr_fexp. rewrite Hk. cbn [shr SpecFloat.iter_pos shr_record_of_loc].
    change (shr_m (shr_1 {| shr_m := 2 ^ prec; shr_r := false; shr_s := false |}))
      with (2 ^ (prec - 1)).
    change (2 ^ (prec - 1)) with (Zpos 4503599627370496).
    cbv iota beta. destruct (Z.leb (e1 + 1) (emax - prec)) eqn:E; [right|left].
    2:{ split; [done|]. apply Z.leb_gt in E. rewrite <- Z.pow_add_r by (unfold prec; lia).
        apply Z.pow_le_mono_r; [lia|]. unfold emax, prec in *. lia. }
    split.
    + unfold is_number, bounded, canonical_mantissa. rewrite E, andb_true_r.
      apply Z.eqb_eq. rewrite fexp_eq.
      change (Z.pos (digits2_pos 4503599627370496)) with prec. lia.
    + rewrite scaled_finite. f_equal.
      replace (e1 + 1 - emin) with (1 + (e1 - emin)) by lia.
      rewrite Z.pow_add_r by lia. change (2 ^ prec) with (4503599627370496 * 2 ^ 1). ring.
  - assert (fexp prec emax (Zdigits2 m1 + e1) - e1 = 0) as Hk.
    { rewrite fexp_eq. destruct (Z.eq_dec e1 emin) as [->|He1].
      - assert (Zdigits2 m1 <= prec) by (apply Zdigits2_le; [done|lia]). lia.
      - rewrite (Zdigits2_unique m1 prec); [lia|done|]. split; [apply Hn|]; lia. }
    unfold shr_fexp. rewrite Hk. cbn [shr shr_record_of_loc shr_m].
    destruct m1 as [|p|p]; [|cbv iota beta|lia].
    + right. split; [done|]. by destruct sx.
    + destruct (Z.leb e1 (emax - prec)) eqn:E; [right|left].
      2:{ split; [done|]. apply Z.leb_gt in E.
          assert (emin < e1) as Hlt by (unfold emin, SpecFloat.emin, emax, prec in *; lia).
          specialize (Hn Hlt).
          assert (2 ^ (emax - emin) <= 2 ^ (prec - 1) * 2 ^ (e1 - emin)).
          { rewrite <- Z.pow_add_r by (unfold prec; lia).
            apply Z.pow_le_mono_r; [lia|]. unfold emax, prec in *. lia. }
          assert (0 < 2 ^ (e1 - emin)) by (apply Z.pow_pos_nonneg; lia).
          assert (2 ^ (prec - 1) * 2 ^ (e1 - emin) <= Z.pos p * 2 ^ (e1 - emin))
            by (apply Z.mul_le_mono_nonneg_r; lia).
          lia. }
      split.
      * unfold is_number, bounded, canonical_mantissa. rewrite E, andb_true_r.
        apply Z.eqb_eq. change (Z.pos (digits2_pos p)) with (Zdigits2 (Zpos p)). lia.
      * by rewrite scaled_finite.
Qed.

(** What [binary_round_aux] returns for the mantissa [mx] at the exponent
    [ex], the rest of the value located by [lx]: the value is [N / D] units
    of [2^ex].  The result is the nearest number [m1 * 2^(ex + k)], or an
    infinity. *)
Lemma binary_round_aux_spec sx mx ex lx N D :
  inb (shr_record_of_loc mx lx) N D ->
  ex <= fexp prec emax (Zdigits2 mx + ex) ->
  let k := fexp prec emax (Zdigits2 mx + ex) - ex in
  exists m1,
    0 <= k /\ emin <= ex + k /\ 0 <= m1 /\
    - (2 ^ k * D) <= 2 * (m1 * (2 ^ k * D) - N) <= 2 ^ k * D /\
    (lx = loc_Exact -> k = 0 -> m1 * D = N) /\
    (emin < ex + k -> 2 ^ (prec - 1) * (2 ^ k * D) <= N) /\
    ((binary_round_aux prec emax sx mx ex lx = S754_infinity sx /\
      2 ^ (emax - emin) <= m1 * 2 ^ (ex + k - emin)) \/
     (is_number (binary_round_aux prec emax sx mx ex lx) = true /\
      scaled (binary_round_aux prec emax sx mx ex lx) =
        cond_Zopp sx (m1 * 2 ^ (ex + k - emin)))).
Proof.
  intros H0 Hex.
  set (e1 := fexp prec emax (Zdigits2 mx + ex)) in *.
  intros k.
  assert (0 <= k) as Hk by (unfold k; lia).
  assert (0 < 2 ^ k) as HP by (apply Z.pow_pos_nonneg; lia).
  assert (0 <= mx /\ 0 < D) as [Hmx HD].
  { destruct H0 as (Hm & HD & _). revert Hm.
    by destruct lx as [|[]]; cbn [shr_record_of_loc shr_m]. }
  destruct (shr_inb (shr_record_of_loc mx lx) ex k N D Hk H0) as [H1 He'].
  destruct (shr (shr_record_of_loc mx lx) ex k) as [mrs e'] eqn:Eshr.
  cbn [fst snd] in H1, He'. subst e'.
  assert (shr_fexp prec emax mx ex lx = (mrs, ex + k)) as Efexp by exact Eshr.
  unfold binary_round_aux. rewrite Efexp.
  destruct (inb_floor mrs mx lx N D k Hk H0 H1) as [[Hfl1 Hfl2] Hfl3].
  destruct (round_nearest_even_inb mrs N (2 ^ k * D) H1) as ([Hr1 Hr2] & Hr3 & Hr4).
  set (m0 := shr_m mrs) in *.
  set (m1 := round_nearest_even m0 (loc_of_shr_record mrs)) in *.
  assert (0 <= m0) as Hm0 by (by destruct H1).
  assert (emin <= ex + k) as Hemin.
  { unfold k, e1. rewrite fexp_eq. lia. }
  (* the size of [m0] *)
  assert (m0 < 2 ^ prec /\ (emin < ex + k -> 2 ^ (prec - 1) <= m0)) as [Hhi Hlo].
  { destruct (Z.eq_dec mx 0) as [->|Hne].
    - assert (m0 = 0) as -> by nia. split; [done|].
      unfold k, e1 in *. rewrite fexp_eq in *. change (Zdigits2 0) with 0 in *. unfold prec in *. lia.
    - destruct (Zdigits2_bounds mx ltac:(lia)) as [Hd1 Hd2].
      pose proof (Zdigits2_nonneg mx) as Hd0.
      set (d := Zdigits2 mx) in *.
      assert (ex + k = Z.max (d + ex - prec) emin) as Hek.
      { unfold k, e1. rewrite fexp_eq. lia. }
      split.
      + (* [mx < 2^d] and [d <= prec + k] *)
        assert (2 ^ d <= 2 ^ prec * 2 ^ k).
        { rewrite <- Z.pow_add_r by (unfold prec; lia). apply Z.pow_le_mono_r; lia. }
        apply (Z.mul_lt_mono_pos_r (2 ^ k)); [done|]. lia.
      + intros Hn. assert (k = d - prec) as Hkd by lia.
        assert (2 ^ (d - 1) = 2 ^ (prec - 1) * 2 ^ k) as E.
        { rewrite <- Z.pow_add_r by (unfold prec; lia). f_equal. lia. }
        assert (2 ^ (prec - 1) * 2 ^ k < (m0 + 1) * 2 ^ k) by lia.
        assert (2 ^ (prec - 1) < m0 + 1) by (apply (Z.mul_lt_mono_pos_r (2 ^ k)); lia).
        lia. }
  exists m1.
  split; [done|]. split; [done|]. split; [lia|]. split; [lia|]. split.
  { intros -> ->. rewrite Z.pow_0_r, Z.mul_1_l in *.
    cbn [shr] in Eshr. injection Eshr as <- . unfold m1, m0.
    cbn [shr_record_of_loc shr_m loc_of_shr_record round_nearest_even].
    destruct H0 as (_ & _ & H0). cbn in H0. lia. }
  split.
  { intros Hn. specialize (Hlo Hn).
    assert (2 ^ (prec - 1) * (2 ^ k * D) <= m0 * (2 ^ k * D)); [|lia].
    apply Z.mul_le_mono_nonneg_r; lia. }
  pose proof (round_result sx m1 (ex + k) Hemin ltac:(lia) ltac:(lia)) as Hres.
  destruct (shr_fexp prec emax m1 (ex + k) loc_Exact) as [mrs2 e2]. cbv zeta in Hres. exact Hres.
Qed.

Lemma iter_xO m d : Zpos (Pos.iter xO m d) = Zpos m * 2 ^ Zpos d.
Proof.
  induction d as [|d IH] using Pos.peano_ind.
  - cbn [Pos.iter]. rewrite Pos2Z.inj_xO. change (2 ^ 1) with 2. lia.
  - rewrite Pos.iter_succ, Pos2Z.inj_xO, IH, Pos2Z.inj_succ, Z.pow_succ_r by lia. ring.
Qed.

(** [shl_align]: the mantissa moved to the smaller exponent. *)
Lemma shl_align_spec mx ex ex' :
  (shl_align mx ex ex').2 = Z.min ex ex' /\
  Zpos (shl_align mx ex ex').1 = Zpos mx * 2 ^ (ex - Z.min ex ex').
Proof.
  unfold shl_align. destruct (ex' - ex) as [|d|d] eqn:E; cbn [fst snd].
  - replace (Z.min ex ex') with ex by lia. rewrite Z.sub_diag. split; lia.
  - replace (Z.min ex ex') with ex by lia. rewrite Z.sub_diag. split; lia.
  - replace (Z.min ex ex') with ex' by lia. split; [done|].
    rewrite iter_xO. do 2 f_equal. lia.
Qed.

Lemma Zdigits2_shift m j : 0 < m -> 0 <= j -> Zdigits2 (m * 2 ^ j) = Zdigits2 m + j.
Proof.
  intros Hm Hj. destruct (Zdigits2_bounds m Hm) as [Hlo Hhi].
  assert (0 < Zdigits2 m) by (destruct m; simpl; lia).
  assert (0 < 2 ^ j) by (apply Z.pow_pos_nonneg; lia).
  apply Zdigits2_unique; [lia|].
  replace (Zdigits2 m + j - 1) with (Zdigits2 m - 1 + j) by lia.
  rewrite !Z.pow_add_r by lia. split.
  - apply Z.mul_le_mono_nonneg_r; lia.
  - apply Z.mul_lt_mono_pos_r; lia.
Qed.

(** [binary_round]: the number nearest to [mx * 2^ex], within a relative
    error of [2^-prec]; exact when [mx] has at most [prec] digits. *)
Lemma binary_round_spec sx mx ex :
  emin <= ex ->
  let X := Zpos mx * 2 ^ (ex - emin) in
  let r := binary_round prec emax sx mx ex in
  exists R,
    0 <= R /\ 2 ^ prec * Z.abs (R - X) <= X /\ (Zpos mx < 2 ^ prec -> R = X) /\
    ((r = S754_infinity sx /\ 2 ^ (emax - emin) <= R) \/
     (is_number r = true /\ scaled r = cond_Zopp sx R)).
Proof.
  intros Hex X r. unfold r, binary_round.
  set (d := Zpos (digits2_pos mx)).
  assert (d = Zdigits2 (Zpos mx)) as Hd by done.
  assert (0 < d) as Hdpos by (unfold d; lia).
  destruct (shl_align_spec mx ex (fexp prec emax (d + ex))) as [Hez Hmz].
  destruct (shl_align mx ex (fexp prec emax (d + ex))) as [mz ez]. cbn [fst snd] in Hez, Hmz.
  rewrite fexp_eq in Hez, Hmz.
  assert (emin <= ez <= ex) as [Hez1 Hez2] by lia.
  assert (Zdigits2 (Zpos mz) + ez = d + ex) as Hdz.
  { rewrite Hmz, Zdigits2_shift by lia. lia. }
  assert (inb (shr_record_of_loc (Zpos mz) loc_Exact) (Zpos mz) 1) as Hin.
  { unfold inb. cbn. lia. }
  assert (ez <= fexp prec emax (Zdigits2 (Zpos mz) + ez)) as Hk.
  { rewrite Hdz, fexp_eq. lia. }
  destruct (binary_round_aux_spec sx (Zpos mz) ez loc_Exact (Zpos mz) 1 Hin Hk)
    as (m1 & Hk0 & Hek & Hm1 & [Herr1 Herr2] & Hexact & Hnormal & Hres).
  set (k := fexp prec emax (Zdigits2 (Z.pos mz) + ez) - ez) in *.
  assert (k = Z.max (d + ex - prec) emin - ez) as Hkdef by (unfold k; by rewrite Hdz, fexp_eq).
  rewrite Z.mul_1_r in *.
  assert (0 < 2 ^ k) as HP by (apply Z.pow_pos_nonneg; lia).
  assert (0 < 2 ^ (ez - emin)) as HQ by (apply Z.pow_pos_nonneg; lia).
  assert (X = Zpos mz * 2 ^ (ez - emin)) as HX.
  { unfold X. rewrite Hmz, <- Z.mul_assoc, <- Z.pow_add_r by lia. do 2 f_equal. lia. }
  assert (m1 * 2 ^ (ez + k - emin) = m1 * 2 ^ k * 2 ^ (ez - emin)) as HR.
  { rewrite <- Z.mul_assoc, <- Z.pow_add_r by lia. do 2 f_equal. lia. }
  exists (m1 * 2 ^ (ez + k - emin)).
  split; [apply Z.mul_nonneg_nonneg; [lia|apply Z.pow_nonneg; lia]|].
  split; [|split; [|exact Hres]].
  - rewrite HR, HX, <- Z.mul_sub_distr_r, Z.abs_mul, (Z.abs_eq (2 ^ (ez - emin))) by lia.
    rewrite Z.mul_assoc. apply Z.mul_le_mono_nonneg_r; [lia|].
    destruct (Z.eq_dec k 0) as [Hk00|Hne].
    + rewrite Hk00 in *. specialize (Hexact eq_refl eq_refl). rewrite Z.pow_0_r in *.
      replace (m1 * 1 - Z.pos mz) with 0 by lia. simpl. lia.
    + assert (emin < ez + k) as Hn by lia. specialize (Hnormal Hn).
      change (2 ^ prec) with 9007199254740992.
      change (2 ^ (prec - 1)) with 4503599627370496 in Hnormal. lia.
  - intros Hsmall.
    assert (d <= prec) by (rewrite Hd; apply Zdigits2_le; [done|lia]).
    assert (k = 0) as Hk00 by lia. rewrite Hk00 in *.
    specialize (Hexact eq_refl eq_refl). rewrite HR, HX, Z.pow_0_r. f_equal. lia.
Qed.

(** [float(n)] is exact for a count below [2^53]. *)
Lemma float_of_Z_spec n :
  0 < n < 2 ^ prec ->
  is_number (float_of_Z n) = true /\ scaled (float_of_Z n) = n * 2 ^ (- emin).
Proof.
  intros [Hlo Hhi]. destruct n as [|p|p]; [lia| |lia].
  unfold float_of_Z, binary_normalize.
  destruct (binary_round_spec false p 0 ltac:(done)) as (R & HR0 & _ & Hexact & Hres).
  specialize (Hexact Hhi). rewrite Z.sub_0_l in Hexact. subst R.
  destruct Hres as [[_ Hinf]|[Hn Hs]]; [exfalso|done].
  assert (Zpos p * 2 ^ (- emin) < 2 ^ prec * 2 ^ (- emin))
    by (apply Z.mul_lt_mono_pos_r; [done|lia]).
  assert (2 ^ prec * 2 ^ (- emin) <= 2 ^ (emax - emin)); [|lia].
  rewrite <- Z.pow_add_r by done. by apply Z.pow_le_mono_r.
Qed.

Lemma scaled_align s m e ez :
  emin <= ez <= e ->
  cond_Zopp s (Zpos m) * 2 ^ (e - emin) =
  cond_Zopp s (Zpos (shl_align m e ez).1) * 2 ^ (ez - emin).
Proof.
  intros [H1 H2]. destruct (shl_align_spec m e ez) as [_ ->].
  replace (Z.min e ez) with ez by lia.
  replace (e - emin) with ((e - ez) + (ez - emin)) by lia.
  rewrite Z.pow_add_r by lia. destruct s; cbn [cond_Zopp]; ring.
Qed.

(** The float sum of two numbers: their sum, within a relative error of
    [2^-53], or an infinity. *)
Lemma fadd_spec a x :
  is_number a = true -> is_number x = true ->
  is_infinity (fadd a x) = true \/
  (is_number (fadd a x) = true /\
   2 ^ prec * Z.abs (scaled (fadd a x) - (scaled a + scaled x)) <= Z.abs (scaled a + scaled x)).
Proof.
  assert (forall z, 2 ^ prec * Z.abs (z - z) <= Z.abs z) as Hsame.
  { intros z. rewrite Z.sub_diag. simpl. lia. }
  destruct a as [sa|sa| |sa ma ea], x as [sx|sx| |sx mx ex]; try done; intros Ha Hx.
  - right. split; [by destruct sa, sx|].
    replace (scaled (fadd _ _)) with 0 by (by destruct sa, sx). done.
  - right. split; [done|]. cbn [fadd SFadd]. change (scaled (S754_zero sa)) with 0.
    rewrite Z.add_0_l. apply Hsame.
  - right. split; [done|]. cbn [fadd SFadd]. change (scaled (S754_zero sx)) with 0.
    rewrite Z.add_0_r. apply Hsame.
  - cbn [is_number] in Ha, Hx.
    destruct (bounded_inv _ _ Ha) as (Hea & _). destruct (bounded_inv _ _ Hx) as (Hex & _).
    unfold fadd, SFadd. set (ez := Z.min ea ex).
    assert (emin <= ez) as Hez by (unfold ez; lia).
    set (z := cond_Zopp sa (Zpos (shl_align ma ea ez).1) +
              cond_Zopp sx (Zpos (shl_align mx ex ez).1)).
    assert (scaled (S754_finite sa ma ea) + scaled (S754_finite sx mx ex) =
            z * 2 ^ (ez - emin)) as ->.
    { unfold scaled, z.
      rewrite (scaled_align sa ma ea ez), (scaled_align sx mx ex ez) by (unfold ez; lia).
      ring. }
    assert (0 < 2 ^ (ez - emin)) as HQ by (apply Z.pow_pos_nonneg; lia).
    destruct z as [|p|p]; cbn [binary_normalize].
    + right. split; [done|]. simpl. lia.
    + destruct (binary_round_spec false p ez Hez) as (R & HR0 & Herr & _ & Hres).
      destruct Hres as [[-> _]|[Hn Hs]]; [by left|right]. split; [done|].
      rewrite Hs. cbn [cond_Zopp].
      rewrite (Z.abs_eq (Zpos p * _)) by lia. done.
    + destruct (binary_round_spec true p ez Hez) as (R & HR0 & Herr & _ & Hres).
      destruct Hres as [[-> _]|[Hn Hs]]; [by left|right]. split; [done|].
      rewrite Hs. cbn [cond_Zopp].
      replace (- R - Z.neg p * 2 ^ (ez - emin)) with (- (R - Zpos p * 2 ^ (ez - emin))) by lia.
      replace (Z.neg p * 2 ^ (ez - emin)) with (- (Zpos p * 2 ^ (ez - emin))) by lia.
      rewrite !Z.abs_opp, (Z.abs_eq (Zpos p * _)) by lia. done.
Qed.

(** Once a sum is an infinity or NaN, it stays one. *)
Lemma fadd_not_number a x :
  is_number x = true -> is_infinity a = true \/ is_nan a = true ->
  is_infinity (fadd a x) = true \/ is_nan (fadd a x) = true.
Proof.
  destruct a as [sa|sa| |sa ma ea], x as [sx|sx| |sx mx ex]; try done;
    intros _ [?|?]; try done; by left.
Qed.

(** The quotient and the remainder of a division, located. *)
Lemma new_location_inb q r d n :
  0 < d -> 0 <= q -> n = d * q + r -> 0 <= r < d ->
  inb (shr_record_of_loc q (new_location d r)) n d.
Proof.
  intros Hd Hq -> [Hr1 Hr2]. unfold new_location, new_location_even, new_location_odd.
  destruct (Z.even d) eqn:Ev.
  - destruct (Z.eqb_spec r 0) as [->|Hne].
    + unfold inb. cbn. lia.
    + destruct (Z.compare_spec (2 * r) d); unfold inb; cbn; lia.
  - destruct (Z.eqb_spec r 0) as [->|Hne].
    + unfold inb. cbn. lia.
    + assert (Z.odd d = true) as Hodd by (rewrite <- Z.negb_even, Ev; done).
      apply Z.odd_spec in Hodd as [j Hj].
      destruct (Z.compare_spec (2 * r + 1) d); unfold inb; cbn; lia.
Qed.

Lemma Zdigits2_lower m d : 0 <= d -> 2 ^ d <= m -> d < Zdigits2 m.
Proof.
  intros Hd Hm. assert (0 < 2 ^ d) by (apply Z.pow_pos_nonneg; lia).
  destruct (Zdigits2_bounds m ltac:(lia)) as [_ Hhi].
  destruct (Z_lt_le_dec d (Zdigits2 m)) as [|Hle]; [done|].
  pose proof (Zdigits2_nonneg m).
  assert (2 ^ Zdigits2 m <= 2 ^ d) by (apply Z.pow_le_mono_r; lia). lia.
Qed.

Lemma bounded_digits m e :
  bounded prec emax m e = true -> 0 < Zdigits2 (Zpos m) <= prec.
Proof.
  intros H. apply bounded_inv in H as (_ & Hhi & _). split; [simpl; lia|].
  apply Zdigits2_le; [done|lia].
Qed.

(** The float quotient of two finite numbers: the quotient of the values,
    within half a unit of the last place, or an infinity.  In units of
    [2^emin]: the dividend is [X], the divisor [Y], the quotient [R]. *)
Lemma fdiv_spec sx mx ex sy my ey :
  bounded prec emax mx ex = true -> bounded prec emax my ey = true ->
  let X := Zpos mx * 2 ^ (ex - emin) in
  let Y := Zpos my * 2 ^ (ey - emin) in
  let T := 2 ^ (- emin) in
  let r := fdiv (S754_finite sx mx ex) (S754_finite sy my ey) in
  exists R,
    0 <= R /\
    (2 * Z.abs (R * Y - T * X) <= Y \/ 2 ^ prec * Z.abs (R * Y - T * X) <= T * X) /\
    (is_infinity r = true \/
     (is_number r = true /\ scaled r = cond_Zopp (xorb sx sy) R)).
Proof.
  intros Hbx Hby X Y T r.
  destruct (bounded_inv _ _ Hbx) as (Hex & Hmx & _).
  destruct (bounded_inv _ _ Hby) as (Hey & Hmy & _).
  destruct (bounded_digits _ _ Hbx) as [Hd1 Hd1'].
  destruct (bounded_digits _ _ Hby) as [Hd2 Hd2'].
  destruct (Zdigits2_bounds (Zpos mx) ltac:(done)) as [Hx1 Hx2].
  destruct (Zdigits2_bounds (Zpos my) ltac:(done)) as [Hy1 Hy2].
  unfold r, fdiv, SFdiv, SFdiv_core_binary.
  set (d1 := Zdigits2 (Zpos mx)) in *. set (d2 := Zdigits2 (Zpos my)) in *.
  set (e' := Z.min (fexp prec emax (d1 + ex - (d2 + ey))) (ex - ey)).
  set (s := ex - ey - e').
  assert (0 <= s) as Hs by (unfold s, e'; lia).
  set (m' := match s with Z.pos _ => Z.shiftl (Zpos mx) s | 0 => Zpos mx | Z.neg _ => 0 end).
  assert (m' = Zpos mx * 2 ^ s) as Hm'.
  { unfold m'. destruct s as [|p|p] eqn:Es; [rewrite Z.pow_0_r; lia| |lia].
    by rewrite Z.shiftl_mul_pow2. }
  clearbody m'.
  pose proof (Z_div_mod m' (Zpos my) ltac:(done)) as Hdiv.
  destruct (Z.div_eucl m' (Zpos my)) as [q rm]. destruct Hdiv as [Hdiv Hrm].
  assert (0 < 2 ^ s) as H2s by (apply Z.pow_pos_nonneg; lia).
  assert (0 <= q) as Hq by nia.
  pose proof (new_location_inb q rm (Zpos my) m' ltac:(done) Hq Hdiv Hrm) as Hin.
  assert (e' <= fexp prec emax (Zdigits2 q + e')) as Hk.
  { rewrite fexp_eq. destruct (Z_le_gt_dec e' emin) as [|Hgt]; [lia|].
    assert (e' = d1 + ex - (d2 + ey) - prec) as He'.
    { unfold e' in *. rewrite fexp_eq in *. lia. }
    assert (s = prec + d2 - d1) as Hsd by (unfold s; lia).
    assert (prec <= Zdigits2 q); [|lia].
    assert (prec - 1 < Zdigits2 q); [|lia].
    apply Zdigits2_lower; [done|].
    (* [(q + 1) * my > m' >= 2^(prec-1) * 2^d2 > 2^(prec-1) * my] *)
    assert (2 ^ (prec - 1) * 2 ^ d2 <= m') as Hlow.
    { rewrite Hm'. replace (2 ^ (prec - 1) * 2 ^ d2) with (2 ^ (d1 - 1) * 2 ^ s).
      - apply Z.mul_le_mono_nonneg_r; lia.
      - rewrite <- !Z.pow_add_r by lia. f_equal. lia. }
    assert (2 ^ (prec - 1) * Zpos my < 2 ^ (prec - 1) * 2 ^ d2)
      by (apply Z.mul_lt_mono_pos_l; [done|lia]).
    assert (2 ^ (prec - 1) * Zpos my < (q + 1) * Zpos my) by lia.
    assert (2 ^ (prec - 1) < q + 1) by (apply (Z.mul_lt_mono_pos_r (Zpos my)); lia).
    lia. }
  destruct (binary_round_aux_spec (xorb sx sy) q e' _ m' (Zpos my) Hin Hk)
    as (m1 & Hk0 & Hek & Hm1 & [Herr1 Herr2] & _ & Hnormal & Hres).
  set (k := fexp prec emax (Zdigits2 q + e') - e') in *.
  set (U := 2 ^ (e' + k - emin)) in *.
  set (A := 2 ^ (ey - emin)).
  assert (0 < U) as HU by (apply Z.pow_pos_nonneg; lia).
  assert (0 < A) as HA by (apply Z.pow_pos_nonneg; lia).
  assert (0 < 2 ^ k) as HK by (apply Z.pow_pos_nonneg; lia).
  assert (2 ^ k * (T * X) = m' * (A * U)) as Hid.
  { unfold T, X, A, U. rewrite Hm'.
    transitivity (Zpos mx * (2 ^ k * 2 ^ (- emin) * 2 ^ (ex - emin))); [ring|].
    transitivity (Zpos mx * (2 ^ s * 2 ^ (ey - emin) * 2 ^ (e' + k - emin))); [|ring].
    f_equal. rewrite <- !Z.pow_add_r by (unfold emin, SpecFloat.emin, emax, prec in *; lia).
    f_equal. unfold s. lia. }
  assert (Y = Zpos my * A) as HY by done.
  exists (m1 * U). split; [lia|]. split;
    [|cbv beta iota; destruct Hres as [[-> _]|Hres]; [by left|by right]].
  (* the error, times [2^k] *)
  assert (2 ^ k * (m1 * U * Y - T * X) = A * U * (m1 * (2 ^ k * Zpos my) - m')) as Herr.
  { rewrite Z.mul_sub_distr_l, Hid, HY. ring. }
  assert (2 ^ k * (2 * Z.abs (m1 * U * Y - T * X)) <= 2 ^ k * (U * Y)) as Hhalf.
  { replace (2 ^ k * (2 * Z.abs (m1 * U * Y - T * X)))
      with (Z.abs (2 * (2 ^ k * (m1 * U * Y - T * X))))
      by (rewrite !Z.abs_mul, (Z.abs_eq 2), (Z.abs_eq (2 ^ k)) by lia; ring).
    rewrite Herr.
    replace (2 * (A * U * (m1 * (2 ^ k * Z.pos my) - m')))
      with (A * U * (2 * (m1 * (2 ^ k * Z.pos my) - m'))) by ring.
    rewrite Z.abs_mul, (Z.abs_eq (A * U)) by lia.
    replace (2 ^ k * (U * Y)) with (A * U * (2 ^ k * Zpos my)) by (rewrite HY; ring).
    apply Z.mul_le_mono_nonneg_l; lia. }
  apply Z.mul_le_mono_pos_l in Hhalf; [|done].
  destruct (Z.eq_dec (e' + k) emin) as [He|He].
  - left. assert (U = 1) as HU1 by (unfold U; by rewrite He, Z.sub_diag).
    replace (U * Y) with Y in Hhalf by (rewrite HU1; ring). done.
  - right. specialize (Hnormal ltac:(lia)).
    assert (2 ^ k * (2 ^ (prec - 1) * (U * Y)) <= 2 ^ k * (T * X)) as Hrel.
    { rewrite Hid, HY.
      replace (2 ^ k * (2 ^ (prec - 1) * (U * (Z.pos my * A))))
        with (2 ^ (prec - 1) * (2 ^ k * Z.pos my) * (A * U)) by ring.
      apply Z.mul_le_mono_nonneg_r; lia. }
    apply Z.mul_le_mono_pos_l in Hrel; [|done].
    change (2 ^ prec) with 9007199254740992.
    change (2 ^ (prec - 1)) with 4503599627370496 in Hrel. lia.
Qed.

(** The float quotient of a number by a count below [2^53]. *)
Lemma fdiv_count_spec x n :
  is_number x = true -> 0 < n < 2 ^ prec ->
  let r := fdiv x (float_of_Z n) in
  is_infinity r = true \/
  (is_number r = true /\
   (2 * Z.abs (scaled r * n - scaled x) <= n \/
    2 ^ prec * Z.abs (scaled r * n - scaled x) <= Z.abs (scaled x))).
Proof.
  intros Hx Hn r. destruct (float_of_Z_spec n Hn) as [Hy Hsy].
  unfold r. clear r.
  assert (0 < 2 ^ (- emin)) as HT by done.
  destruct (float_of_Z n) as [sy|sy| |sy my ey]; try done.
  { cbn in Hsy. nia. }
  cbn [is_number] in Hy.
  assert (0 < 2 ^ (ey - emin)) as HA
    by (apply bounded_inv in Hy; apply Z.pow_pos_nonneg; lia).
  assert (sy = false) as ->.
  { destruct sy; [|done]. rewrite scaled_finite in Hsy. cbn [cond_Zopp] in Hsy. nia. }
  rewrite scaled_finite in Hsy. cbn [cond_Zopp] in Hsy.
  destruct x as [sx|sx| |sx mx ex]; try done.
  - right. split; [done|]. left. cbn. lia.
  - cbn [is_number] in Hx.
    destruct (fdiv_spec sx mx ex false my ey Hx Hy) as (R & HR & Herr & Hres).
    cbv zeta in Herr, Hres. rewrite Hsy in Herr.
    destruct Hres as [?|[Hnum Hs]]; [by left|right]. split; [done|].
    rewrite Hs, xorb_false_r, scaled_finite.
    set (X := Zpos mx * 2 ^ (ex - emin)) in *.
    assert (0 < X).
    { unfold X. apply Z.mul_pos_pos; [done|].
      apply bounded_inv in Hx. apply Z.pow_pos_nonneg; lia. }
    set (T := 2 ^ (- emin)) in *.
    assert (Z.abs (cond_Zopp sx R * n - cond_Zopp sx X) = Z.abs (R * n - X)) as ->.
    { destruct sx; cbn [cond_Zopp]; lia. }
    assert (Z.abs (cond_Zopp sx X) = X) as -> by (destruct sx; cbn [cond_Zopp]; lia).
    assert (Z.abs (R * (n * T) - T * X) = T * Z.abs (R * n - X)) as E.
    { replace (R * (n * T) - T * X) with (T * (R * n - X)) by ring.
      by rewrite Z.abs_mul, (Z.abs_eq T) by lia. }
    rewrite E in Herr. destruct Herr as [Herr|Herr]; [left|right].
    + apply (Z.mul_le_mono_pos_l _ _ T); [done|]. lia.
    + apply (Z.mul_le_mono_pos_l _ _ T); [done|]. lia.
Qed.

Lemma frac_error_rel (r z : Z) (T P : positive) :
  Zpos P * Z.abs (r - z) <= Z.abs z ->
  (Qabs ((r # T) - (z # T)) <= (1 # P) * Qabs (z # T))%Q.
Proof.
  intros H. unfold Qle, Qminus, Qplus, Qopp, Qabs, Qmult. cbn [Qnum Qden].
  rewrite !Pos2Z.inj_mul.
  replace (r * Zpos T + - z * Zpos T) with ((r - z) * Zpos T) by ring.
  rewrite Z.abs_mul, (Z.abs_eq (Zpos T)) by lia.
  assert (Zpos P * Z.abs (r - z) * (Zpos T * Zpos T) <= Z.abs z * (Zpos T * Zpos T))
    by (apply Z.mul_le_mono_nonneg_r; lia).
  lia.
Qed.

Lemma frac_error_quot_abs (r x : Z) (n T : positive) :
  2 * Z.abs (r * Zpos n - x) <= Zpos n ->
  (Qabs ((r # T) - (x # T) / inject_Z (Zpos n)) <= 1 # (2 * T))%Q.
Proof.
  intros H. unfold Qle, Qminus, Qplus, Qopp, Qabs, Qdiv, Qmult, Qinv, inject_Z.
  cbn [Qnum Qden]. rewrite !Pos2Z.inj_mul.
  replace (r * (Zpos T * Zpos n) + - (x * 1) * Zpos T) with ((r * Zpos n - x) * Zpos T) by ring.
  rewrite Z.abs_mul, (Z.abs_eq (Zpos T)) by lia.
  assert (2 * Z.abs (r * Zpos n - x) * (Zpos T * Zpos T) <= Zpos n * (Zpos T * Zpos T))
    by (apply Z.mul_le_mono_nonneg_r; lia).
  lia.
Qed.

Lemma frac_error_quot_rel (r x : Z) (n T P : positive) :
  Zpos P * Z.abs (r * Zpos n - x) <= Z.abs x ->
  (Qabs ((r # T) - (x # T) / inject_Z (Zpos n)) <=
   (1 # P) * (Qabs (x # T) / inject_Z (Zpos n)))%Q.
Proof.
  intros H. unfold Qle, Qminus, Qplus, Qopp, Qabs, Qdiv, Qmult, Qinv, inject_Z.
  cbn [Qnum Qden]. rewrite !Pos2Z.inj_mul.
  replace (r * (Zpos T * Zpos n) + - (x * 1) * Zpos T) with ((r * Zpos n - x) * Zpos T) by ring.
  rewrite Z.abs_mul, (Z.abs_eq (Zpos T)) by lia.
  assert (Zpos P * Z.abs (r * Zpos n - x) * (Zpos T * Zpos T * Zpos n)
          <= Z.abs x * (Zpos T * Zpos T * Zpos n))
    by (apply Z.mul_le_mono_nonneg_r; lia).
  lia.
Qed.

Lemma unit_roundoff_pos : (0 < unit_roundoff)%Q.
Proof. done. Qed.

Lemma half_least_pos : (0 < half_least)%Q.
Proof. done. Qed.

Lemma growth_ge_1 n : (1 <= growth n)%Q.
Proof.
  induction n as [|n IH]; cbn [growth]; [lra|].
  pose proof unit_roundoff_pos.
  assert (0 <= unit_roundoff * (growth n - 1))%Q by (apply Qmult_le_0_compat; lra).
  lra.
Qed.

Lemma exact_abs_sum_nonneg xs : (0 <= exact_abs_sum xs)%Q.
Proof.
  unfold exact_abs_sum. induction xs as [|x xs IH]; cbn [foldr map]; [lra|].
  pose proof (Qabs_nonneg (exact x)). lra.
Qed.

Lemma exact_sum_abs xs : (Qabs (exact_sum xs) <= exact_abs_sum xs)%Q.
Proof.
  unfold exact_sum, exact_abs_sum. induction xs as [|x xs IH]; cbn [foldr map]; [done|].
  eapply Qle_trans; [apply Qabs_triangle|]. lra.
Qed.

(** The float sum of two numbers, as rationals. *)
Lemma fadd_exact a x :
  is_number a = true -> is_number x = true -> is_number (fadd a x) = true ->
  (Qabs (exact (fadd a x) - (exact a + exact x)) <=
   unit_roundoff * Qabs (exact a + exact x))%Q.
Proof.
  intros Ha Hx Hr. destruct (fadd_spec a x Ha Hx) as [Hinf|[_ H]].
  { by destruct (fadd a x). }
  unfold exact. set (T := (2 ^ 1074)%positive).
  assert ((scaled a # T) + (scaled x # T) == (scaled a + scaled x) # T)%Q as E.
  { unfold Qeq, Qplus. cbn [Qnum Qden]. rewrite Pos2Z.inj_mul. ring. }
  rewrite E. apply (frac_error_rel _ _ T (2 ^ 53)). exact H.
Qed.

(** The float quotient of a number by a count, as rationals. *)
Lemma fdiv_exact x n :
  is_number x = true -> 0 < n < 2 ^ prec ->
  is_number (fdiv x (float_of_Z n)) = true ->
  (Qabs (exact (fdiv x (float_of_Z n)) - exact x / inject_Z n) <=
   unit_roundoff * (Qabs (exact x) / inject_Z n) + half_least)%Q.
Proof.
  intros Hx Hn Hr. destruct (fdiv_count_spec x n Hx Hn) as [Hinf|[_ H]].
  { by destruct (fdiv x (float_of_Z n)). }
  destruct n as [|p|p]; [lia| |lia].
  unfold exact. set (T := (2 ^ 1074)%positive).
  assert (0 <= unit_roundoff * (Qabs (scaled x # T) / inject_Z (Zpos p)))%Q as Hpos.
  { apply Qmult_le_0_compat; [done|]. apply Qmult_le_0_compat; [apply Qabs_nonneg|done]. }
  destruct H as [H|H].
  - pose proof (frac_error_quot_abs _ _ p T H) as H'.
    change (1 # 2 * T)%Q with half_least in H'. lra.
  - pose proof (frac_error_quot_rel _ _ p T (2 ^ 53) H) as H'.
    change (1 # 2 ^ 53)%Q with unit_roundoff in H'.
    pose proof half_least_pos. lra.
Qed.

Lemma foldl_fadd_broken xs a :
  Forall (fun x => is_number x = true) xs ->
  is_infinity a = true \/ is_nan a = true ->
  is_infinity (foldl fadd a xs) = true \/ is_nan (foldl fadd a xs) = true.
Proof.
  intros Hxs. revert a. induction Hxs as [|x xs Hx _ IH]; intros a Ha; simpl; [done|].
  apply IH. by apply fadd_not_number.
Qed.

Lemma broken_not_number a :
  is_infinity a = true \/ is_nan a = true -> is_number a = false.
Proof. by destruct a; intros [?|?]. Qed.

(** One more addition in the error of a sum. *)
Lemma growth_step (u g aa w B A : Q) :
  (0 <= u -> 1 <= g -> 0 <= A -> 0 <= w -> w <= B -> aa <= (1 + u) * w ->
   (g - 1) * (aa + A) + u * w <= ((1 + u) * g - 1) * (B + A))%Q.
Proof.
  intros Hu Hg HA Hw HB Haa.
  assert (0 <= (g - 1) * ((1 + u) * w - aa))%Q by (apply Qmult_le_0_compat; lra).
  assert (0 <= (g - 1) * (B - w))%Q by (apply Qmult_le_0_compat; lra).
  assert (0 <= u * ((g - 1) * (B - w)))%Q by (apply Qmult_le_0_compat; lra).
  assert (0 <= u * (B - w))%Q by (apply Qmult_le_0_compat; lra).
  assert (0 <= u * g)%Q by (apply Qmult_le_0_compat; lra).
  assert (0 <= u * g * A)%Q by (apply Qmult_le_0_compat; lra).
  lra.
Qed.

(** The float sum of a list of numbers, from a number [acc]: within
    [(1 + 2^-53)^n - 1] of the sum, relative to the sum of the absolute
    values. *)
Lemma foldl_fadd_error xs :
  Forall (fun x => is_number x = true) xs ->
  forall acc,
    is_number acc = true ->
    is_number (foldl fadd acc xs) = true ->
    (Qabs (exact (foldl fadd acc xs) - (exact acc + exact_sum xs)) <=
     (growth (length xs) - 1) * (Qabs (exact acc) + exact_abs_sum xs))%Q.
Proof.
  induction 1 as [|x xs Hx Hxs IH]; intros acc Hacc Hres.
  - cbn [foldl length growth]. unfold exact_sum, exact_abs_sum. cbn [foldr map].
    apply Qabs_Qle_condition. lra.
  - cbn [foldl] in *.
    assert (is_number (fadd acc x) = true) as Ha'.
    { destruct (fadd_spec acc x Hacc Hx) as [Hinf|[? _]]; [|done].
      rewrite (broken_not_number _ (foldl_fadd_broken xs _ Hxs (or_introl Hinf))) in Hres.
      done. }
    pose proof (fadd_exact acc x Hacc Hx Ha') as H1.
    pose proof (IH _ Ha' Hres) as H2.
    change (exact_sum (x :: xs)) with (exact x + exact_sum xs)%Q.
    change (exact_abs_sum (x :: xs)) with (Qabs (exact x) + exact_abs_sum xs)%Q.
    cbn [length growth].
    pose proof (Qabs_triangle (exact acc) (exact x)) as Htri.
    pose proof (Qabs_nonneg (exact acc + exact x)) as Hw.
    pose proof (exact_abs_sum_nonneg xs) as HA.
    pose proof (growth_ge_1 (length xs)) as Hg.
    pose proof unit_roundoff_pos as Hu.
    set (u := unit_roundoff) in *. set (g := growth (length xs)) in *.
    set (w := Qabs (exact acc + exact x)) in *.
    set (Sx := exact_sum xs) in *. set (A := exact_abs_sum xs) in *.
    set (r := exact (foldl fadd (fadd acc x) xs)) in *.
    set (a' := exact (fadd acc x)) in *.
    assert (Qabs a' <= (1 + u) * w)%Q as Ha.
    { apply Qabs_Qle_condition in H1.
      pose proof (Qle_Qabs (exact acc + exact x)).
      pose proof (Qle_Qabs (- (exact acc + exact x))) as Hneg.
      rewrite Qabs_opp in Hneg. fold w in H, Hneg.
      apply Qabs_Qle_condition. lra. }
    pose proof (growth_step u g (Qabs a') w (Qabs (exact acc) + Qabs (exact x)) A
                  ltac:(lra) Hg HA Hw Htri Ha) as Hstep.
    apply Qabs_Qle_condition in H1, H2. apply Qabs_Qle_condition. lra.
Qed.

Lemma fsum_cases xs acc :
  Forall (fun x => is_number x = true) xs -> is_number acc = true ->
  is_number (foldl fadd acc xs) = true \/
  is_infinity (foldl fadd acc xs) = true \/ is_nan (foldl fadd acc xs) = true.
Proof.
  intros Hxs. revert acc. induction Hxs as [|x xs Hx Hxs IH]; intros acc Hacc; cbn [foldl].
  - by left.
  - destruct (fadd_spec acc x Hacc Hx) as [Hinf|[Hn _]]; [right|by apply IH].
    apply foldl_fadd_broken; [done|by left].
Qed.

Lemma fdiv_broken a n :
  0 < n < 2 ^ prec ->
  is_infinity a = true \/ is_nan a = true ->
  is_number (fdiv a (float_of_Z n)) = false.
Proof.
  intros Hn Ha. destruct (float_of_Z_spec n Hn) as [Hy Hs].
  destruct (float_of_Z n) as [sy|sy| |sy my ey]; try done.
  - cbn in Hs. assert (0 < 2 ^ (- emin)) by done. nia.
  - by destruct a, Ha.
Qed.

(** The float64 mean of a list of numbers is their mean, up to rounding:
    the summation and the division are off by at most [mean_error]. *)
Lemma series_mean_error xs :
  xs <> [] ->
  Forall (fun x => is_number x = true) xs ->
  Z.of_nat (length xs) < 2 ^ prec ->
  is_number (series_mean xs) = true ->
  (Qabs (exact (series_mean xs) - exact_mean xs) <= mean_error xs)%Q.
Proof.
  intros Hne Hxs Hlen Hmean.
  set (n := Z.of_nat (length xs)) in *.
  assert (0 < n < 2 ^ prec) as Hn.
  { split; [|done]. unfold n. destruct xs; [done|]. cbn [length]. lia. }
  assert (series_mean xs = fdiv (fsum xs) (float_of_Z n)) as Em.
  { unfold series_mean. rewrite (dropna_numbers xs Hxs). by destruct xs. }
  rewrite Em in *.
  assert (is_number (fsum xs) = true) as Hsum.
  { destruct (fsum_cases xs (S754_zero false) Hxs eq_refl) as [?|Hb]; [done|].
    by rewrite (fdiv_broken (fsum xs) n Hn Hb) in Hmean. }
  pose proof (foldl_fadd_error xs Hxs (S754_zero false) eq_refl Hsum) as H1.
  pose proof (fdiv_exact (fsum xs) n Hsum Hn Hmean) as H2.
  unfold mean_error, exact_mean. fold n. cbn [growth].
  pose proof (exact_sum_abs xs) as HS.
  pose proof (exact_abs_sum_nonneg xs) as HA.
  pose proof (growth_ge_1 (length xs)) as Hg.
  pose proof unit_roundoff_pos as Hu.
  assert (0 < / inject_Z n)%Q as Hi.
  { apply Qinv_lt_0_compat. change 0%Q with (inject_Z 0). rewrite <- Zlt_Qlt. lia. }
  change (exact (S754_zero false)) with (0 # 2 ^ 1074)%Q in H1.
  assert (Qabs (0 # 2 ^ 1074) == 0)%Q as E0 by done.
  assert ((0 # 2 ^ 1074) == 0)%Q as E1 by done.
  fold (fsum xs) in H1. unfold Qdiv in *.
  set (u := unit_roundoff) in *. set (g := growth (length xs)) in *.
  set (i := (/ inject_Z n)%Q) in *.
  set (Sx := exact_sum xs) in *. set (A := exact_abs_sum xs) in *.
  set (s := exact (fsum xs)) in *.
  set (r := exact (fdiv (fsum xs) (float_of_Z n))) in *.
  rewrite E0, E1 in H1.
  apply Qabs_Qle_condition in H1, HS.
  assert (Qabs s <= g * A)%Q as Hs by (apply Qabs_Qle_condition; lra).
  pose proof (Qabs_nonneg s) as Hs0.
  apply Qabs_Qle_condition in H2.
  (* the products *)
  assert (0 <= u * i * (g * A - Qabs s))%Q
    by (apply Qmult_le_0_compat; [apply Qmult_le_0_compat|]; lra).
  assert (0 <= i * ((g - 1) * A - (s - Sx)))%Q by (apply Qmult_le_0_compat; lra).
  assert (0 <= i * ((g - 1) * A + (s - Sx)))%Q by (apply Qmult_le_0_compat; lra).
  apply Qabs_Qle_condition. lra.
Qed.


(** ** The views of an empty row set *)

Lemma render_ok w s : render w s = (inr tt, rendered s [w]).
Proof. done. Qed.

Lemma rendered_app s ws ws' : rendered (rendered s ws) ws' = rendered s (ws ++ ws').
Proof. unfold rendered. simpl. by rewrite app_assoc. Qed.

Lemma load_rendered l s ws d : heap s !! l = Some d -> load l (rendered s ws) = (inr d, rendered s ws).
Proof. intros H. by apply load_ok. Qed.

Ltac step_render := erewrite bind_ok by apply render_ok; rewrite ?rendered_app.

Lemma controls_info_ok c l s d :
  heap s !! l = Some d ->
  controls_info c l s = (inr tt, rendered s (info_panel c d)).
Proof.
  intros Hl. unfold controls_info, info_panel.
  step_render. step_with ltac:(by apply load_rendered). step_render. step_render.
  destruct (has_column "timestamp" d).
  - destruct (latest (series "timestamp" d)); step_render; by rewrite render_ok, rendered_app.
  - step_with ltac:(apply ret_ok). by rewrite render_ok, rendered_app.
Qed.

(** Each view on an empty row set, after widgets [ws]. *)
Lemma trend_empty l d s ws :
  heap s !! l = Some d -> df_empty d = true ->
  trend l (rendered s ws) =
  (inr tt, rendered s (ws ++ [st_subheader "Trend"; st_info "No data available."])).
Proof.
  intros Hl He. unfold trend. step_render. step_with ltac:(by apply load_rendered).
  rewrite He. by rewrite render_ok, rendered_app, <- app_assoc.
Qed.

Lemma quick_stats_empty l d s ws :
  heap s !! l = Some d -> df_empty d = true ->
  quick_stats l (rendered s ws) = (inr tt, rendered s (ws ++ [st_write "-"])).
Proof.
  intros Hl He. unfold quick_stats. step_with ltac:(by apply load_rendered).
  rewrite He. by rewrite render_ok, rendered_app.
Qed.

Lemma raw_table_empty c l d s ws :
  heap s !! l = Some d -> df_empty d = true ->
  raw_table c l (rendered s ws) = (inr tt, rendered s ws).
Proof.
  intros Hl He. unfold raw_table. step_with ltac:(by apply load_rendered).
  rewrite He. by rewrite andb_false_r.
Qed.

Lemma download_empty c l d s ws :
  heap s !! l = Some d -> df_empty d = true ->
  download c l (rendered s ws) = (inr tt, rendered s ws).
Proof.
  intros Hl He. unfold download. step_with ltac:(by apply load_rendered).
  rewrite He. by rewrite andb_false_r.
Qed.

(** The views in the order of the script, on an empty row set. *)
Ltac run_empty_views Hl He :=
  unfold render_views; step_render;
  step_with ltac:(by eapply trend_empty);
  step_with ltac:(by eapply quick_stats_empty);
  step_with ltac:(by apply controls_info_ok); rewrite rendered_app;
  step_with ltac:(by eapply raw_table_empty);
  erewrite download_empty by eassumption.

(** ** The CSV ingestor *)

(** What [parse_uploaded_csv] returns, case by case: the failure signal
    [None] when [read_csv] or [to_datetime] raises, else a new frame. *)
Lemma parse_uploaded_csv_cases file s :
  parse_uploaded_csv file s =
  match read_csv file with
  | inl _ => (inr None, s)
  | inr d =>
      let s1 := mkState (world s) (heap s ++ [d]) (session s) (ui s) in
      if has_column "timestamp" d then
        match to_datetime (series "timestamp" d) with
        | inl _ => (inr None, s1)
        | inr ts =>
            (inr (Some (length (heap s))),
             mkState (world s)
                     (<[length (heap s) := set_column "timestamp" (map time_cell ts) d]> (heap s ++ [d]))
                     (session s) (ui s))
        end
      else (inr (Some (length (heap s))), s1)
  end.
Proof.
  unfold parse_uploaded_csv, try_except, lift.
  destruct (read_csv file) as [e|d]; [done|].
  erewrite bind_ok by apply ret_ok. erewrite bind_ok by apply alloc_ok.
  destruct (has_column "timestamp" d); [|done].
  destruct (to_datetime (series "timestamp" d)) as [e|ts]; done.
Qed.

Lemma parse_uploaded_csv_total file s :
  exists parsed s',
    parse_uploaded_csv file s = (inr parsed, s') /\
    world s' = world s /\ session s' = session s /\ ui s' = ui s /\
    (forall l x, heap s !! l = Some x -> heap s' !! l = Some x) /\
    (forall l, parsed = Some l -> length (heap s) <= l /\ is_Some (heap s' !! l))%nat.
Proof.
  rewrite parse_uploaded_csv_cases.
  destruct (read_csv file) as [e|d].
  { exists None, s. repeat split; done. }
  assert (forall x : DataFrame,
            (length (heap s) <= length (heap s))%nat /\ is_Some ((heap s ++ [x]) !! length (heap s)))
    as Hnew by (intros x; split; [lia | by rewrite lookup_snoc_new]).
  destruct (has_column "timestamp" d);
    [destruct (to_datetime (series "timestamp" d)) as [e|ts]|];
    eexists _, _; (split; [reflexivity|]); simpl;
    (split; [done|]); (split; [done|]); (split; [done|]); split.
  - intros l x Hl. by apply lookup_snoc_old.
  - done.
  - intros l x Hl. rewrite list_lookup_insert_ne; [by apply lookup_snoc_old|].
    apply lookup_lt_Some in Hl. lia.
  - intros l [= <-]. split; [lia|].
    rewrite list_lookup_insert_eq; [done|]. rewrite length_app. simpl. lia.
  - intros l x Hl. by apply lookup_snoc_old.
  - intros l [= <-]. apply Hnew.
Qed.

(** ** The script's filter stage computes [filter_stage] *)

Lemma allocates_refl s : allocates s s.
Proof. repeat split. exists []. by rewrite app_nil_r. Qed.

Lemma allocates_trans s1 s2 s3 : allocates s1 s2 -> allocates s2 s3 -> allocates s1 s3.
Proof.
  intros (Hw & Hs & Hu & n1 & H1) (Hw' & Hs' & Hu' & n2 & H2).
  unfold allocates. rewrite Hw', Hs', Hu', H2, H1. repeat split; try done.
  exists (n1 ++ n2). by rewrite app_assoc.
Qed.

Lemma allocates_lookup s s' l x : allocates s s' -> heap s !! l = Some x -> heap s' !! l = Some x.
Proof.
  intros (_ & _ & _ & new & ->) Hl. rewrite lookup_app_l; [done|]. by eapply lookup_lt_Some.
Qed.

Lemma alloc_allocates d s :
  allocates s (mkState (world s) (heap s ++ [d]) (session s) (ui s)).
Proof. repeat split. by exists [d]. Qed.

Lemma rebind_ok step l s d :
  heap s !! l = Some d ->
  exists l' s',
    rebind step l s = (inr l', s') /\
    heap s' !! l' = Some (default d (step d)) /\
    allocates s s'.
Proof.
  intros Hl. unfold rebind. erewrite bind_ok by (by apply load_ok).
  destruct (step d) as [d'|]; simpl.
  - eexists _, _. split; [apply alloc_ok|]. split; [apply lookup_snoc_new|apply alloc_allocates].
  - exists l, s. split; [done|]. split; [done|apply allocates_refl].
Qed.

Lemma apply_filters_ok c l s d :
  heap s !! l = Some d ->
  exists l' s',
    apply_filters c l s = (inr l', s') /\
    heap s' !! l' = Some (filter_stage (metric_filter c) (sensor_filter c) d) /\
    allocates s s'.
Proof.
  intros Hl. unfold apply_filters, filter_stage.
  erewrite bind_ok by (by apply load_ok).
  destruct (df_empty d).
  { exists l, s. split; [done|]. split; [done|apply allocates_refl]. }
  destruct (rebind_ok (metric_step (metric_filter c)) l s d Hl) as (l1 & s1 & E1 & H1 & A1).
  destruct (rebind_ok (sensor_step (sensor_filter c)) l1 s1 _ H1) as (l2 & s2 & E2 & H2 & A2).
  exists l2, s2. erewrite bind_ok by eassumption.
  split; [done|]. split; [done|]. by eapply allocates_trans.
Qed.

(** C6: [parse_uploaded_csv] never raises: on every input and in every
    state it returns either a new frame or the failure signal [None]; and
    when it returns [None] in the upload branch, the pass goes on without
    raising, with the empty frame as its row set: the sidebar shows the
    error "Failed to parse CSV." and the views are those of an empty row
    set. *)
Theorem upload_parse_failure (c : controls) (file : string) (s : state) :
  mode c = UploadCSV ->
  uploaded c = Some file ->
  (forall s0, exists parsed s',
      parse_uploaded_csv file s0 = (inr parsed, s') /\
      (forall l, parsed = Some l -> is_Some (heap s' !! l))) /\
  exists parsed s1,
    parse_uploaded_csv file (mkState (world s) (heap s ++ [empty_frame]) (session s) (ui s))
      = (inr parsed, s1) /\
    session s1 = session s /\ ui s1 = ui s /\
    (parsed = None ->
     run_pass c s =
     (inr tt,
      rendered s1 ([st_sidebar_error "Failed to parse CSV.";
                    st_title "📡 Simple Streaming Dashboard";
                    st_subheader "Trend";
                    st_info "No data available.";
                    st_write "-"] ++ info_panel c empty_frame))).
Proof.
  intros Hmode Hup. split.
  { intros s0. destruct (parse_uploaded_csv_total file s0) as (parsed & s' & E & _ & _ & _ & _ & Hl).
    exists parsed, s'. split; [done|]. intros l Hp. by apply Hl. }
  set (s0 := mkState (world s) (heap s ++ [empty_frame]) (session s) (ui s)).
  destruct (parse_uploaded_csv_total file s0) as (parsed & s1 & E & _ & Hs & Hu & Hh & _).
  exists parsed, s1. split; [done|]. split; [done|]. split; [done|].
  intros ->.
  assert (heap s1 !! length (heap s) = Some empty_frame) as Hempty.
  { apply Hh. apply lookup_snoc_new. }
  unfold run_pass, produce_data. rewrite Hmode, Hup.
  erewrite bind_ok; cycle 1.
  { step_alloc. fold s0. step_with eassumption. cbv iota. step_render. apply ret_ok. }
  erewrite bind_ok; cycle 1.
  { unfold apply_filters. step_with ltac:(by apply load_rendered). simpl. apply ret_ok. }
  assert (df_empty empty_frame = true) as He by done.
  run_empty_views Hempty He. done.
Qed.

(** ** The display table *)

#[local] Instance key_before_total asc : Total (key_before asc).
Proof. intros [x|] [y|]; destruct asc; simpl; lia || tauto. Qed.

#[local] Instance key_before_trans asc : Transitive (key_before asc).
Proof. intros [x|] [y|] [z|]; destruct asc; simpl; lia || tauto. Qed.

#[local] Instance row_before_total c asc : Total (row_before c asc).
Proof. intros a b. apply key_before_total. Qed.

#[local] Instance row_before_trans c asc : Transitive (row_before c asc).
Proof. intros x y z. apply key_before_trans. Qed.

Lemma sort_values_sorted c asc d :
  rows (sort_values c asc d) ≡ₚ rows d /\
  StronglySorted (row_before c asc) (rows (sort_values c asc d)).
Proof.
  split; [apply merge_sort_Permutation | apply (StronglySorted_merge_sort _)].
Qed.

Lemma is_datetimelike_sort_values c asc d :
  is_datetimelike (series c (sort_values c asc d)) = is_datetimelike (series c d).
Proof.
  unfold is_datetimelike, series.
  apply eq_true_iff_eq. rewrite <- !Is_true_true, !forallb_True.
  assert (map (fun lr : nat * row => field c lr.2) (rows (sort_values c asc d))
          ≡ₚ map (fun lr : nat * row => field c lr.2) (rows d)) as ->; [|done].
  apply fmap_Permutation, merge_sort_Permutation.
Qed.

Lemma set_column_map c (f : cell -> cell) d :
  set_column c (map f (series c d)) d =
  mkDF (if has_column c d then columns d else columns d ++ [c])
       (map (fun lr => (lr.1, <[c := f (field c lr.2)]> lr.2)) (rows d)).
Proof.
  unfold set_column, series. f_equal. apply list_eq. intros i.
  rewrite list_lookup_imap, !list_lookup_fmap.
  by destruct (rows d !! i) as [lr|] eqn:E.
Qed.

Lemma display_table_eq d :
  display_table d =
  if has_column "timestamp" d then
    if is_datetimelike (series "timestamp" d)
    then inr (mkDF (columns d) (formatted (rows (sort_values "timestamp" false d))))
    else inl (AttributeError "Can only use .dt accessor with datetimelike values")
  else inr (mkDF (columns d) (relabel (rows d))).
Proof.
  unfold display_table. destruct (has_column "timestamp" d) eqn:Hc; [|by rewrite Hc].
  assert (has_column "timestamp" (sort_values "timestamp" false d) = true) as Hc' by done.
  rewrite Hc'. unfold assign_strftime.
  rewrite is_datetimelike_sort_values.
  destruct (is_datetimelike (series "timestamp" d)); [|done].
  rewrite set_column_map, Hc'. unfold reset_index_drop, relabel, formatted. simpl.
  f_equal. f_equal. by rewrite imap_fmap.
Qed.

(** ** Frame: what a computation leaves alone *)

Lemma keeps_ret {A} n (a : A) (Q : A -> Prop) : Q a -> keeps n (ret a) Q.
Proof. intros HQ s r s' [= <- <-] _. repeat split; try done. by intros a' [= <-]. Qed.

Lemma keeps_raise {A} n e (Q : A -> Prop) : keeps n (raise e) Q.
Proof. intros s r s' [= <- <-] _. repeat split; done. Qed.

Lemma keeps_weaken {A} n (m : M A) (Q Q' : A -> Prop) :
  keeps n m Q -> (forall a, Q a -> Q' a) -> keeps n m Q'.
Proof.
  intros Hm HQ s r s' E Hn. destruct (Hm s r s' E Hn) as (? & ? & ? & ?).
  repeat split; try done. eauto.
Qed.

Lemma keeps_bind {A B} n (m : M A) (k : A -> M B) (Q : A -> Prop) (R : B -> Prop) :
  keeps n m Q -> (forall a, Q a -> keeps n (k a) R) -> keeps n (bind m k) R.
Proof.
  intros Hm Hk s r s' E Hn. unfold bind in E.
  destruct (m s) as [[e|a] s1] eqn:E1.
  - injection E as <- <-. destruct (Hm _ _ _ E1 Hn) as (? & ? & ? & _).
    repeat split; done.
  - destruct (Hm _ _ _ E1 Hn) as (Hs1 & Hl1 & Hh1 & HQ).
    destruct (Hk a (HQ a eq_refl) _ _ _ E) as (Hs2 & Hl2 & Hh2 & HR); [lia|].
    split; [congruence|]. split; [lia|]. split; [|done].
    intros l Hl. rewrite Hh2, Hh1; done.
Qed.

Lemma keeps_alloc n d : keeps n (alloc d) (fun l => (n <= l)%nat).
Proof.
  intros s r s' [= <- <-] Hn. simpl. rewrite length_app. simpl.
  split; [done|]. split; [lia|]. split.
  - intros l Hl. rewrite lookup_app_l; [done|lia].
  - by intros a [= <-].
Qed.

Lemma keeps_load n l : keeps n (load l) (fun _ => True).
Proof.
  intros s r s' E Hn. unfold load in E.
  destruct (heap s !! l); injection E as <- <-; repeat split; done.
Qed.

Lemma keeps_store n l d : (n <= l)%nat -> keeps n (store l d) (fun _ => True).
Proof.
  intros Hl s r s' [= <- <-] Hn. simpl. rewrite length_insert.
  split; [done|]. split; [done|]. split; [|done].
  intros l' Hl'. apply list_lookup_insert_ne. lia.
Qed.

Lemma keeps_render n w : keeps n (render w) (fun _ => True).
Proof. intros s r s' [= <- <-] Hn. repeat split; done. Qed.

Lemma keeps_lift {A} n (r : exn + A) : keeps n (lift r) (fun _ => True).
Proof. destruct r; [apply keeps_raise | by apply keeps_ret]. Qed.

Create HintDb keeps.

#[local] Hint Resolve keeps_ret keeps_raise keeps_load keeps_store keeps_render keeps_lift : keeps.

(** A step whose value is not constrained, then the rest. *)
Lemma keeps_seq {A B} n (m : M A) (k : A -> M B) (R : B -> Prop) :
  keeps n m (fun _ => True) -> (forall a, keeps n (k a) R) -> keeps n (bind m k) R.
Proof. intros Hm Hk. eapply keeps_bind; [exact Hm|]. intros a _. apply Hk. Qed.

(** A new object, then the rest, which may update it in place. *)
Lemma keeps_alloc_then {B} n d (k : loc -> M B) (R : B -> Prop) :
  (forall l, (n <= l)%nat -> keeps n (k l) R) -> keeps n (bind (alloc d) k) R.
Proof. intros Hk. eapply keeps_bind; [apply keeps_alloc|]. exact Hk. Qed.

Lemma format_df_for_plot_keeps n l :
  keeps n (format_df_for_plot l) (fun l' => (n <= l')%nat).
Proof.
  unfold format_df_for_plot. apply keeps_seq; [auto with keeps|]. intros d.
  apply keeps_alloc_then. intros df2 Hdf2.
  destruct (has_column "timestamp" d); [apply keeps_alloc | by apply keeps_ret].
Qed.

Lemma px_line_keeps n d x y color : keeps n (px_line d x y color) (fun _ => True).
Proof. unfold px_line. destruct (_ && _); auto with keeps. Qed.

Lemma trend_keeps n l : keeps n (trend l) (fun _ => True).
Proof.
  unfold trend. apply keeps_seq; [auto with keeps|]. intros _.
  apply keeps_seq; [auto with keeps|]. intros d.
  destruct (df_empty d); [auto with keeps|].
  eapply keeps_bind; [apply format_df_for_plot_keeps|]. intros df_plot Hp. simpl in Hp.
  apply keeps_seq; [auto with keeps|]. intros p.
  apply keeps_seq; [destruct (has_column "metric_type" p); auto with keeps|]. intros _.
  apply keeps_seq; [auto with keeps|]. intros p'.
  apply keeps_seq; [destruct (has_column "timestamp" p'); apply px_line_keeps|]. intros fig.
  auto with keeps.
Qed.

Lemma reduce_keeps n f cs : keeps n (reduce f cs) (fun _ => True).
Proof. unfold reduce. destruct (numeric cs); auto with keeps. Qed.

Lemma value_column_keeps n d : keeps n (value_column d) (fun _ => True).
Proof. unfold value_column. destruct (has_column "value" d); auto with keeps. Qed.

Lemma quick_stats_keeps n l : keeps n (quick_stats l) (fun _ => True).
Proof.
  unfold quick_stats. apply keeps_seq; [auto with keeps|]. intros d.
  destruct (df_empty d); [auto with keeps|].
  repeat (apply keeps_seq; [first [apply value_column_keeps | apply reduce_keeps | apply keeps_render]|]; intros ?).
  auto with keeps.
Qed.

Lemma controls_info_keeps n c l : keeps n (controls_info c l) (fun _ => True).
Proof.
  unfold controls_info.
  apply keeps_seq; [auto with keeps|]. intros _.
  apply keeps_seq; [auto with keeps|]. intros d.
  apply keeps_seq; [auto with keeps|]. intros _.
  apply keeps_seq; [auto with keeps|]. intros _.
  apply keeps_seq; [|intros _; auto with keeps].
  destruct (has_column "timestamp" d); [|auto with keeps].
  destruct (latest _); auto with keeps.
Qed.

Lemma raw_table_keeps n c l : keeps n (raw_table c l) (fun _ => True).
Proof.
  unfold raw_table. apply keeps_seq; [auto with keeps|]. intros d.
  destruct (show_table c && negb (df_empty d)); [|auto with keeps].
  apply keeps_seq; [auto with keeps|]. intros _.
  apply keeps_seq.
  { destruct (has_column "timestamp" d); [|auto with keeps].
    eapply keeps_weaken; [apply keeps_alloc|done]. }
  intros display_df. apply keeps_seq; [auto with keeps|]. intros dd.
  apply keeps_seq.
  { destruct (has_column "timestamp" dd); [|auto with keeps].
    apply keeps_seq; [auto with keeps|]. intros t.
    eapply keeps_weaken; [apply keeps_alloc|done]. }
  intros display_df'. apply keeps_seq; [auto with keeps|]. intros dd'.
  apply keeps_alloc_then. intros shown _.
  apply keeps_seq; [auto with keeps|]. intros sd. auto with keeps.
Qed.

Lemma download_keeps n c l : keeps n (download c l) (fun _ => True).
Proof.
  unfold download. apply keeps_seq; [auto with keeps|]. intros d.
  destruct (download_btn c && negb (df_empty d)); [|auto with keeps].
  apply keeps_alloc_then. intros to_download Hl.
  apply keeps_seq; [auto with keeps|]. intros td.
  apply keeps_seq; [destruct (has_column "timestamp" td); auto with keeps|]. intros _.
  apply keeps_seq; [auto with keeps|]. intros td'. auto with keeps.
Qed.

Lemma render_views_keeps n c l : keeps n (render_views c l) (fun _ => True).
Proof.
  unfold render_views.
  apply keeps_seq; [auto with keeps|]. intros _.
  apply keeps_seq; [apply trend_keeps|]. intros _.
  apply keeps_seq; [apply quick_stats_keeps|]. intros _.
  apply keeps_seq; [apply controls_info_keeps|]. intros _.
  apply keeps_seq; [apply raw_table_keeps|]. intros _.
  apply download_keeps.
Qed.

Lemma rebind_keeps n step l : keeps n (rebind step l) (fun _ => True).
Proof.
  unfold rebind. apply keeps_seq; [auto with keeps|]. intros d.
  destruct (step d); [|auto with keeps]. eapply keeps_weaken; [apply keeps_alloc|done].
Qed.

Lemma apply_filters_keeps n c l : keeps n (apply_filters c l) (fun _ => True).
Proof.
  unfold apply_filters. apply keeps_seq; [auto with keeps|]. intros d.
  destruct (df_empty d); [auto with keeps|].
  apply keeps_seq; [apply rebind_keeps|]. intros l'. apply rebind_keeps.
Qed.

(** ** The buffer and the rest of a live pass *)

Lemma bind_assoc {A B C} (m : M A) (k : A -> M B) (k' : B -> M C) s :
  bind (bind m k) k' s = bind m (fun a => bind (k a) k') s.
Proof. unfold bind. by destruct (m s) as [[e|a] s1]. Qed.

Lemma run_pass_live c s :
  mode c = Live ->
  run_pass c s =
  bind (live_step c) (fun _ => after_live_step c)
       (mkState (world s) (heap s ++ [empty_frame]) (session s) (ui s)).
Proof.
  intros Hm. unfold run_pass, produce_data, after_live_step. rewrite Hm.
  rewrite bind_assoc. erewrite bind_ok by apply alloc_ok.
  rewrite bind_assoc. unfold bind. destruct (live_step c _) as [[e|[]] s1]; [done|].
  destruct (get_live_buffer s1) as [[e|b] s2]; [done|].
  destruct (load b s2) as [[e|d] s3]; [done|]. done.
Qed.

Lemma get_live_buffer_keeps n : keeps n get_live_buffer (fun _ => True).
Proof.
  unfold get_live_buffer. apply keeps_seq.
  - intros s r s' [= <- <-] _. repeat split; done.
  - intros ss. destruct (live_buffer ss); auto with keeps.
Qed.

Lemma after_live_step_keeps n c : keeps n (after_live_step c) (fun _ => True).
Proof.
  unfold after_live_step.
  apply keeps_seq; [apply get_live_buffer_keeps|]. intros b.
  apply keeps_seq; [auto with keeps|]. intros d.
  apply keeps_alloc_then. intros data_df _.
  apply keeps_seq; [apply apply_filters_keeps|]. intros l.
  apply render_views_keeps.
Qed.

Lemma keeps_buffer {A} (m : M A) (Q : A -> Prop) s r s' :
  keeps (length (heap s)) m Q -> m s = (r, s') ->
  session s' = session s /\
  (forall l x, heap s !! l = Some x -> heap s' !! l = Some x) /\
  (forall d, buffer_of s = Some d -> buffer_of s' = Some d).
Proof.
  intros Hk E. destruct (Hk s r s' E) as (Hs & _ & Hh & _); [done|].
  assert (forall l x, heap s !! l = Some x -> heap s' !! l = Some x) as Hh'.
  { intros l x Hl. rewrite Hh; [done|]. by eapply lookup_lt_Some. }
  split; [done|]. split; [done|].
  unfold buffer_of. rewrite Hs. destruct (live_buffer (session s)); [|done]. apply Hh'.
Qed.

(** C10, as the code has it: in a live pass only the init/tick step
    (lines 109-115) touches the buffer: the copy, the filters and every view
    leave the session and every object of the heap as the step left them,
    whether the pass returns or raises, so the buffer after the pass is the
    buffer after the step.  With auto-refresh disabled and a buffer already in
    the session, the step does nothing: the session and the buffer after the
    pass are those before it. *)
Theorem live_pass_buffer (c : controls) (s : state) :
  mode c = Live ->
  exists r1 s1 r s',
    live_step c (mkState (world s) (heap s ++ [empty_frame]) (session s) (ui s)) = (r1, s1) /\
    run_pass c s = (r, s') /\
    session s' = session s1 /\
    (forall l x, heap s1 !! l = Some x -> heap s' !! l = Some x) /\
    (forall d, buffer_of s1 = Some d -> buffer_of s' = Some d) /\
    (auto_refresh c = false ->
     forall d, buffer_of s = Some d ->
       session s' = session s /\
       buffer_of s' = Some d /\
       (forall l x, heap s !! l = Some x -> heap s' !! l = Some x)).
Proof.
  intros Hm. rewrite (run_pass_live c s Hm).
  set (s0 := mkState (world s) (heap s ++ [empty_frame]) (session s) (ui s)).
  destruct (live_step c s0) as [r1 s1] eqn:E1.
  destruct (bind (live_step c) (fun _ => after_live_step c) s0) as [r s'] eqn:E.
  exists r1, s1, r, s'. split; [done|]. split; [done|].
  assert (session s' = session s1 /\
          (forall l x, heap s1 !! l = Some x -> heap s' !! l = Some x) /\
          (forall d, buffer_of s1 = Some d -> buffer_of s' = Some d)) as (Hs & Hh & Hb).
  { unfold bind in E. rewrite E1 in E. destruct r1 as [e|[]].
    - by injection E as <- <-.
    - eapply keeps_buffer; [apply after_live_step_keeps|exact E]. }
  split; [done|]. split; [done|]. split; [done|].
  intros Hauto d Hd.
  assert (s1 = s0) as ->.
  { unfold live_step, init_buffer in E1. rewrite Hauto in E1.
    unfold buffer_of in Hd. unfold bind, get_session in E1. simpl in E1.
    destruct (live_buffer (session s)); [|done]. by injection E1 as _ <-. }
  assert (forall l x, heap s !! l = Some x -> heap s0 !! l = Some x) as H0.
  { intros l x Hl. by apply lookup_snoc_old. }
  split; [done|]. split.
  - apply Hb. unfold buffer_of in *. simpl. destruct (live_buffer (session s)); [|done]. by apply H0.
  - intros l x Hl. by apply Hh, H0.
Qed.

(** ** Writing and reading CSV text *)













Lemma field_insert_eq c v (r : row) : field c (<[c := v]> r) = v.
Proof. unfold field. by rewrite lookup_insert_eq. Qed.

Lemma field_insert_ne c c' v (r : row) : c <> c' -> field c' (<[c := v]> r) = field c' r.
Proof. intros H. unfold field. by rewrite lookup_insert_ne. Qed.

Lemma series_set_column_ne c c' values d :
  c <> c' -> series c' (set_column c values d) = series c' d.
Proof.
  intros H. unfold series, set_column. simpl. rewrite fmap_imap.
  apply list_eq. intros i. rewrite list_lookup_imap, list_lookup_fmap.
  destruct (rows d !! i); simpl; [|done]. by rewrite field_insert_ne.
Qed.

Lemma series_set_column_eq c values d :
  length values = len d -> series c (set_column c values d) = values.
Proof.
  intros H. unfold series, set_column. simpl. rewrite fmap_imap.
  apply list_eq. intros i. rewrite list_lookup_imap. unfold len in H.
  destruct (rows d !! i) as [lr|] eqn:E; simpl.
  - rewrite field_insert_eq. apply lookup_lt_Some in E. rewrite <- H in E.
    apply lookup_lt_is_Some in E as [v ->]. done.
  - apply lookup_ge_None in E. symmetry. apply lookup_ge_None. lia.
Qed.








(** ** Export, then ingestion *)







(** ** The table and the download as the script renders them *)

Lemma lookup_snoc_old2 {A} (l : list A) x y i z :
  l !! i = Some z -> ((l ++ [x]) ++ [y]) !! i = Some z.
Proof. intros H. by do 2 apply lookup_snoc_old. Qed.

(** The table rendered by lines 196-201 is [display_table] of the row set,
    after the subheader; when [.dt.strftime] raises, the pass stops there. *)
Lemma raw_table_ok c l s d :
  heap s !! l = Some d ->
  show_table c = true ->
  df_empty d = false ->
  exists s',
    raw_table c l s =
      (match display_table d with inr _ => inr tt | inl e => inl e end, s') /\
    ui s' = ui s ++ st_subheader "Raw data (latest first)" ::
                    match display_table d with inr t => [st_dataframe t] | inl _ => [] end.
Proof.
  intros Hl Hshow He. unfold display_table.
  destruct (has_column "timestamp" d) eqn:Hc.
  - change (has_column "timestamp" (sort_values "timestamp" false d)) with (has_column "timestamp" d).
    rewrite Hc. destruct (assign_strftime (sort_values "timestamp" false d)) as [e|t] eqn:Ea.
    + eexists. split; [|shelve].
      unfold raw_table. step_load. rewrite Hshow, He. cbn [andb negb]. step_render.
      rewrite Hc. step_alloc. erewrite bind_ok by (apply load_ok; apply lookup_snoc_new).
      change (has_column "timestamp" (sort_values "timestamp" false d)) with (has_column "timestamp" d).
      rewrite Hc, Ea. unfold lift, raise, bind. reflexivity.
      Unshelve. done.
    + eexists. split; [|shelve].
      unfold raw_table. step_load. rewrite Hshow, He. cbn [andb negb]. step_render.
      rewrite Hc. step_alloc. erewrite bind_ok by (apply load_ok; apply lookup_snoc_new).
      change (has_column "timestamp" (sort_values "timestamp" false d)) with (has_column "timestamp" d).
      rewrite Hc, Ea. unfold lift.
      erewrite bind_ok by (erewrite bind_ok by apply ret_ok; apply alloc_ok).
      erewrite bind_ok by (apply load_ok; apply lookup_snoc_new).
      step_alloc. erewrite bind_ok by (apply load_ok; apply lookup_snoc_new).
      rewrite render_ok. reflexivity.
      Unshelve. simpl. by rewrite <- app_assoc.
  - rewrite Hc. eexists. split; [|shelve].
    unfold raw_table. step_load. rewrite Hshow, He. cbn [andb negb]. step_render.
    rewrite Hc. erewrite bind_ok by apply ret_ok. erewrite bind_ok by (by apply load_rendered).
    rewrite Hc. erewrite bind_ok by apply ret_ok. erewrite bind_ok by (by apply load_rendered).
    step_alloc. erewrite bind_ok by (apply load_ok; apply lookup_snoc_new).
    rewrite render_ok. reflexivity.
    Unshelve. simpl. by rewrite <- app_assoc.
Qed.

(** The bytes offered by lines 204-209 are [export_csv] of the row set;
    nothing is offered for an empty row set. *)
Lemma download_ok c l s d :
  heap s !! l = Some d ->
  exists s',
    download c l s = (inr tt, s') /\
    ui s' = ui s ++
            if download_btn c && negb (df_empty d)
            then [st_download_button "Download CSV" (export_csv d) "export.csv" "text/csv"]
            else [].
Proof.
  intros Hl. unfold export_csv.
  destruct (download_btn c && negb (df_empty d)) eqn:Hb.
  - destruct (has_column "timestamp" d) eqn:Hc.
    + eexists. split; [|shelve].
      unfold download. step_load. rewrite Hb. step_alloc.
      erewrite bind_ok by (apply load_ok; apply lookup_snoc_new). rewrite Hc.
      erewrite bind_ok by reflexivity.
      erewrite bind_ok; cycle 1.
      { apply load_ok. simpl. apply list_lookup_insert_eq. rewrite length_app. simpl. lia. }
      rewrite render_ok. reflexivity.
      Unshelve. done.
    + eexists. split; [|shelve].
      unfold download. step_load. rewrite Hb. step_alloc.
      erewrite bind_ok by (apply load_ok; apply lookup_snoc_new). rewrite Hc.
      erewrite bind_ok by apply ret_ok.
      erewrite bind_ok by (apply load_ok; apply lookup_snoc_new).
      rewrite render_ok. reflexivity.
      Unshelve. done.
  - exists s. split; [|by rewrite app_nil_r].
    unfold download. step_load. by rewrite Hb.
Qed.



(** C4, as the code has it: the table rendered under "Raw data (latest
    first)" is [display_table] of the row set.  With a [timestamp] column (of
    Timestamps and NaT) it has the rows sorted by timestamp, latest first and
    the rows without a timestamp last, relabelled, each Timestamp replaced by
    its text in the format [%Y-%m-%d %H:%M:%S] and each NaT by the missing
    value NaN (not by a text); without a [timestamp] column the table is the
    row set in its original order, relabelled, and has no [timestamp]
    column. *)
Theorem display_table_spec (d : DataFrame) :
  display_table d =
    (if has_column "timestamp" d then
       if is_datetimelike (series "timestamp" d)
       then inr (mkDF (columns d) (formatted (rows (sort_values "timestamp" false d))))
       else inl (AttributeError "Can only use .dt accessor with datetimelike values")
     else inr (mkDF (columns d) (relabel (rows d)))) /\
  rows (sort_values "timestamp" false d) ≡ₚ rows d /\
  StronglySorted (row_before "timestamp" false) (rows (sort_values "timestamp" false d)) /\
  (forall t, strftime_cell (CTime t) = CStr (strftime "%Y-%m-%d %H:%M:%S" t)) /\
  strftime_cell CNaT = NaN /\
  map snd (relabel (rows d)) = map snd (rows d) /\
  (forall c l s,
     heap s !! l = Some d -> show_table c = true -> df_empty d = false ->
     exists s',
       raw_table c l s =
         (match display_table d with inr _ => inr tt | inl e => inl e end, s') /\
       ui s' = ui s ++ st_subheader "Raw data (latest first)" ::
                       match display_table d with inr t => [st_dataframe t] | inl _ => [] end).
Proof.
  split; [apply display_table_eq|]. split; [apply sort_values_sorted|].
  split; [apply sort_values_sorted|]. split; [done|]. split; [done|].
  split; [apply relabel_rows|]. intros c l s. apply raw_table_ok.
Qed.


(** The first live pass of a session, auto-refresh disabled: the buffer is
    created with its 60 rows. *)
Lemma first_live_pass c s :
  mode c = Live -> auto_refresh c = false -> live_buffer (session s) = None ->
  exists r s' d, run_pass c s = (r, s') /\ buffer_of s' = Some d /\ len d = 60%nat.
Proof.
  intros Hm Hauto Hb. rewrite (run_pass_live c s Hm).
  set (s0 := mkState (world s) (heap s ++ [empty_frame]) (session s) (ui s)).
  destruct (init_buffer_ok s0 Hb) as (s1 & d & now & E1 & Hd & G & _).
  assert (live_step c s0 = (inr tt, s1)) as E.
  { unfold live_step. rewrite Hauto. erewrite bind_ok by eassumption. done. }
  erewrite bind_ok by exact E.
  destruct (after_live_step c s1) as [r s'] eqn:E2.
  destruct (keeps_buffer _ _ _ _ _ (after_live_step_keeps _ c) E2) as (_ & _ & Hbuf).
  exists r, s', d. split; [done|]. split; [by apply Hbuf|].
  rewrite (generated_len _ _ _ G). done.
Qed.

(** ** More on the row generator *)

Lemma randint_1_4 (k : Z) :
  "sensor_" +:+ str_of_Z (1 + k mod (4 - 1 + 1)) ∈ sensor_options.
Proof.
  change (4 - 1 + 1) with 4.
  assert (k mod 4 = 0 \/ k mod 4 = 1 \/ k mod 4 = 2 \/ k mod 4 = 3) as H
    by (pose proof (Z.mod_pos_bound k 4); lia).
  destruct H as [-> | [-> | [-> | ->]]]; vm_compute; set_solver.
Qed.

Lemma choice_metric (k : Z) :
  default "" (metric_options !! Z.to_nat (k mod Z.of_nat (length metric_options))) ∈ metric_options.
Proof.
  change (Z.of_nat (length metric_options)) with 2.
  assert (k mod 2 = 0 \/ k mod 2 = 1) as H by (pose proof (Z.mod_pos_bound k 2); lia).
  destruct H as [-> | ->]; vm_compute; set_solver.
Qed.

(** One record: its keys are the four columns, its values those of a
    generated row. *)
Lemma generate_row_fields n start_time i s :
  exists rec s', generate_row n start_time i s = (inr rec, s') /\
                 same_store s s' /\
                 map fst rec = four_columns /\
                 generated_row (list_to_map rec).
Proof.
  unfold generate_row, randint, choice, randbelow, uniform.
  destruct (with_world_ok getrandbits s) as (k1 & s1 & E1 & F1).
  destruct (with_world_ok getrandbits s1) as (k2 & s2 & E2 & F2).
  destruct (with_world_ok random_random s2) as (r & s3 & E3 & F3).
  eexists _, s3. split; [|split; [eauto using same_store_trans|]].
  - unfold bind, ret. rewrite E1; simpl. rewrite E2; simpl. rewrite E3. reflexivity.
  - split; [done|]. split; [by eexists|]. split; [|split; [|by eexists]].
    + eexists. split; [done|]. apply randint_1_4.
    + eexists. split; [done|]. apply (choice_metric k2).
Qed.

Lemma for_each_generate_row_fields n start_time idx s :
  exists recs s', for_each (generate_row n start_time) idx s = (inr recs, s') /\
                  same_store s s' /\
                  length recs = length idx /\
                  Forall (fun rec => map fst rec = four_columns /\
                                     generated_row (list_to_map rec)) recs.
Proof.
  revert s. induction idx as [|i idx IH]; intros s; simpl.
  - exists [], s. split; [done|]. split; [apply same_store_refl|]. by split.
  - destruct (generate_row_fields n start_time i s) as (rec & s1 & E1 & F1 & K1 & R1).
    destruct (IH s1) as (recs & s2 & E2 & F2 & L2 & R2).
    exists (rec :: recs), s2. split.
    + erewrite bind_ok by eassumption. erewrite bind_ok by eassumption. done.
    + split; [eauto using same_store_trans|]. split; [simpl; congruence|]. by constructor.
Qed.

Lemma remove_dups_app_covered (l k : list string) :
  (forall x, x ∈ l -> x ∈ k) -> remove_dups (l ++ k) = remove_dups k.
Proof.
  induction l as [|x l IH]; intros H; [done|]. simpl.
  destruct (decide_rel elem_of x (l ++ k)) as [_|Hn].
  - apply IH. intros y Hy. apply H. by right.
  - exfalso. apply Hn. apply elem_of_app. right. apply H. by left.
Qed.

(** The columns of a frame built from records that all have the four keys. *)
Lemma keys_of_four recs :
  recs <> [] -> Forall (fun rec => map fst rec = four_columns) recs -> keys_of recs = four_columns.
Proof.
  unfold keys_of. induction recs as [|rec recs IH]; [done|]. intros _ H.
  apply Forall_cons in H as [Hrec Hrecs]. simpl. rewrite Hrec.
  destruct recs as [|rec' recs]; [done|].
  rewrite remove_dups_app_covered; [by apply IH|].
  intros x Hx. apply Forall_cons in Hrecs as [Hrec' _]. simpl. rewrite Hrec'.
  apply elem_of_app. by left.
Qed.

Lemma imap_fst_seq {A B} (f : A -> B) (l : list A) j :
  map fst (imap (fun i x => ((j + i)%nat, f x)) l) = seq j (length l).
Proof.
  revert j. induction l as [|x l IH]; intros j; [done|]. simpl.
  rewrite Nat.add_0_r. f_equal.
  rewrite <- (IH (S j)). f_equal. apply imap_ext. intros i y _. simpl. f_equal. lia.
Qed.

Lemma relabel_labels rs : map fst (relabel rs) = seq 0 (length rs).
Proof. unfold relabel. apply (imap_fst_seq snd rs 0). Qed.

(** The frame [generate_live_rows] returns, in full. *)
Lemma generate_live_rows_fields n start s :
  exists s' df,
    generate_live_rows n start s = (inr (length (heap s)), s') /\
    heap s' = heap s ++ [df] /\ session s' = session s /\ ui s' = ui s /\
    len df = Z.to_nat n /\
    columns df = (if 0 <? n then four_columns else []) /\
    map fst (rows df) = seq 0 (Z.to_nat n) /\
    Forall (fun lr => generated_row lr.2) (rows df).
Proof.
  unfold generate_live_rows.
  assert (exists t s0, (match start with
                        | None => with_world datetime_now
                        | Some t => ret t
                        end) s = (inr t, s0) /\ same_store s s0)
    as (t & s0 & E0 & (Hh0 & Hs0 & Hu0)).
  { destruct start as [t|].
    - exists t, s. split; [done|]. apply same_store_refl.
    - destruct (with_world_ok datetime_now s) as (t & s0 & E & F). by exists t, s0. }
  destruct (for_each_generate_row_fields n t (range n) s0)
    as (recs & s1 & E & (Hh & Hs & Hu) & Hlen & R).
  rewrite range_length in Hlen.
  exists (mkState (world s1) (heap s1 ++ [DataFrame_of_records recs]) (session s1) (ui s1)),
         (DataFrame_of_records recs).
  split.
  { erewrite bind_ok by eassumption. erewrite bind_ok by eassumption.
    unfold alloc. by rewrite Hh, Hh0. }
  simpl. rewrite Hh, Hs, Hu, Hh0, Hs0, Hu0.
  split; [done|]. split; [done|]. split; [done|].
  split; [unfold len; simpl; by rewrite length_imap|].
  split.
  { destruct (0 <? n) eqn:Hn.
    - apply keys_of_four; [|eapply Forall_impl; [exact R|]; by intros ? [? _]].
      intros ->. simpl in Hlen. lia.
    - assert (recs = []) as -> by (apply nil_length_inv; lia). done. }
  split.
  { rewrite <- Hlen. apply (imap_fst_seq (fun kv : list (string * cell) => list_to_map kv) recs 0). }
  apply Forall_forall. intros lr Hlr.
  apply elem_of_lookup_imap in Hlr as (i & rec & -> & Hi).
  simpl. by apply (Forall_lookup_1 _ _ _ _ R Hi).
Qed.

(** X1: whatever the clock and the random source give, [generate_live_rows]
    returns a new frame whose columns are [timestamp], [sensor_id],
    [metric_type], [value] in this order (no column at all when [n <= 0]),
    whose index labels are [0 .. n-1], and whose every row holds a
    Timestamp, one of the ids [sensor_1 .. sensor_4], one of the metric types
    [temperature] and [humidity], and a float. *)
Theorem generated_rows_fields (n : Z) (start : option Z) (s : state) :
  exists s' df,
    generate_live_rows n start s = (inr (length (heap s)), s') /\
    heap s' !! length (heap s) = Some df /\
    columns df = (if 0 <? n then four_columns else []) /\
    map fst (rows df) = seq 0 (Z.to_nat n) /\
    Forall (fun lr => generated_row lr.2) (rows df).
Proof.
  destruct (generate_live_rows_fields n start s) as (s' & df & E & Hh & _ & _ & _ & Hc & Hl & R).
  exists s', df. split; [done|]. split; [|done].
  rewrite Hh. apply lookup_snoc_new.
Qed.

(** ** More on the filter stage *)

Lemma generated_row_retained mf sf d r :
  generated_row r -> metric_options ⊆ mf -> (sf = [] \/ sensor_options ⊆ sf) ->
  retained mf sf d r = true.
Proof.
  intros (_ & (x & Hx & Hxs) & (m & Hm & Hms) & _) Hmf Hsf.
  unfold retained. apply andb_true_iff. split; apply passes_spec.
  - right; right. exists m. unfold field. rewrite Hm. split; [done|]. by apply Hmf.
  - destruct Hsf as [->|Hsf]; [by left|].
    right; right. exists x. unfold field. rewrite Hx. split; [done|]. by apply Hsf.
Qed.

(** X2: with the sidebar as the script first shows it (both metric types
    selected, no sensor selected), or with every sensor selected, the filter
    stage keeps every row of a generated frame: the frame comes out as it
    went in. *)
Theorem default_filters_keep_generated (mf sf : list string) (d : DataFrame) :
  generated_rows d ->
  metric_options ⊆ mf ->
  sf = [] \/ sensor_options ⊆ sf ->
  filter_stage mf sf d = d.
Proof.
  intros [_ Hrows] Hmf Hsf. rewrite filter_stage_eq.
  rewrite <- (frame_eta d) at 3. f_equal.
  induction Hrows as [|lr rs Hlr _ IH]; [done|].
  rewrite filter_cons_True; [by rewrite IH|].
  apply Is_true_true. by apply generated_row_retained.
Qed.

Lemma retained_columns mf sf d d' r :
  columns d' = columns d -> retained mf sf d' r = retained mf sf d r.
Proof. intros H. unfold retained, passes, has_column. by rewrite H. Qed.

(** X3: the two filters act independently and in either order: filtering by
    metric and by sensor at once equals filtering by sensor and then by
    metric, and equals filtering by metric and then by sensor.  The rows that
    come out are rows of the input, in their order and with their index
    labels. *)
Theorem filter_stage_split (mf sf : list string) (d : DataFrame) :
  filter_stage mf sf d = filter_stage mf [] (filter_stage [] sf d) /\
  filter_stage mf sf d = filter_stage [] sf (filter_stage mf [] d) /\
  rows (filter_stage mf sf d) `sublist_of` rows d.
Proof.
  rewrite !(filter_stage_eq _ _ d). rewrite !filter_stage_eq. simpl.
  split; [|split].
  - f_equal. rewrite list_filter_filter. apply list_filter_iff. intros x.
    unfold retained, passes, has_column. simpl. rewrite !Is_true_true.
    rewrite !andb_true_iff, !orb_true_iff. tauto.
  - f_equal. rewrite list_filter_filter. apply list_filter_iff. intros x.
    unfold retained, passes, has_column. simpl. rewrite !Is_true_true.
    rewrite !andb_true_iff, !orb_true_iff. tauto.
  - apply sublist_filter.
Qed.

Lemma filter_stage_generated mf sf d :
  generated_rows d -> generated_rows (filter_stage mf sf d).
Proof.
  intros [Hc Hr]. rewrite filter_stage_eq. split; [done|]. simpl.
  apply Forall_forall. intros lr Hlr. apply list_elem_of_filter in Hlr as [_ Hlr].
  by apply (proj1 (Forall_forall _ _) Hr).
Qed.

(** ** The views of a row set that is not empty *)

Lemma has_column_set_column c c' vs d :
  has_column c (set_column c' vs d) = has_column c d || bool_decide (c = c').
Proof.
  unfold set_column. destruct (has_column c' d) eqn:E; unfold has_column in *; simpl.
  - apply bool_decide_eq_true in E. apply eq_true_iff_eq.
    rewrite orb_true_iff, !bool_decide_eq_true. split; [tauto|]. by intros [?| ->].
  - apply eq_true_iff_eq. rewrite orb_true_iff, !bool_decide_eq_true, elem_of_app, list_elem_of_singleton.
    tauto.
Qed.

Lemma has_column_plot_frame c d :
  has_column c (plot_frame d) = has_column c d || bool_decide (c = "metric_type").
Proof.
  unfold plot_frame, with_metric_type.
  assert (has_column c (sorted_for_plot d) = has_column c d) as <-
    by (unfold sorted_for_plot; by destruct (has_column "timestamp" d)).
  destruct (has_column "metric_type" (sorted_for_plot d)); apply has_column_set_column.
Qed.

(** What [format_df_for_plot] does to the heap: a copy, and a sorted frame
    when there is a [timestamp] column. *)
Lemma format_df_for_plot_ok l d s :
  heap s !! l = Some d ->
  exists l' s',
    format_df_for_plot l s = (inr l', s') /\
    (length (heap s) <= l')%nat /\
    heap s' !! l' = Some (sorted_for_plot d) /\
    length (heap s') = S l' /\
    (forall j x, heap s !! j = Some x -> heap s' !! j = Some x) /\
    world s' = world s /\ session s' = session s /\ ui s' = ui s.
Proof.
  intros Hl. unfold format_df_for_plot, sorted_for_plot.
  step_load. step_alloc. destruct (has_column "timestamp" d).
  - eexists _, _. split; [apply alloc_ok|]. simpl. rewrite !length_app. simpl.
    split; [lia|]. split.
    { replace (length (heap s) + 1)%nat with (length (heap s ++ [d])) by (rewrite length_app; simpl; lia).
      apply lookup_snoc_new. }
    split; [lia|]. split; [|done]. intros j x Hj. by do 2 apply lookup_snoc_old.
  - eexists _, _. split; [apply ret_ok|]. simpl. rewrite !length_app. simpl.
    split; [lia|]. split; [apply lookup_snoc_new|]. split; [lia|]. split; [|done].
    intros j x Hj. by apply lookup_snoc_old.
Qed.

Lemma px_line_ok d x y color s :
  has_column x d = true -> has_column color d = true ->
  px_line d x y color s =
  (if has_column y d then inr (mkFig d x y color)
   else inl (ValueError "px.line: not a column of the data frame"), s).
Proof. intros Hx Hc. unfold px_line. rewrite Hx, Hc. by destruct (has_column y d). Qed.

Lemma store_ok l d s :
  store l d s = (inr tt, mkState (world s) (<[l := d]> (heap s)) (session s) (ui s)).
Proof. done. Qed.

(** The trend of a row set that is not empty: the chart, or the exception
    of [px.line] when there is no [value] column. *)
Lemma trend_ok l d s :
  heap s !! l = Some d -> df_empty d = false ->
  exists s',
    trend l s =
      (if has_column "value" d then inr tt
       else inl (ValueError "px.line: not a column of the data frame"), s') /\
    ui s' = ui s ++ st_subheader "Trend" ::
                    (if has_column "value" d then [st_plotly_chart (figure_of d)] else []) /\
    session s' = session s /\
    (forall j x, heap s !! j = Some x -> heap s' !! j = Some x).
Proof.
  intros Hl He.
  destruct (format_df_for_plot_ok l d (rendered s [st_subheader "Trend"]) Hl)
    as (l' & s1 & E1 & Hl' & H1 & Hlen & Hold & Hw & Hs & Hu).
  set (p := plot_frame d).
  set (s2 := mkState (world s1) (<[l' := p]> (heap s1)) (session s1) (ui s1)).
  assert (heap s2 !! l' = Some p) as H2.
  { simpl. apply list_lookup_insert_eq. lia. }
  assert (has_column "metric_type" p = true) as Hm.
  { unfold p. rewrite has_column_plot_frame. by rewrite orb_true_r. }
  assert (has_column "value" p = has_column "value" d) as Hv.
  { unfold p. rewrite has_column_plot_frame. by rewrite orb_false_r. }
  assert (trend l s =
          bind (if has_column "timestamp" p
                then px_line p "timestamp" "value" "metric_type"
                else px_line (reset_index p) "index" "value" "metric_type")
               (fun fig => render (st_plotly_chart fig)) s2) as ->.
  { unfold trend. step_render. step_with ltac:(by apply load_rendered). rewrite He.
    step_with eassumption. step_load.
    erewrite bind_ok; cycle 1.
    { instantiate (1 := s2). instantiate (1 := tt). unfold s2, p, plot_frame, with_metric_type.
      destruct (has_column "metric_type" (sorted_for_plot d)); apply store_ok. }
    step_load. done. }
  exists (if has_column "value" d then rendered s2 [st_plotly_chart (figure_of d)] else s2).
  unfold figure_of. fold p.
  destruct (has_column "timestamp" p) eqn:Ht.
  - unfold bind. rewrite px_line_ok by done. rewrite Hv.
    destruct (has_column "value" d); simpl; rewrite Hu, Hs; simpl.
    + split; [done|]. split; [by rewrite <- app_assoc|]. split; [done|].
      intros j x Hj. rewrite list_lookup_insert_ne; [by apply Hold|].
      apply lookup_lt_Some in Hj. simpl in Hl'. lia.
    + split; [done|]. split; [done|]. split; [done|].
      intros j x Hj. rewrite list_lookup_insert_ne; [by apply Hold|].
      apply lookup_lt_Some in Hj. simpl in Hl'. lia.
  - unfold bind. rewrite px_line_ok; [|done|].
    2:{ unfold has_column, reset_index. simpl. apply bool_decide_eq_true. right.
        unfold has_column in Hm. by apply bool_decide_eq_true in Hm. }
    assert (has_column "value" (reset_index p) = has_column "value" d) as ->.
    { rewrite <- Hv. unfold has_column, reset_index. simpl. apply eq_true_iff_eq.
      rewrite !bool_decide_eq_true, elem_of_cons. split; [by intros [?|?]|tauto]. }
    destruct (has_column "value" d); simpl; rewrite Hu, Hs; simpl.
    + split; [done|]. split; [by rewrite <- app_assoc|]. split; [done|].
      intros j x Hj. rewrite list_lookup_insert_ne; [by apply Hold|].
      apply lookup_lt_Some in Hj. simpl in Hl'. lia.
    + split; [done|]. split; [done|]. split; [done|].
      intros j x Hj. rewrite list_lookup_insert_ne; [by apply Hold|].
      apply lookup_lt_Some in Hj. simpl in Hl'. lia.
Qed.

(** The statistics of a row set that is not empty. *)
Lemma quick_stats_ok l d s :
  heap s !! l = Some d -> df_empty d = false ->
  quick_stats l s =
  if has_column "value" d then
    match numeric (series "value" d) with
    | Some xs => (inr tt, rendered s (stats_widgets xs))
    | None => (inl (TypeError "could not convert to numeric"), s)
    end
  else (inl (KeyError "value"), s).
Proof.
  intros Hl He. unfold quick_stats, value_column, reduce. step_load. rewrite He.
  destruct (has_column "value" d); [|done].
  erewrite bind_ok by apply ret_ok.
  destruct (numeric (series "value" d)) as [xs|] eqn:En; [|done].
  do 5 (erewrite bind_ok by (rewrite ?En; apply ret_ok)).
  step_render. step_render. by rewrite render_ok, rendered_app.
Qed.

Lemma raw_table_run c l s d :
  heap s !! l = Some d ->
  (has_column "timestamp" d = true -> is_datetimelike (series "timestamp" d) = true) ->
  exists s',
    raw_table c l s = (inr tt, s') /\
    ui s' = ui s ++
            (if show_table c && negb (df_empty d)
             then st_subheader "Raw data (latest first)" ::
                  match display_table d with inr t => [st_dataframe t] | inl _ => [] end
             else []).
Proof.
  intros Hl Hdt. destruct (show_table c && negb (df_empty d)) eqn:Hb.
  - apply andb_true_iff in Hb as [Hshow He]. apply negb_true_iff in He.
    destruct (raw_table_ok c l s d Hl Hshow He) as (s' & E & Hu).
    exists s'. split; [|done]. rewrite E.
    rewrite display_table_eq. destruct (has_column "timestamp" d); [|done].
    by rewrite Hdt.
  - exists s. split; [|by rewrite app_nil_r].
    unfold raw_table. step_load. by rewrite Hb.
Qed.

Lemma plottable_inv d :
  plottable d = true ->
  has_column "value" d = true /\
  (exists xs, numeric (series "value" d) = Some xs) /\
  (has_column "timestamp" d = true -> is_datetimelike (series "timestamp" d) = true).
Proof.
  unfold plottable. rewrite !andb_true_iff, bool_decide_eq_true.
  intros [[Hv [xs Hn]] Ht]. split; [done|]. split; [by exists xs|].
  intros Hc. by rewrite Hc in Ht.
Qed.

(** The views of an empty row set, and of a row set with rows that can be
    shown. *)
Lemma render_views_empty c l d s :
  heap s !! l = Some d -> df_empty d = true ->
  render_views c l s = (inr tt, rendered s (views_of c d)).
Proof.
  intros Hl He. run_empty_views Hl He. unfold views_of. rewrite He, !andb_false_r.
  simpl. by rewrite !app_nil_r.
Qed.

Lemma render_views_plottable c l d s :
  heap s !! l = Some d -> df_empty d = false -> plottable d = true ->
  exists s',
    render_views c l s = (inr tt, s') /\
    ui s' = ui s ++ views_of c d /\
    session s' = session s /\
    (forall j x, heap s !! j = Some x -> heap s' !! j = Some x).
Proof.
  intros Hl He Hp. unfold views_of. rewrite He.
  apply plottable_inv in Hp as (Hv & (xs & Hn) & Hdt).
  set (s1 := rendered s [st_title "📡 Simple Streaming Dashboard"]).
  destruct (trend_ok l d s1 Hl He) as (s2 & E2 & Hu2 & Hs2 & Hh2).
  rewrite Hv in E2, Hu2.
  pose proof (quick_stats_ok l d s2 (Hh2 _ _ Hl) He) as E3. rewrite Hv, Hn in E3.
  set (s3 := rendered s2 (stats_widgets xs)) in *.
  pose proof (controls_info_ok c l s3 d (Hh2 _ _ Hl)) as E4.
  set (s4 := rendered s3 (info_panel c d)) in *.
  destruct (raw_table_run c l s4 d (Hh2 _ _ Hl) Hdt) as (s5 & E5 & Hu5).
  destruct (keeps_buffer _ _ _ _ _ (raw_table_keeps _ c l) E5) as (Hs5 & Hh5 & _).
  destruct (download_ok c l s5 d (Hh5 _ _ (Hh2 _ _ Hl))) as (s6 & E6 & Hu6).
  destruct (keeps_buffer _ _ _ _ _ (download_keeps _ c l) E6) as (Hs6 & Hh6 & _).
  exists s6. split.
  { unfold render_views. step_render. fold s1. step_with eassumption.
    step_with eassumption. step_with eassumption. step_with eassumption. done. }
  split.
  { rewrite Hu6, Hu5. simpl. rewrite Hu2. simpl. rewrite He, Hn. simpl.
    rewrite <- !app_assoc. simpl. rewrite <- !app_assoc. done. }
  split; [by rewrite Hs6, Hs5; simpl; rewrite Hs2|].
  intros j x Hj. by apply Hh6, Hh5, Hh2.
Qed.

(** X4: on a row set that is empty, or that has a numeric [value] column
    and a [timestamp] column of Timestamps (or no [timestamp] and no [index]
    column), the views never raise.  They render, in this order: the title,
    the trend (the notice, or the chart of the rows sorted by time with
    [metric_type] filled in), the statistics (the placeholder, or the three
    metrics), the info panel, the table when it is asked for and there are
    rows, and the download button when it was pressed and there are rows.
    The session and every frame that existed before are left as they
    were. *)
Theorem render_views_widgets (c : controls) (l : loc) (d : DataFrame) (s : state) :
  heap s !! l = Some d ->
  df_empty d = true \/ plottable d = true ->
  exists s',
    render_views c l s = (inr tt, s') /\
    ui s' = ui s ++ views_of c d /\
    session s' = session s /\
    (forall j x, heap s !! j = Some x -> heap s' !! j = Some x).
Proof.
  intros Hl Hd. destruct (df_empty d) eqn:He.
  - exists (rendered s (views_of c d)).
    split; [by apply render_views_empty|]. by repeat split.
  - destruct Hd as [?|Hp]; [done|]. by apply render_views_plottable.
Qed.

(** X5: a row set with rows but without a [value] column stops the pass:
    after the title and the heading of the trend, [px.line] raises a
    ValueError, so no chart, statistic, info panel, table or download is
    rendered; the statistics on their own would raise [KeyError: 'value'].
    The session is left as it was. *)
Theorem missing_value_column_raises (c : controls) (l : loc) (d : DataFrame) (s : state) :
  heap s !! l = Some d ->
  df_empty d = false ->
  has_column "value" d = false ->
  (exists msg s',
     render_views c l s = (inl (ValueError msg), s') /\
     ui s' = ui s ++ [st_title "📡 Simple Streaming Dashboard"; st_subheader "Trend"] /\
     session s' = session s) /\
  quick_stats l s = (inl (KeyError "value"), s).
Proof.
  intros Hl He Hv. split.
  - set (s1 := rendered s [st_title "📡 Simple Streaming Dashboard"]).
    destruct (trend_ok l d s1 Hl He) as (s2 & E2 & Hu2 & Hs2 & _).
    rewrite Hv in E2, Hu2.
    eexists _, s2. split; [|split; [|done]].
    + unfold render_views. step_render. fold s1. by erewrite bind_raise by eassumption.
    + rewrite Hu2. simpl. by rewrite <- app_assoc.
  - rewrite (quick_stats_ok l d s Hl He). by rewrite Hv.
Qed.

(** X6: the trend of a row set with rows and a [value] column is one chart
    of [value] against [timestamp] (against the index labels when there is
    no [timestamp] column), coloured by [metric_type].  The frame plotted has
    the rows of the row set, sorted by time, oldest first and rows without a
    time last; its [metric_type] column has no missing value: a missing one
    reads "unknown", and so does every row when the row set has no such
    column; a value that is present is kept.  The row set itself is not
    changed.  (A row set with no [timestamp] column must have no column
    named [index] either: [reset_index] would have to insert a second
    one.) *)
Theorem trend_chart (l : loc) (d : DataFrame) (s : state) :
  heap s !! l = Some d ->
  df_empty d = false ->
  has_column "value" d = true ->
  has_column "timestamp" d = true \/ has_column "index" d = false ->
  (exists s',
     trend l s = (inr tt, s') /\
     ui s' = ui s ++ [st_subheader "Trend"; st_plotly_chart (figure_of d)] /\
     heap s' !! l = Some d) /\
  fig_y (figure_of d) = "value" /\ fig_color (figure_of d) = "metric_type" /\
  fig_x (figure_of d) = (if has_column "timestamp" d then "timestamp" else "index") /\
  map snd (rows (plot_frame d)) =
    map (fun lr => <["metric_type" :=
                      if has_column "metric_type" d
                      then fillna_unknown (field "metric_type" lr.2)
                      else CStr "unknown"]> lr.2)
        (rows (sorted_for_plot d)) /\
  rows (sorted_for_plot d) ≡ₚ rows d /\
  (has_column "timestamp" d = true ->
   StronglySorted (row_before "timestamp" true) (rows (sorted_for_plot d))) /\
  Forall (fun lr => is_missing (field "metric_type" lr.2) = false) (rows (plot_frame d)).
Proof.
  intros Hl He Hv _.
  assert (has_column "timestamp" (plot_frame d) = has_column "timestamp" d) as Ht
    by (rewrite has_column_plot_frame; apply orb_false_r).
  assert (has_column "metric_type" (sorted_for_plot d) = has_column "metric_type" d) as Hm
    by (unfold sorted_for_plot; by destruct (has_column "timestamp" d)).
  assert (map snd (rows (plot_frame d)) =
          map (fun lr : nat * row =>
                 <["metric_type" := if has_column "metric_type" d
                                    then fillna_unknown (field "metric_type" lr.2)
                                    else CStr "unknown"]> lr.2)
              (rows (sorted_for_plot d))) as Hrows.
  { unfold plot_frame, with_metric_type. rewrite Hm.
    destruct (has_column "metric_type" d).
    - rewrite set_column_map. simpl. rewrite <- list_fmap_compose. done.
    - unfold set_column. simpl. apply list_eq. intros i.
      rewrite !list_lookup_fmap, list_lookup_imap.
      destruct (rows (sorted_for_plot d) !! i) as [lr|] eqn:E; [|done]. simpl.
      rewrite lookup_replicate_2; [done|]. by eapply lookup_lt_Some. }
  split.
  { destruct (trend_ok l d s Hl He) as (s' & E & Hu & _ & Hh). rewrite Hv in E, Hu.
    exists s'. split; [done|]. split; [done|]. by apply Hh. }
  unfold figure_of. rewrite Ht.
  split; [by destruct (has_column "timestamp" d)|].
  split; [by destruct (has_column "timestamp" d)|].
  split; [by destruct (has_column "timestamp" d)|].
  split; [done|].
  split. { unfold sorted_for_plot. destruct (has_column "timestamp" d); [apply sort_values_sorted|done]. }
  split. { intros Hc. unfold sorted_for_plot. rewrite Hc. apply sort_values_sorted. }
  apply Forall_forall. intros lr Hlr.
  assert (lr.2 ∈ map snd (rows (plot_frame d))) as Hin by (apply list_elem_of_fmap; eauto).
  rewrite Hrows in Hin. apply list_elem_of_fmap in Hin as (lr0 & -> & _).
  unfold field. rewrite lookup_insert_eq. simpl.
  destruct (has_column "metric_type" d); [|done].
  by destruct (default NaN (lr0.2 !! "metric_type")) as [| [] | | |].
Qed.

(** X7: [format_df_for_plot] returns a new frame and leaves its argument
    alone: with a [timestamp] column the new frame has the same columns and
    the same rows, sorted by timestamp, oldest first and rows without a
    timestamp last; without one it is a copy. *)
Theorem format_df_for_plot_sorted (l : loc) (d : DataFrame) (s : state) :
  heap s !! l = Some d ->
  exists l' s',
    format_df_for_plot l s = (inr l', s') /\
    l' <> l /\
    heap s' !! l = Some d /\
    heap s' !! l' = Some (sorted_for_plot d) /\
    columns (sorted_for_plot d) = columns d /\
    rows (sorted_for_plot d) ≡ₚ rows d /\
    (has_column "timestamp" d = true ->
     StronglySorted (row_before "timestamp" true) (rows (sorted_for_plot d))) /\
    (has_column "timestamp" d = false -> sorted_for_plot d = d) /\
    session s' = session s /\ ui s' = ui s.
Proof.
  intros Hl.
  destruct (format_df_for_plot_ok l d s Hl) as (l' & s' & E & Hl' & H' & _ & Hold & _ & Hs & Hu).
  exists l', s'. split; [done|]. split.
  { apply lookup_lt_Some in Hl. lia. }
  split; [by apply Hold|]. split; [done|].
  unfold sorted_for_plot. destruct (has_column "timestamp" d) eqn:Hc.
  - split; [done|]. split; [apply sort_values_sorted|]. split; [intros _; apply sort_values_sorted|].
    done.
  - split; [done|]. split; [done|]. done.
Qed.

(** ** The info panel *)

Lemma latest_from acc cs :
  let r := foldl (fun acc c => match acc, time_key c with
                               | Some a, Some t => Some (Z.max a t)
                               | None, k => k
                               | a, None => a
                               end) acc cs in
  (r = None <-> acc = None /\ Forall (fun c => time_key c = None) cs) /\
  (forall t, r = Some t ->
     (acc = Some t \/ CTime t ∈ cs) /\
     (forall a, acc = Some a -> a <= t) /\
     (forall t', CTime t' ∈ cs -> t' <= t)).
Proof.
  revert acc. induction cs as [|c cs IH]; intros acc; simpl.
  - split; [split; [by intros; split | by intros [? _]]|].
    intros t ->. split; [by left|]. split; [intros a [= ->]; lia|].
    intros t' H. by apply elem_of_nil in H.
  - assert (forall x, time_key c = Some x -> c = CTime x) as Hkey
      by (intros x; destruct c; simpl; congruence).
    destruct acc as [a|], (time_key c) as [x|] eqn:Ek.
    + destruct (IH (Some (Z.max a x))) as [IH1 IH2]. split.
      * rewrite IH1. split; by intros [? ?].
      * intros t Ht. destruct (IH2 t Ht) as (Hin & Hacc & Hcs).
        specialize (Hacc _ eq_refl). split; [|split].
        -- destruct Hin as [[= Hin]|Hin]; [|right; apply elem_of_cons; by right].
           destruct (Z.max_spec a x) as [[_ Hm]|[_ Hm]]; rewrite Hm in Hin; subst.
           ++ right. apply elem_of_cons. left. symmetry. by apply Hkey.
           ++ by left.
        -- intros a' [= <-]. lia.
        -- intros t' Ht'. apply elem_of_cons in Ht' as [Ht'|Ht']; [|by apply Hcs].
           rewrite <- Ht' in Ek. simpl in Ek. injection Ek as <-. lia.
    + destruct (IH (Some a)) as [IH1 IH2]. split.
      * rewrite IH1. split; by intros [? ?].
      * intros t Ht. destruct (IH2 t Ht) as (Hin & Hacc & Hcs). split; [|split].
        -- destruct Hin as [Hin|Hin]; [by left|right; apply elem_of_cons; by right].
        -- done.
        -- intros t' Ht'. apply elem_of_cons in Ht' as [Ht'|Ht']; [|by apply Hcs].
           rewrite <- Ht' in Ek. done.
    + destruct (IH (Some x)) as [IH1 IH2]. split.
      * rewrite IH1. split; [by intros [? ?]|]. intros [_ H]. apply Forall_cons in H as [H _]. congruence.
      * intros t Ht. destruct (IH2 t Ht) as (Hin & Hacc & Hcs).
        specialize (Hacc _ eq_refl). split; [|split].
        -- right. apply elem_of_cons. destruct Hin as [[= <-]|Hin]; [left; symmetry; by apply Hkey|by right].
        -- done.
        -- intros t' Ht'. apply elem_of_cons in Ht' as [Ht'|Ht']; [|by apply Hcs].
           rewrite <- Ht' in Ek. simpl in Ek. injection Ek as <-. lia.
    + destruct (IH None) as [IH1 IH2]. split.
      * rewrite IH1, Forall_cons. tauto.
      * intros t Ht. destruct (IH2 t Ht) as (Hin & Hacc & Hcs). split; [|split].
        -- destruct Hin as [Hin|Hin]; [done|right; apply elem_of_cons; by right].
        -- done.
        -- intros t' Ht'. apply elem_of_cons in Ht' as [Ht'|Ht']; [|by apply Hcs].
           rewrite <- Ht' in Ek. done.
Qed.

Lemma latest_spec cs :
  (latest cs = None <-> Forall (fun c => time_key c = None) cs) /\
  (forall t, latest cs = Some t -> CTime t ∈ cs /\ forall t', CTime t' ∈ cs -> t' <= t).
Proof.
  destruct (latest_from None cs) as [H1 H2]. split.
  - unfold latest. rewrite H1. tauto.
  - intros t Ht. destruct (H2 t Ht) as ([?|?] & _ & ?); done.
Qed.

Lemma latest_max cs t :
  CTime t ∈ cs -> (forall t', CTime t' ∈ cs -> t' <= t) -> latest cs = Some t.
Proof.
  intros Hin Hmax. destruct (latest_spec cs) as [H1 H2].
  destruct (latest cs) as [x|] eqn:E.
  - destruct (H2 x eq_refl) as [Hx Hle]. f_equal.
    pose proof (Hmax _ Hx). pose proof (Hle _ Hin). lia.
  - assert (Forall (fun c => time_key c = None) cs) as Hall by (by apply H1).
    by pose proof (proj1 (Forall_forall _ _) Hall _ Hin).
Qed.

(** X8: the info panel never raises and shows the mode, the number of rows
    of the filtered row set, and a last line [---].  Without a [timestamp]
    column there is no "Last timestamp" line; with one, the line reads "N/A"
    exactly when no row has a Timestamp (no rows, or all of them missing),
    and otherwise shows the latest Timestamp of the rows in the format
    [%Y-%m-%d %H:%M:%S]. *)
Theorem info_panel_last_timestamp (c : controls) (l : loc) (d : DataFrame) (s : state) :
  heap s !! l = Some d ->
  controls_info c l s = (inr tt, rendered s (info_panel c d)) /\
  (has_column "timestamp" d = false ->
   info_panel c d =
     [st_subheader "Controls & Info";
      st_markdown ("- Mode: **" +:+ mode_name (mode c) +:+ "**");
      st_markdown ("- Rows: **" +:+ str_of_Z (Z.of_nat (len d)) +:+ "**");
      st_markdown "---"]) /\
  (has_column "timestamp" d = true ->
   (Forall (fun x => time_key x = None) (series "timestamp" d) <->
    info_panel c d =
      [st_subheader "Controls & Info";
       st_markdown ("- Mode: **" +:+ mode_name (mode c) +:+ "**");
       st_markdown ("- Rows: **" +:+ str_of_Z (Z.of_nat (len d)) +:+ "**");
       st_markdown "- Last timestamp: N/A";
       st_markdown "---"]) /\
   (forall t,
      CTime t ∈ series "timestamp" d ->
      (forall t', CTime t' ∈ series "timestamp" d -> t' <= t) ->
      info_panel c d =
        [st_subheader "Controls & Info";
         st_markdown ("- Mode: **" +:+ mode_name (mode c) +:+ "**");
         st_markdown ("- Rows: **" +:+ str_of_Z (Z.of_nat (len d)) +:+ "**");
         st_markdown ("- Last timestamp: **" +:+ strftime "%Y-%m-%d %H:%M:%S" t +:+ "**");
         st_markdown "---"])).
Proof.
  intros Hl. split; [by apply controls_info_ok|]. unfold info_panel. split.
  - by intros ->.
  - intros ->. simpl. destruct (latest_spec (series "timestamp" d)) as [H1 H2]. split.
    + rewrite <- H1. destruct (latest (series "timestamp" d)) as [x|]; [|done].
      split; [done|]. by intros [= H].
    + intros t Hin Hmax. by rewrite (latest_max _ t Hin Hmax).
Qed.

(** ** Passes outside the live mode *)

(** X9: in the upload mode with no file chosen the pass never raises: the
    sidebar shows "No file uploaded.", the row set is the empty frame, and
    the page shows the title, "No data available.", the placeholder "-" and
    an info panel with 0 rows and no timestamp line.  The session is left as
    it was. *)
Theorem upload_without_file (c : controls) (s : state) :
  mode c = UploadCSV ->
  uploaded c = None ->
  run_pass c s =
  (inr tt,
   mkState (world s) (heap s ++ [empty_frame]) (session s)
     (ui s ++ [st_sidebar_info "No file uploaded.";
               st_title "📡 Simple Streaming Dashboard";
               st_subheader "Trend";
               st_info "No data available.";
               st_write "-";
               st_subheader "Controls & Info";
               st_markdown "- Mode: **Upload CSV**";
               st_markdown "- Rows: **0**";
               st_markdown "---"])).
Proof.
  intros Hmode Hup.
  set (s0 := mkState (world s) (heap s ++ [empty_frame]) (session s) (ui s)).
  assert (heap s0 !! length (heap s) = Some empty_frame) as Hempty by apply lookup_snoc_new.
  assert (df_empty empty_frame = true) as He by done.
  unfold run_pass, produce_data. rewrite Hmode, Hup.
  erewrite bind_ok; cycle 1.
  { step_alloc. fold s0. step_render. apply ret_ok. }
  erewrite bind_ok; cycle 1.
  { unfold apply_filters. step_with ltac:(by apply load_rendered). simpl. apply ret_ok. }
  run_empty_views Hempty He. unfold info_panel. rewrite Hmode. done.
Qed.

(** ** Generated rows through the pass *)

Lemma generate_live_rows_full n start s :
  exists s' df start_time,
    generate_live_rows n start s = (inr (length (heap s)), s') /\
    heap s' = heap s ++ [df] /\ session s' = session s /\ ui s' = ui s /\
    generated n start_time df /\
    (forall t, start = Some t -> start_time = t) /\
    len df = Z.to_nat n /\
    columns df = (if 0 <? n then four_columns else []) /\
    Forall (fun lr => generated_row lr.2) (rows df).
Proof.
  destruct (generate_live_rows_ok n start s) as (s1 & d1 & t & E1 & H1 & Hs & Hu & G & Ht).
  destruct (generate_live_rows_fields n start s) as (s2 & d2 & E2 & H2 & _ & _ & Hlen & Hc & _ & R).
  rewrite E1 in E2. injection E2 as <-. rewrite H1 in H2. apply app_inv_head in H2.
  injection H2 as <-.
  exists s1, d1, t. repeat (split; [done|]). done.
Qed.

Lemma Forall_snd {A B} (P : B -> Prop) (l : list (A * B)) :
  Forall (fun x => P x.2) l <-> Forall P (map snd l).
Proof. by rewrite Forall_fmap. Qed.

Lemma appended_rows d new :
  map snd (rows (appended d new)) =
  drop (len d + len new - 500) (map snd (rows d) ++ map snd (rows new)).
Proof.
  unfold appended, len. simpl.
  rewrite relabel_rows, relabel_length, length_app, fmap_drop, relabel_rows, fmap_app. done.
Qed.

Lemma appended_generated d new :
  generated_rows d -> generated_rows new -> generated_rows (appended d new).
Proof.
  intros [Hc Hr] [Hc' Hr']. split.
  - unfold appended. simpl. by rewrite Hc, Hc'.
  - apply Forall_snd. rewrite appended_rows. apply Forall_drop, Forall_app.
    split; by apply Forall_snd.
Qed.

(** The first live pass of a session: the buffer holds 60 generated rows. *)
Lemma init_buffer_fields s :
  live_buffer (session s) = None ->
  exists s' d,
    init_buffer s = (inr tt, s') /\
    buffer_of s' = Some d /\
    generated_rows d /\ len d = 60%nat /\
    ui s' = ui s /\
    is_Some (last_live_time (session s')).
Proof.
  intros Hb.
  destruct (generate_live_rows_full 60 None s)
    as (s1 & d & t & E1 & Hh1 & Hs1 & Hu1 & _ & _ & Hlen & Hc & R).
  destruct s1 as [w1 h1 ss1 u1]. simpl in *. subst h1 ss1 u1.
  destruct (with_world_ok datetime_now
              (mkState w1 (heap s ++ [d]) (mkSession (Some (length (heap s))) (last_live_time (session s))) (ui s)))
    as (now & s2 & E2 & (Hh2 & Hs2 & Hu2)).
  simpl in *.
  eexists _, d. split; [|split; [|split; [done|split; [done|]]]].
  - unfold init_buffer. unfold bind at 1, get_session at 1. simpl. rewrite Hb.
    step_with eassumption. step_with ltac:(apply set_live_buffer_ok).
    simpl. step_with eassumption. unfold set_last_live_time, get_session, put_session, bind.
    simpl. reflexivity.
  - unfold buffer_of. simpl. rewrite Hs2, Hh2. simpl. apply lookup_snoc_new.
  - simpl. split; [done|]. by eexists.
Qed.

(** One tick, in full. *)
Lemma tick_fields s d :
  buffer_of s = Some d ->
  exists s' new now,
    tick s = (inr tt, s') /\
    buffer_of s' = Some (appended d new) /\
    generated 5 now new /\ generated_rows new /\ len new = 5%nat /\
    ui s' = ui s /\
    last_live_time (session s') = last_live_time (session s) /\
    (forall l x, heap s !! l = Some x -> heap s' !! l = Some x) /\
    now = (datetime_now (world s)).1.
Proof.
  unfold buffer_of. destruct (live_buffer (session s)) as [b|] eqn:Hb; [|done]. intros Hd.
  destruct (datetime_now (world s)) as [now w1] eqn:En.
  set (s1 := mkState w1 (heap s) (session s) (ui s)).
  assert (with_world datetime_now s = (inr now, s1)) as E1
    by (unfold with_world; by rewrite En).
  destruct (generate_live_rows_full 5 (Some now) s1)
    as (s2 & new & t & E2 & Hh2 & Hs2 & Hu2 & G & Ht & Hlen & Hc & R).
  rewrite (Ht now eq_refl) in G.
  destruct s2 as [w2 h2 ss2 u2]. simpl in *. subst h2 ss2 u2.
  eexists _, new, now.
  split; [|split; [|split; [done|split; [done|split; [done|split; [|split; [|split; [|done]]]]]]]].
  - unfold tick. step_with eassumption. step_with eassumption.
    step_with ltac:(apply get_live_buffer_ok; simpl; eassumption).
    step_load. step_load. step_alloc.
    step_with ltac:(apply set_live_buffer_ok).
    step_with ltac:(apply get_live_buffer_ok; reflexivity).
    step_load. step_alloc. step_load. step_alloc.
    rewrite set_live_buffer_ok. simpl. reflexivity.
  - simpl. rewrite !length_app. simpl.
    replace (length (heap s) + 1 + 1 + 1)%nat with (length (((heap s ++ [new]) ++ [concat_frames d new]) ++ [tail 500 (concat_frames d new)])).
    + by rewrite lookup_snoc_new.
    + rewrite !length_app. simpl. lia.
  - simpl. done.
  - simpl. done.
  - simpl. intros l x Hl. by do 4 apply lookup_snoc_old.
Qed.

(** X10: a tick appends the five new rows, stamped 10 to 2 seconds before
    the time read from the clock, after the rows of the buffer and
    keeps the last 500 of them, in their order; the index labels of the new
    buffer are [0 .. n-1]; a buffer of generated rows stays one; the frame
    that was the buffer is not changed (a new frame takes its place), and
    [last_live_time] is left as it was. *)
Theorem tick_appends (s : state) (d : DataFrame) :
  buffer_of s = Some d ->
  exists s' new,
    tick s = (inr tt, s') /\
    buffer_of s' = Some (appended d new) /\
    len new = 5%nat /\
    series "timestamp" new = map CTime (stamps 5 (datetime_now (world s)).1) /\
    map snd (rows (appended d new)) =
      drop (len d + 5 - 500) (map snd (rows d) ++ map snd (rows new)) /\
    map fst (rows (appended d new)) = seq 0 (Nat.min (len d + 5) 500) /\
    (generated_rows d -> generated_rows (appended d new)) /\
    last_live_time (session s') = last_live_time (session s) /\
    (forall l x, heap s !! l = Some x -> heap s' !! l = Some x).
Proof.
  intros Hd.
  destruct (tick_fields s d Hd) as (s' & new & now & E & Hb & G & R & Hlen & _ & Ht & Hh & <-).
  exists s', new. split; [done|]. split; [done|]. split; [done|].
  split. { erewrite generated_timestamps by done. unfold stamps. by rewrite <- list_fmap_compose. }
  split; [by rewrite appended_rows, Hlen|].
  split.
  { unfold appended at 1. simpl. rewrite relabel_labels.
    change (length (rows (tail 500 (concat_frames d new)))) with (len (tail 500 (concat_frames d new))).
    f_equal. unfold len, tail, concat_frames. simpl.
    rewrite length_drop, relabel_length, length_app. unfold len in Hlen. rewrite Hlen. lia. }
  split; [intros Hg; by apply appended_generated|]. done.
Qed.

Lemma mapM_to_float_floats cs :
  Forall (fun c => exists v, c = CFloat v) cs -> is_Some (numeric cs).
Proof.
  intros H. unfold numeric. apply mapM_is_Some. eapply Forall_impl; [exact H|].
  intros c [v ->]. by eexists.
Qed.

Lemma generated_row_fields r :
  generated_row r ->
  (exists t, field "timestamp" r = CTime t) /\ (exists v, field "value" r = CFloat v).
Proof.
  intros ((t & Ht) & _ & _ & (v & Hv)). unfold field. rewrite Ht, Hv. eauto.
Qed.

(** Generated rows can always be shown. *)
Lemma generated_rows_plottable d :
  generated_rows d -> df_empty d = true \/ plottable d = true.
Proof.
  intros [Hc Hr]. destruct (rows d) as [|lr rs] eqn:Hrows.
  { left. unfold df_empty. by rewrite Hrows. }
  right. unfold plottable.
  assert (has_column "value" d = true) as -> by (unfold has_column; by rewrite Hc).
  assert (has_column "timestamp" d = true) as -> by (unfold has_column; by rewrite Hc).
  rewrite <- Hrows in Hr. clear Hrows.
  apply andb_true_iff. split; [apply andb_true_iff; split; [done|]|].
  - apply bool_decide_eq_true, mapM_to_float_floats. unfold series. apply Forall_fmap.
    eapply Forall_impl; [exact Hr|]. intros x Hx. by apply generated_row_fields in Hx as [_ ?].
  - unfold is_datetimelike, series. apply Is_true_true, forallb_True, Forall_fmap.
    eapply Forall_impl; [exact Hr|]. intros x Hx. simpl.
    apply generated_row_fields in Hx as [[t ->] _]. done.
Qed.

(** The filters and the views on a frame of generated rows. *)
Lemma show_generated c l g s :
  heap s !! l = Some g -> generated_rows g ->
  exists s',
    bind (apply_filters c l) (render_views c) s = (inr tt, s') /\
    ui s' = ui s ++ views_of c (filter_stage (metric_filter c) (sensor_filter c) g) /\
    session s' = session s /\
    (forall j x, heap s !! j = Some x -> heap s' !! j = Some x).
Proof.
  intros Hl Hg.
  destruct (apply_filters_ok c l s g Hl) as (l' & s1 & E1 & H1 & A1).
  assert (exists s2,
            render_views c l' s1 = (inr tt, s2) /\
            ui s2 = ui s1 ++ views_of c (filter_stage (metric_filter c) (sensor_filter c) g) /\
            session s2 = session s1 /\
            (forall j x, heap s1 !! j = Some x -> heap s2 !! j = Some x))
    as (s2 & E2 & Hu2 & Hs2 & Hh2).
  { destruct (df_empty (filter_stage (metric_filter c) (sensor_filter c) g)) eqn:He.
    - eexists. split; [by apply render_views_empty|]. by repeat split.
    - apply render_views_plottable; [done..|].
      by destruct (generated_rows_plottable _ (filter_stage_generated
                     (metric_filter c) (sensor_filter c) g Hg)) as [?|?]; [congruence|]. }
  pose proof A1 as (_ & Hs1 & Hu1 & _).
  exists s2. erewrite bind_ok by eassumption. split; [done|].
  split; [by rewrite Hu2, Hu1|]. split; [congruence|].
  intros j x Hj. apply Hh2. by eapply allocates_lookup.
Qed.

(** X11: a pass in the sample mode never raises, whatever the controls, the
    clock and the random source.  Its row set is a new frame of 200
    generated rows whose timestamps end 2 seconds before the time read from
    the clock; the page shows the views of the rows the filters keep; the
    session (and with it the rolling buffer) is left as it was. *)
Theorem sample_pass (c : controls) (s : state) :
  mode c = SampleData ->
  exists s' g,
    run_pass c s = (inr tt, s') /\
    generated_rows g /\ len g = 200%nat /\
    series "timestamp" g = map CTime (stamps 200 (datetime_now (world s)).1) /\
    ui s' = ui s ++ views_of c (filter_stage (metric_filter c) (sensor_filter c) g) /\
    session s' = session s /\
    (forall j x, heap s !! j = Some x -> heap s' !! j = Some x).
Proof.
  intros Hm.
  set (s0 := mkState (world s) (heap s ++ [empty_frame]) (session s) (ui s)).
  destruct (datetime_now (world s)) as [now w1] eqn:Enow.
  set (s1 := mkState w1 (heap s0) (session s0) (ui s0)).
  assert (with_world datetime_now s0 = (inr now, s1)) as E1
    by (unfold with_world; simpl; by rewrite Enow).
  destruct (generate_live_rows_full 200 (Some now) s1)
    as (s2 & g & t & E2 & Hh2 & Hs2 & Hu2 & G & Ht & Hlen & Hc & R).
  rewrite (Ht now eq_refl) in G.
  assert (generated_rows g) as Hg by done.
  assert (heap s2 !! length (heap s1) = Some g) as Hl by (rewrite Hh2; apply lookup_snoc_new).
  destruct (show_generated c _ g s2 Hl Hg) as (s3 & E3 & Hu3 & Hs3 & Hh3).
  exists s3, g. split.
  { unfold run_pass, produce_data. rewrite Hm.
    erewrite bind_ok; cycle 1.
    { step_alloc. fold s0. step_with eassumption. eassumption. }
    exact E3. }
  split; [done|]. split; [done|]. split.
  { erewrite generated_timestamps by done. unfold stamps. by rewrite <- list_fmap_compose. }
  split; [by rewrite Hu3, Hu2|]. split; [by rewrite Hs3, Hs2|].
  intros j x Hj. apply Hh3. rewrite Hh2. by do 2 apply lookup_snoc_old.
Qed.

(** X12: live passes keep the rolling buffer well formed and never raise.
    In a session with no buffer yet, or with a buffer of at most 500
    generated rows, a live pass returns; afterwards the buffer is a frame of
    generated rows, at most 500: 60 more than nothing on the first pass, 5
    more than before when auto-refresh is on, cut to the last 500.  The page
    shows the views of the rows of the buffer that the filters keep. *)
Theorem live_pass_invariant (c : controls) (s : state) :
  mode c = Live ->
  buffer_ok s ->
  exists s' d,
    run_pass c s = (inr tt, s') /\
    buffer_of s' = Some d /\
    generated_rows d /\
    len d = next_size c s /\
    ui s' = ui s ++ views_of c (filter_stage (metric_filter c) (sensor_filter c) d) /\
    buffer_ok s'.
Proof.
  intros Hm Hok. rewrite (run_pass_live c s Hm).
  set (s0 := mkState (world s) (heap s ++ [empty_frame]) (session s) (ui s)).
  (* the init step *)
  assert (exists s1 d1,
            init_buffer s0 = (inr tt, s1) /\ buffer_of s1 = Some d1 /\ generated_rows d1 /\
            len d1 = match buffer_of s with Some d => len d | None => 60%nat end /\
            (len d1 <= 500)%nat /\ ui s1 = ui s) as (s1 & d1 & E1 & Hb1 & Hg1 & Hlen1 & Hle1 & Hu1).
  { unfold buffer_ok in Hok. unfold buffer_of.
    destruct (live_buffer (session s)) as [b|] eqn:Hb.
    - destruct Hok as (d & Hd & Hg & Hle). exists s0, d. rewrite Hd.
      split; [unfold init_buffer, bind, get_session; simpl; by rewrite Hb|].
      split; [unfold buffer_of; simpl; rewrite Hb; by apply lookup_snoc_old|]. done.
    - destruct (init_buffer_fields s0 Hb) as (s1 & d1 & E & Hb1 & Hg & Hlen & Hu & _).
      exists s1, d1. repeat (split; [done|]). split; [lia|done]. }
  (* the tick *)
  assert (exists s2 d2,
            live_step c s0 = (inr tt, s2) /\ buffer_of s2 = Some d2 /\ generated_rows d2 /\
            len d2 = next_size c s /\ ui s2 = ui s) as (s2 & d2 & E2 & Hb2 & Hg2 & Hlen2 & Hu2).
  { unfold live_step, next_size. erewrite bind_ok by eassumption. rewrite <- Hlen1.
    destruct (auto_refresh c).
    - destruct (tick_fields s1 d1 Hb1) as (s2 & new & now & E & Hb & _ & Hg & Hlen & Hu & _).
      exists s2, (appended d1 new). split; [done|]. split; [done|].
      split; [by apply appended_generated|]. split; [by rewrite appended_len, Hlen|congruence].
    - exists s1, d1. repeat (split; [done|]). split; [lia|done]. }
  erewrite bind_ok by eassumption.
  (* the copy, the filters, the views *)
  unfold buffer_of in Hb2. destruct (live_buffer (session s2)) as [b|] eqn:Hbuf; [|done].
  set (s3 := mkState (world s2) (heap s2 ++ [d2]) (session s2) (ui s2)).
  destruct (show_generated c (length (heap s2)) d2 s3) as (s4 & E4 & Hu4 & Hs4 & Hh4);
    [apply lookup_snoc_new | done |].
  assert (heap s4 !! b = Some d2) as Hb4 by (by apply Hh4, lookup_snoc_old).
  exists s4, d2. split.
  { unfold after_live_step.
    erewrite bind_ok by (by apply get_live_buffer_ok).
    step_load. step_alloc. exact E4. }
  split; [unfold buffer_of; rewrite Hs4; simpl; by rewrite Hbuf|].
  split; [done|]. split; [done|]. split; [by rewrite Hu4; simpl; rewrite Hu2|].
  unfold buffer_ok. rewrite Hs4. simpl. rewrite Hbuf. exists d2.
  split; [done|]. split; [done|]. rewrite Hlen2. unfold next_size. lia.
Qed.

(** ** The sample and upload modes leave the session alone *)

Lemma keeps_with_world {A} n (f : W -> A * W) : keeps n (with_world f) (fun _ => True).
Proof.
  intros s r s' E Hn. unfold with_world in E. destruct (f (world s)) as [a w].
  injection E as <- <-. repeat split; done.
Qed.

Lemma keeps_for_each {A B} n (body : A -> M B) xs :
  (forall x, keeps n (body x) (fun _ => True)) -> keeps n (for_each body xs) (fun _ => True).
Proof.
  intros Hb. induction xs as [|x xs IH]; simpl; [by apply keeps_ret|].
  apply keeps_seq; [apply Hb|]. intros y.
  apply keeps_seq; [apply IH|]. intros ys. by apply keeps_ret.
Qed.

Lemma generate_live_rows_keeps n k start :
  keeps n (generate_live_rows k start) (fun _ => True).
Proof.
  unfold generate_live_rows. apply keeps_seq.
  { destruct start; [by apply keeps_ret | apply keeps_with_world]. }
  intros t. apply keeps_seq.
  - apply keeps_for_each. intros i. unfold generate_row, randint, choice, randbelow, uniform.
    repeat first [apply keeps_with_world | by apply keeps_ret | apply keeps_seq; [|intros ?]].
  - intros recs. eapply keeps_weaken; [apply keeps_alloc|done].
Qed.

Lemma keeps_try_except {A} n (m : M A) (h : exn -> M A) :
  keeps n m (fun _ => True) -> (forall e, keeps n (h e) (fun _ => True)) ->
  keeps n (try_except m h) (fun _ => True).
Proof.
  intros Hm Hh s r s' E Hn. unfold try_except in E.
  destruct (m s) as [[e|a] s1] eqn:E1.
  - destruct (Hm _ _ _ E1 Hn) as (Hs1 & Hl1 & Hh1 & _).
    destruct (Hh e _ _ _ E) as (Hs2 & Hl2 & Hh2 & _); [lia|].
    split; [congruence|]. split; [lia|]. split; [|done].
    intros l Hl. rewrite Hh2, Hh1; done.
  - injection E as <- <-. destruct (Hm _ _ _ E1 Hn) as (? & ? & ? & _). repeat split; done.
Qed.

Lemma parse_uploaded_csv_keeps n file :
  keeps n (parse_uploaded_csv file) (fun _ => True).
Proof.
  unfold parse_uploaded_csv. apply keeps_try_except; [|intros e; by apply keeps_ret].
  apply keeps_seq; [apply keeps_lift|]. intros d.
  apply keeps_alloc_then. intros df Hdf.
  apply keeps_seq; [|intros _; by apply keeps_ret].
  destruct (has_column "timestamp" d); [|by apply keeps_ret].
  apply keeps_seq; [apply keeps_lift|]. intros ts. by apply keeps_store.
Qed.

Lemma run_pass_keeps n c : mode c <> Live -> keeps n (run_pass c) (fun _ => True).
Proof.
  intros Hm. unfold run_pass. apply keeps_seq.
  - unfold produce_data. apply keeps_alloc_then. intros data_df _.
    destruct (mode c); [done| |].
    + destruct (uploaded c) as [file|].
      * apply keeps_seq; [apply parse_uploaded_csv_keeps|]. intros [p|]; [by apply keeps_ret|].
        apply keeps_seq; [apply keeps_render|]. intros _. by apply keeps_ret.
      * apply keeps_seq; [apply keeps_render|]. intros _. by apply keeps_ret.
    + apply keeps_seq; [apply keeps_with_world|]. intros now. apply generate_live_rows_keeps.
  - intros l. apply keeps_seq; [apply apply_filters_keeps|]. intros l'. apply render_views_keeps.
Qed.

(** X13: a pass in the sample mode or in the upload mode never touches the
    session: whether it returns or raises, [st.session_state] is as before,
    every frame that existed before the pass is unchanged, and so the
    rolling buffer of the live mode is still there when the user switches
    back. *)
Theorem other_modes_keep_session (c : controls) (s : state) :
  mode c <> Live ->
  exists r s',
    run_pass c s = (r, s') /\
    session s' = session s /\
    (forall j x, heap s !! j = Some x -> heap s' !! j = Some x) /\
    (forall d, buffer_of s = Some d -> buffer_of s' = Some d).
Proof.
  intros Hm. destruct (run_pass c s) as [r s'] eqn:E. exists r, s'. split; [done|].
  eapply keeps_buffer; [|exact E]. by apply run_pass_keeps.
Qed.

(** ** The frame the ingestor returns *)

(** X14: when [read_csv] returns a frame, the ingestor fails only if the
    frame has a [timestamp] column and [to_datetime] raises on it.  Otherwise
    it returns a new frame with the columns, the index labels and the cells
    of the frame read, except that the cells of the [timestamp] column are
    what [to_datetime] made of them: Timestamps and NaT only.  Without a
    [timestamp] column the frame is returned as read. *)
Theorem parse_uploaded_csv_shape (file : string) (d : DataFrame) (s : state) :
  read_csv file = inr d ->
  (forall cs ts, to_datetime cs = inr ts -> length ts = length cs) ->
  exists parsed s',
    parse_uploaded_csv file s = (inr parsed, s') /\
    (parsed = None <->
     has_column "timestamp" d = true /\ exists e, to_datetime (series "timestamp" d) = inl e) /\
    (forall l, parsed = Some l ->
       l = length (heap s) /\
       exists d',
         heap s' !! l = Some d' /\
         columns d' = columns d /\
         map fst (rows d') = map fst (rows d) /\
         (forall c, c <> "timestamp" -> series c d' = series c d) /\
         (has_column "timestamp" d = false -> d' = d) /\
         (has_column "timestamp" d = true ->
          is_datetimelike (series "timestamp" d') = true /\
          to_datetime (series "timestamp" d) = inr (map time_key (series "timestamp" d')))).
Proof.
  intros Hread Hlen. rewrite parse_uploaded_csv_cases, Hread. cbv zeta.
  destruct (has_column "timestamp" d) eqn:Hc.
  - destruct (to_datetime (series "timestamp" d)) as [e|ts] eqn:Et.
    + eexists _, _. split; [reflexivity|]. split; [by split; [eauto|]|]. done.
    + eexists _, _. split; [reflexivity|]. split; [split; [done|by intros [_ [? ?]]]|].
      intros l [= <-]. split; [done|]. eexists. simpl. split.
      { apply list_lookup_insert_eq. rewrite length_app. simpl. lia. }
      assert (length (map time_cell ts) = len d) as Hl.
      { rewrite length_map, (Hlen _ _ Et). unfold series. by rewrite length_map. }
      split; [unfold set_column; simpl; by rewrite Hc|].
      split.
      { unfold set_column. simpl. apply list_eq. intros i.
        rewrite !list_lookup_fmap, list_lookup_imap. by destruct (rows d !! i). }
      split; [intros c Hne; by apply series_set_column_ne|].
      split; [done|]. intros _. rewrite series_set_column_eq by done. split.
      * unfold is_datetimelike. apply Is_true_true, forallb_True, Forall_fmap, Forall_forall.
        intros [t|] _; done.
      * f_equal. rewrite <- list_fmap_compose. rewrite <- (list_fmap_id ts) at 1.
        apply list_fmap_ext. by intros i [t|] _.
  - eexists _, _. split; [reflexivity|]. split; [split; [done|by intros [? _]]|].
    intros l [= <-]. split; [done|]. exists d. simpl. split; [apply lookup_snoc_new|].
    repeat split; done.
Qed.

(** ** The statistics and missing values *)

Lemma foldl_fmin_elem y ys : foldl fmin y ys ∈ y :: ys.
Proof.
  revert y. induction ys as [|x ys IH]; intros y; simpl; [by left|].
  specialize (IH (fmin y x)). apply elem_of_cons in IH as [IH|IH].
  - rewrite IH. unfold fmin. destruct (fltb x y); [right; by left | by left].
  - right. by right.
Qed.

Lemma foldl_fmax_elem y ys : foldl fmax y ys ∈ y :: ys.
Proof.
  revert y. induction ys as [|x ys IH]; intros y; simpl; [by left|].
  specialize (IH (fmax y x)). apply elem_of_cons in IH as [IH|IH].
  - rewrite IH. unfold fmax. destruct (fltb y x); [right; by left | by left].
  - right. by right.
Qed.

Lemma dropna_present xs :
  Forall (fun x => is_number x = true \/ is_nan x = true) xs ->
  Forall (fun x => is_number x = true) (dropna xs).
Proof.
  intros H. unfold dropna. apply Forall_forall. intros x Hx.
  apply list_elem_of_filter in Hx as [Hnan Hx].
  destruct (proj1 (Forall_forall _ _) H x Hx) as [?|?]; [done|congruence].
Qed.

(** X15: the statistics skip missing values.  On a [value] column of
    numbers and missing values (NaN): when no value is present, the mean, the
    minimum and the maximum are all NaN (shown, not raised); when one is,
    the minimum and the maximum are values of rows, and every value present
    lies between them. *)
Theorem stats_skip_missing (xs : list float) :
  Forall (fun x => is_number x = true \/ is_nan x = true) xs ->
  (dropna xs = [] ->
   series_mean xs = S754_nan /\ series_min xs = S754_nan /\ series_max xs = S754_nan) /\
  (dropna xs <> [] ->
   series_min xs ∈ dropna xs /\ series_max xs ∈ dropna xs /\
   forall x, x ∈ dropna xs ->
     fleb (series_min xs) x = true /\ fleb x (series_max xs) = true).
Proof.
  intros H. apply dropna_present in H.
  unfold series_mean, series_min, series_max.
  destruct (dropna xs) as [|y ys]; [by split|]. split; [done|]. intros _.
  apply Forall_cons in H as [Hy Hys].
  destruct (foldl_fmin_scaled y ys Hy Hys) as (Hn1 & Hlo1 & Hlo2).
  destruct (foldl_fmax_scaled y ys Hy Hys) as (Hn2 & Hhi1 & Hhi2).
  split; [apply foldl_fmin_elem|]. split; [apply foldl_fmax_elem|].
  intros x Hx.
  assert (is_number x = true) as Hxn.
  { apply elem_of_cons in Hx as [->|Hx]; [done|]. by apply (proj1 (Forall_forall _ _) Hys). }
  split; apply fleb_scaled; try done.
  - apply elem_of_cons in Hx as [->|Hx]; [done|]. by apply (proj1 (Forall_forall _ _) Hlo2).
  - apply elem_of_cons in Hx as [->|Hx]; [done|]. by apply (proj1 (Forall_forall _ _) Hhi2).
Qed.

(** ** Exported text with quoted fields *)









(** ** A pass on an upload that parses *)


End Dashboard.


(** ** Examples in the small world *)

Definition demo_state : state Z := mkState Z 0 [] (mkSession None None) [].

(** C1 as stated fails: for [n = 1] and [start_time = 0] the single (so the
    last) row has timestamp [-2s], not [start_time]. *)
Lemma last_generated_row_is_before_start_time :
  exists s' df,
    generate_live_rows Z demo_now demo_getrandbits demo_random demo_round 1 (Some 0) demo_state
      = (inr 0%nat, s') /\
    heap Z s' !! 0%nat = Some df /\
    last (series "timestamp" df) = Some (CTime (-2000000000)) /\
    last (series "timestamp" df) <> Some (CTime 0).
Proof.
  eexists _, _. split; [vm_compute; reflexivity|].
  split; [reflexivity|]. split; [vm_compute; reflexivity|]. vm_compute. discriminate.
Qed.

(** The buffer after [init] and three ticks in the small world (75 rows). *)
Lemma rolling_buffer_size_witness :
  live_buffer (session Z demo_state) = None /\
  exists s1 d,
    bind Z (init_buffer Z demo_now demo_getrandbits demo_random demo_round)
           (fun _ => ticks Z demo_now demo_getrandbits demo_random demo_round 3) demo_state
      = (inr tt, s1) /\
    buffer_of Z s1 = Some d /\
    len d = Nat.min (60 + 5 * 3) 500 /\
    (len d <= 500)%nat /\
    exists s2 d' new,
      tick Z demo_now demo_getrandbits demo_random demo_round s1 = (inr tt, s2) /\
      buffer_of Z s2 = Some d' /\
      len new = 5%nat /\
      (len d' <= 500)%nat /\
      (len d = 500%nat ->
       len d' = 500%nat /\
       map snd (rows d') = drop 5 (map snd (rows d)) ++ map snd (rows new)).
Proof.
  split; [reflexivity|].
  apply (rolling_buffer_size Z demo_now demo_getrandbits demo_random demo_round demo_state 3).
  reflexivity.
Defined.

(** It fails on a row set without a [metric_type] column (an upload with
    only [value]) under the selection [temperature]: the row lacks the field
    and the selection is not empty, yet the row is kept. *)
Lemma row_without_metric_type_is_kept : ~ filter_claim_as_stated.
Proof.
  intros H.
  pose (lr := (0%nat, ({[ "value" := CFloat f100 ]} : row))).
  destruct (H ["temperature"] [] (mkDF ["value"] [lr]) lr) as [H1 _].
  destruct H1 as (_ & [?|(m & Hm & _)] & _); [| done | done].
  vm_compute. apply list_elem_of_here.
Qed.


(** [f0_1] is the float nearest to one tenth. *)
Example f0_1_is_one_tenth : fdiv (float_of_Z 1) (float_of_Z 10) = f0_1.
Proof. vm_compute. reflexivity. Qed.

(** The same computation on the machine's floats. *)
Example mean_of_three_tenths_on_hardware :
  Prim2SF ((0x1.999999999999ap-4 + 0x1.999999999999ap-4 + 0x1.999999999999ap-4) / 3)%float
  = series_mean [f0_1; f0_1; f0_1] /\
  Prim2SF 0x1.999999999999ap-4%float = f0_1.
Proof. split; vm_compute; reflexivity. Qed.

Example mean_of_three_tenths :
  series_mean [f0_1; f0_1; f0_1] = S754_finite false 7205759403792795 (-56) /\
  series_max [f0_1; f0_1; f0_1] = S754_finite false 7205759403792794 (-56).
Proof. split; vm_compute; reflexivity. Qed.


(** A state of the small world with the given heap and session. *)
Definition demo_state_with (h : list DataFrame) (ss : session_state) : state Z :=
  mkState Z 0 h ss [].

(** C4 as stated fails.  A row set without a [timestamp] column gives a
    table without that column: no row shows "N/A" for it.  A row whose
    timestamp is NaT gets the missing value NaN in the table, not the text
    "N/A". *)
Lemma table_has_no_NA_marker :
  (display_table demo_strftime three_tenths = inr three_tenths /\
   forall lr, lr ∈ rows three_tenths -> lr.2 !! "timestamp" <> Some (CStr "N/A")) /\
  (display_table demo_strftime
     (mkDF ["timestamp"; "value"]
           [(0%nat, {[ "timestamp" := CNaT; "value" := CFloat f100 ]})])
   = inr (mkDF ["timestamp"; "value"]
               [(0%nat, {[ "timestamp" := NaN; "value" := CFloat f100 ]})]) /\
   NaN <> CStr "N/A").
Proof.
  split; [split; [vm_compute; reflexivity|]|split; [vm_compute; reflexivity|discriminate]].
  intros lr Hlr. unfold three_tenths in Hlr. simpl in Hlr.
  repeat (apply elem_of_cons in Hlr as [->|Hlr]; [vm_compute; discriminate|]).
  by apply elem_of_nil in Hlr.
Qed.

(** C7 as stated fails for the table and the export: on a row set filtered
    down to nothing, with the table and the download both asked for, the two
    calls return without rendering anything, so there is no "no data" result
    for them; the statistics render one placeholder. *)
Lemma empty_table_and_export_render_nothing :
  show_table (demo_controls SampleData false None) = true /\
  download_btn (demo_controls SampleData false None) = true /\
  df_empty no_rows = true /\
  raw_table Z demo_strftime (demo_controls SampleData false None) 0%nat
    (demo_state_with [no_rows] (mkSession None None))
  = (inr tt, demo_state_with [no_rows] (mkSession None None)) /\
  download Z demo_repr_float demo_str_of_timestamp (demo_controls SampleData false None) 0%nat
    (demo_state_with [no_rows] (mkSession None None))
  = (inr tt, demo_state_with [no_rows] (mkSession None None)) /\
  ui Z (demo_state_with [no_rows] (mkSession None None)) = [] /\
  quick_stats Z demo_format_2f 0%nat (demo_state_with [no_rows] (mkSession None None))
  = (inr tt, rendered Z (demo_state_with [no_rows] (mkSession None None)) [st_write "-"]).
Proof. repeat split; vm_compute; reflexivity. Qed.


(** An empty file is uploaded in the small world: [read_csv] raises on it,
    the ingestor returns [None], the pass shows the error and no data. *)
Lemma upload_parse_failure_witness :
  mode (demo_controls UploadCSV false (Some "")) = UploadCSV /\
  uploaded (demo_controls UploadCSV false (Some "")) = Some "" /\
  (forall s0, exists parsed s',
      parse_uploaded_csv Z (read_csv_model demo_parse_float) demo_to_datetime "" s0
        = (inr parsed, s') /\
      (forall l, parsed = Some l -> is_Some (heap Z s' !! l))) /\
  exists parsed s1,
    parse_uploaded_csv Z (read_csv_model demo_parse_float) demo_to_datetime ""
      (mkState Z (world Z demo_state) (heap Z demo_state ++ [empty_frame])
               (session Z demo_state) (ui Z demo_state))
      = (inr parsed, s1) /\
    session Z s1 = session Z demo_state /\ ui Z s1 = ui Z demo_state /\
    (parsed = None ->
     run_pass Z demo_now demo_getrandbits demo_random demo_round demo_repr_float
       demo_str_of_timestamp demo_strftime demo_format_2f
       (read_csv_model demo_parse_float) demo_to_datetime
       (demo_controls UploadCSV false (Some "")) demo_state =
     (inr tt,
      rendered Z s1 ([st_sidebar_error "Failed to parse CSV.";
                      st_title "📡 Simple Streaming Dashboard";
                      st_subheader "Trend";
                      st_info "No data available.";
                      st_write "-"] ++
                     info_panel demo_strftime (demo_controls UploadCSV false (Some "")) empty_frame))).
Proof.
  split; [reflexivity|]. split; [reflexivity|].
  apply (upload_parse_failure Z demo_now demo_getrandbits demo_random demo_round demo_repr_float
           demo_str_of_timestamp demo_strftime demo_format_2f
           (read_csv_model demo_parse_float) demo_to_datetime
           (demo_controls UploadCSV false (Some "")) "" demo_state); reflexivity.
Defined.

Example empty_file_is_rejected :
  parse_uploaded_csv Z (read_csv_model demo_parse_float) demo_to_datetime "" demo_state
  = (inr None, demo_state).
Proof. reflexivity. Qed.

Example two_rows_exported :
  export_csv demo_repr_float demo_str_of_timestamp two_rows =
  "timestamp,sensor_id,metric_type,value" +:+ String LF
  ("2024-01-01 00:00:00.500000,sensor_1,temperature,100.5" +:+ String LF
  ("NaT,sensor_4,humidity,95.0" +:+ String LF "")).
Proof. vm_compute. reflexivity. Qed.


(** Running the whole script in the small world. *)
Definition demo_run_pass (c : controls) : M Z unit :=
  run_pass Z demo_now demo_getrandbits demo_random demo_round demo_repr_float
    demo_str_of_timestamp demo_strftime demo_format_2f
    (read_csv_model demo_parse_float) demo_to_datetime c.


(** The empty row set [pd.DataFrame()] (no upload, or a failed one) is not
    exported: the script offers no download for it, and the bytes [to_csv]
    would write for it, a bare newline, are rejected by the ingestor. *)
Example empty_row_set_is_not_exported :
  download Z demo_repr_float demo_str_of_timestamp (demo_controls UploadCSV false None) 0%nat
    (demo_state_with [empty_frame] (mkSession None None))
  = (inr tt, demo_state_with [empty_frame] (mkSession None None)) /\
  export_csv demo_repr_float demo_str_of_timestamp empty_frame = String LF "" /\
  parse_uploaded_csv Z (read_csv_model demo_parse_float) demo_to_datetime
    (export_csv demo_repr_float demo_str_of_timestamp empty_frame) demo_state
  = (inr None, demo_state).
Proof. repeat split; vm_compute; reflexivity. Qed.

(** C10 as stated fails on the first live pass of a session with
    auto-refresh disabled: there is no buffer before the pass, and a buffer
    of 60 rows after it (lines 109-111 run whether or not auto-refresh is
    enabled). *)
Lemma first_live_pass_creates_the_buffer :
  auto_refresh (demo_controls Live false None) = false /\
  buffer_of Z demo_state = None /\
  exists r s' d,
    demo_run_pass (demo_controls Live false None) demo_state = (r, s') /\
    buffer_of Z s' = Some d /\
    len d = 60%nat /\
    buffer_of Z s' <> buffer_of Z demo_state.
Proof.
  split; [reflexivity|]. split; [reflexivity|].
  destruct (first_live_pass Z demo_now demo_getrandbits demo_random demo_round demo_repr_float
              demo_str_of_timestamp demo_strftime demo_format_2f
              (read_csv_model demo_parse_float) demo_to_datetime
              (demo_controls Live false None) demo_state)
    as (r & s' & d & E & Hb & Hlen); [reflexivity..|].
  exists r, s', d. split; [exact E|]. split; [exact Hb|]. split; [exact Hlen|].
  rewrite Hb. discriminate.
Qed.

(** A live pass in a session that has its buffer, auto-refresh disabled. *)
Lemma live_pass_buffer_witness :
  mode (demo_controls Live false None) = Live /\
  exists r1 s1 r s',
    live_step Z demo_now demo_getrandbits demo_random demo_round (demo_controls Live false None)
      (mkState Z 0 ([two_rows] ++ [empty_frame]) (mkSession (Some 0%nat) None) []) = (r1, s1) /\
    demo_run_pass (demo_controls Live false None)
      (demo_state_with [two_rows] (mkSession (Some 0%nat) None)) = (r, s') /\
    session Z s' = session Z s1 /\
    (forall l x, heap Z s1 !! l = Some x -> heap Z s' !! l = Some x) /\
    (forall d, buffer_of Z s1 = Some d -> buffer_of Z s' = Some d) /\
    (auto_refresh (demo_controls Live false None) = false ->
     forall d, buffer_of Z (demo_state_with [two_rows] (mkSession (Some 0%nat) None)) = Some d ->
       session Z s' = session Z (demo_state_with [two_rows] (mkSession (Some 0%nat) None)) /\
       buffer_of Z s' = Some d /\
       (forall l x, heap Z (demo_state_with [two_rows] (mkSession (Some 0%nat) None)) !! l = Some x ->
                    heap Z s' !! l = Some x)).
Proof.
  split; [reflexivity|].
  apply (live_pass_buffer Z demo_now demo_getrandbits demo_random demo_round demo_repr_float
           demo_str_of_timestamp demo_strftime demo_format_2f
           (read_csv_model demo_parse_float) demo_to_datetime
           (demo_controls Live false None)
           (demo_state_with [two_rows] (mkSession (Some 0%nat) None))).
  reflexivity.
Defined.

(** ** Examples for the views, the modes and the export *)

Lemma sample_rows_generated : generated_rows sample_rows.
Proof.
  split; [reflexivity|].
  constructor; [|constructor; [|constructor]].
  - split; [by exists 1704067204000000000|].
    split; [exists "sensor_2"; split; [reflexivity|set_solver]|].
    split; [exists "humidity"; split; [reflexivity|set_solver]|].
    by exists (float_of_Z 101).
  - split; [by exists 1704067202000000000|].
    split; [exists "sensor_1"; split; [reflexivity|set_solver]|].
    split; [exists "temperature"; split; [reflexivity|set_solver]|].
    by exists (float_of_Z 99).
Qed.

Lemma default_filters_keep_generated_witness :
  filter_stage metric_options [] sample_rows = sample_rows.
Proof.
  apply (default_filters_keep_generated demo_strftime (read_csv_model demo_parse_float)
           metric_options [] sample_rows).
  - exact sample_rows_generated.
  - done.
  - by left.
Defined.

(** The views of the two sample rows, table and download asked for. *)
Lemma render_views_widgets_witness :
  exists s',
    render_views Z demo_repr_float demo_str_of_timestamp demo_strftime demo_format_2f
      (demo_controls SampleData false None) 0%nat
      (demo_state_with [sample_rows] (mkSession None None)) = (inr tt, s') /\
    ui Z s' = ui Z (demo_state_with [sample_rows] (mkSession None None)) ++
              views_of demo_repr_float demo_str_of_timestamp demo_strftime demo_format_2f
                (demo_controls SampleData false None) sample_rows /\
    session Z s' = session Z (demo_state_with [sample_rows] (mkSession None None)) /\
    (forall j x, heap Z (demo_state_with [sample_rows] (mkSession None None)) !! j = Some x ->
                 heap Z s' !! j = Some x).
Proof.
  apply (render_views_widgets Z demo_repr_float demo_str_of_timestamp demo_strftime demo_format_2f
           (read_csv_model demo_parse_float) demo_to_datetime
           (demo_controls SampleData false None) 0%nat sample_rows
           (demo_state_with [sample_rows] (mkSession None None))).
  - reflexivity.
  - right. vm_compute. reflexivity.
Defined.

Example sample_rows_views :
  views_of demo_repr_float demo_str_of_timestamp demo_strftime demo_format_2f
    (mkControls SampleData false false false metric_options [] None) sample_rows =
  [st_title "📡 Simple Streaming Dashboard";
   st_subheader "Trend";
   st_plotly_chart
     (mkFig (mkDF four_columns (reverse (rows sample_rows))) "timestamp" "value" "metric_type");
   st_metric "Average value" "100.00";
   st_metric "Min value" "99.00";
   st_metric "Max value" "101.00";
   st_subheader "Controls & Info";
   st_markdown "- Mode: **Sample data**";
   st_markdown "- Rows: **2**";
   st_markdown "- Last timestamp: **2024-01-01 00:00:04**";
   st_markdown "---"].
Proof. vm_compute. reflexivity. Qed.

Lemma missing_value_column_raises_witness :
  (exists msg s',
     render_views Z demo_repr_float demo_str_of_timestamp demo_strftime demo_format_2f
       (demo_controls UploadCSV false None) 0%nat
       (demo_state_with [ids_only] (mkSession None None)) = (inl (ValueError msg), s') /\
     ui Z s' = ui Z (demo_state_with [ids_only] (mkSession None None)) ++
               [st_title "📡 Simple Streaming Dashboard"; st_subheader "Trend"] /\
     session Z s' = session Z (demo_state_with [ids_only] (mkSession None None))) /\
  quick_stats Z demo_format_2f 0%nat (demo_state_with [ids_only] (mkSession None None))
  = (inl (KeyError "value"), demo_state_with [ids_only] (mkSession None None)).
Proof.
  apply (missing_value_column_raises Z demo_repr_float demo_str_of_timestamp demo_strftime
           demo_format_2f (read_csv_model demo_parse_float) demo_to_datetime
           (demo_controls UploadCSV false None) 0%nat ids_only
           (demo_state_with [ids_only] (mkSession None None))); reflexivity.
Defined.

Lemma trend_chart_witness :
  (exists s',
     trend Z 0%nat (demo_state_with [sample_rows] (mkSession None None)) = (inr tt, s') /\
     ui Z s' = ui Z (demo_state_with [sample_rows] (mkSession None None)) ++
               [st_subheader "Trend"; st_plotly_chart (figure_of sample_rows)] /\
     heap Z s' !! 0%nat = Some sample_rows) /\
  fig_y (figure_of sample_rows) = "value" /\
  fig_color (figure_of sample_rows) = "metric_type" /\
  fig_x (figure_of sample_rows) =
    (if has_column "timestamp" sample_rows then "timestamp" else "index") /\
  map snd (rows (plot_frame sample_rows)) =
    map (fun lr => <["metric_type" :=
                      if has_column "metric_type" sample_rows
                      then fillna_unknown (field "metric_type" lr.2)
                      else CStr "unknown"]> lr.2)
        (rows (sorted_for_plot sample_rows)) /\
  rows (sorted_for_plot sample_rows) ≡ₚ rows sample_rows /\
  (has_column "timestamp" sample_rows = true ->
   StronglySorted (row_before "timestamp" true) (rows (sorted_for_plot sample_rows))) /\
  Forall (fun lr => is_missing (field "metric_type" lr.2) = false) (rows (plot_frame sample_rows)).
Proof.
  apply (trend_chart Z demo_strftime (read_csv_model demo_parse_float) demo_to_datetime
           0%nat sample_rows (demo_state_with [sample_rows] (mkSession None None)));
    [reflexivity | reflexivity | reflexivity | by left].
Defined.

Lemma format_df_for_plot_sorted_witness :
  exists l' s',
    format_df_for_plot Z 0%nat (demo_state_with [sample_rows] (mkSession None None)) = (inr l', s') /\
    l' <> 0%nat /\
    heap Z s' !! 0%nat = Some sample_rows /\
    heap Z s' !! l' = Some (sorted_for_plot sample_rows) /\
    columns (sorted_for_plot sample_rows) = columns sample_rows /\
    rows (sorted_for_plot sample_rows) ≡ₚ rows sample_rows /\
    (has_column "timestamp" sample_rows = true ->
     StronglySorted (row_before "timestamp" true) (rows (sorted_for_plot sample_rows))) /\
    (has_column "timestamp" sample_rows = false -> sorted_for_plot sample_rows = sample_rows) /\
    session Z s' = session Z (demo_state_with [sample_rows] (mkSession None None)) /\
    ui Z s' = ui Z (demo_state_with [sample_rows] (mkSession None None)).
Proof.
  apply (format_df_for_plot_sorted Z 0%nat sample_rows
           (demo_state_with [sample_rows] (mkSession None None))).
  reflexivity.
Defined.

Example sample_rows_sorted :
  rows (sorted_for_plot sample_rows) = reverse (rows sample_rows).
Proof. vm_compute. reflexivity. Qed.

Lemma info_panel_last_timestamp_witness :
  controls_info Z demo_strftime (demo_controls SampleData false None) 0%nat
    (demo_state_with [sample_rows] (mkSession None None))
  = (inr tt, rendered Z (demo_state_with [sample_rows] (mkSession None None))
               (info_panel demo_strftime (demo_controls SampleData false None) sample_rows)) /\
  (has_column "timestamp" sample_rows = false ->
   info_panel demo_strftime (demo_controls SampleData false None) sample_rows =
     [st_subheader "Controls & Info";
      st_markdown ("- Mode: **" +:+ mode_name (mode (demo_controls SampleData false None)) +:+ "**");
      st_markdown ("- Rows: **" +:+ str_of_Z (Z.of_nat (len sample_rows)) +:+ "**");
      st_markdown "---"]) /\
  (has_column "timestamp" sample_rows = true ->
   (Forall (fun x => time_key x = None) (series "timestamp" sample_rows) <->
    info_panel demo_strftime (demo_controls SampleData false None) sample_rows =
      [st_subheader "Controls & Info";
       st_markdown ("- Mode: **" +:+ mode_name (mode (demo_controls SampleData false None)) +:+ "**");
       st_markdown ("- Rows: **" +:+ str_of_Z (Z.of_nat (len sample_rows)) +:+ "**");
       st_markdown "- Last timestamp: N/A";
       st_markdown "---"]) /\
   (forall t,
      CTime t ∈ series "timestamp" sample_rows ->
      (forall t', CTime t' ∈ series "timestamp" sample_rows -> t' <= t) ->
      info_panel demo_strftime (demo_controls SampleData false None) sample_rows =
        [st_subheader "Controls & Info";
         st_markdown ("- Mode: **" +:+ mode_name (mode (demo_controls SampleData false None)) +:+ "**");
         st_markdown ("- Rows: **" +:+ str_of_Z (Z.of_nat (len sample_rows)) +:+ "**");
         st_markdown ("- Last timestamp: **" +:+ demo_strftime "%Y-%m-%d %H:%M:%S" t +:+ "**");
         st_markdown "---"])).
Proof.
  apply (info_panel_last_timestamp Z demo_strftime demo_to_datetime
           (demo_controls SampleData false None) 0%nat sample_rows
           (demo_state_with [sample_rows] (mkSession None None))).
  reflexivity.
Defined.

Lemma upload_without_file_witness :
  demo_run_pass (demo_controls UploadCSV false None) demo_state =
  (inr tt,
   mkState Z (world Z demo_state) (heap Z demo_state ++ [empty_frame]) (session Z demo_state)
     (ui Z demo_state ++
      [st_sidebar_info "No file uploaded.";
       st_title "📡 Simple Streaming Dashboard";
       st_subheader "Trend";
       st_info "No data available.";
       st_write "-";
       st_subheader "Controls & Info";
       st_markdown "- Mode: **Upload CSV**";
       st_markdown "- Rows: **0**";
       st_markdown "---"])).
Proof.
  apply (upload_without_file Z demo_now demo_getrandbits demo_random demo_round demo_repr_float
           demo_str_of_timestamp demo_strftime demo_format_2f
           (read_csv_model demo_parse_float) demo_to_datetime
           (demo_controls UploadCSV false None) demo_state); reflexivity.
Defined.

(** A tick on a buffer that holds the two sample rows. *)
Lemma tick_appends_witness :
  exists s' new,
    tick Z demo_now demo_getrandbits demo_random demo_round
      (demo_state_with [sample_rows] (mkSession (Some 0%nat) None)) = (inr tt, s') /\
    buffer_of Z s' = Some (appended sample_rows new) /\
    len new = 5%nat /\
    series "timestamp" new =
      map CTime (stamps 5 (demo_now (world Z (demo_state_with [sample_rows]
                                                (mkSession (Some 0%nat) None)))).1) /\
    map snd (rows (appended sample_rows new)) =
      drop (len sample_rows + 5 - 500) (map snd (rows sample_rows) ++ map snd (rows new)) /\
    map fst (rows (appended sample_rows new)) = seq 0 (Nat.min (len sample_rows + 5) 500) /\
    (generated_rows sample_rows -> generated_rows (appended sample_rows new)) /\
    last_live_time (session Z s') =
      last_live_time (session Z (demo_state_with [sample_rows] (mkSession (Some 0%nat) None))) /\
    (forall l x, heap Z (demo_state_with [sample_rows] (mkSession (Some 0%nat) None)) !! l = Some x ->
                 heap Z s' !! l = Some x).
Proof.
  apply (tick_appends Z demo_now demo_getrandbits demo_random demo_round demo_str_of_timestamp
           demo_strftime (read_csv_model demo_parse_float)
           (demo_state_with [sample_rows] (mkSession (Some 0%nat) None)) sample_rows).
  reflexivity.
Defined.

Lemma sample_pass_witness :
  exists s' g,
    demo_run_pass (demo_controls SampleData false None) demo_state = (inr tt, s') /\
    generated_rows g /\ len g = 200%nat /\
    series "timestamp" g = map CTime (stamps 200 (demo_now (world Z demo_state)).1) /\
    ui Z s' = ui Z demo_state ++
              views_of demo_repr_float demo_str_of_timestamp demo_strftime demo_format_2f
                (demo_controls SampleData false None)
                (filter_stage (metric_filter (demo_controls SampleData false None))
                              (sensor_filter (demo_controls SampleData false None)) g) /\
    session Z s' = session Z demo_state /\
    (forall j x, heap Z demo_state !! j = Some x -> heap Z s' !! j = Some x).
Proof.
  apply (sample_pass Z demo_now demo_getrandbits demo_random demo_round demo_repr_float
           demo_str_of_timestamp demo_strftime demo_format_2f
           (read_csv_model demo_parse_float) demo_to_datetime
           (demo_controls SampleData false None) demo_state).
  reflexivity.
Defined.

(** The first live pass of a session, auto-refresh on: 65 rows. *)
Lemma live_pass_invariant_witness :
  exists s' d,
    demo_run_pass (demo_controls Live true None) demo_state = (inr tt, s') /\
    buffer_of Z s' = Some d /\
    generated_rows d /\
    len d = next_size Z (demo_controls Live true None) demo_state /\
    ui Z s' = ui Z demo_state ++
              views_of demo_repr_float demo_str_of_timestamp demo_strftime demo_format_2f
                (demo_controls Live true None)
                (filter_stage (metric_filter (demo_controls Live true None))
                              (sensor_filter (demo_controls Live true None)) d) /\
    buffer_ok Z s'.
Proof.
  apply (live_pass_invariant Z demo_now demo_getrandbits demo_random demo_round demo_repr_float
           demo_str_of_timestamp demo_strftime demo_format_2f
           (read_csv_model demo_parse_float) demo_to_datetime
           (demo_controls Live true None) demo_state).
  - reflexivity.
  - exact I.
Defined.

Example first_live_pass_size : next_size Z (demo_controls Live true None) demo_state = 65%nat.
Proof. reflexivity. Qed.

Lemma other_modes_keep_session_witness :
  exists r s',
    demo_run_pass (demo_controls SampleData false None)
      (demo_state_with [sample_rows] (mkSession (Some 0%nat) None)) = (r, s') /\
    session Z s' = session Z (demo_state_with [sample_rows] (mkSession (Some 0%nat) None)) /\
    (forall j x, heap Z (demo_state_with [sample_rows] (mkSession (Some 0%nat) None)) !! j = Some x ->
                 heap Z s' !! j = Some x) /\
    (forall d, buffer_of Z (demo_state_with [sample_rows] (mkSession (Some 0%nat) None)) = Some d ->
               buffer_of Z s' = Some d).
Proof.
  apply (other_modes_keep_session Z demo_now demo_getrandbits demo_random demo_round
           demo_repr_float demo_str_of_timestamp demo_strftime demo_format_2f
           (read_csv_model demo_parse_float) demo_to_datetime
           (demo_controls SampleData false None)
           (demo_state_with [sample_rows] (mkSession (Some 0%nat) None))).
  discriminate.
Defined.

Lemma demo_to_datetime_length cs ts : demo_to_datetime cs = inr ts -> length ts = length cs.
Proof. intros [= <-]. apply length_map. Qed.

Lemma parse_uploaded_csv_shape_witness :
  exists parsed s',
    parse_uploaded_csv Z (read_csv_model demo_parse_float) demo_to_datetime stamped_file demo_state
      = (inr parsed, s') /\
    (parsed = None <->
     has_column "timestamp" stamped_rows = true /\
     exists e, demo_to_datetime (series "timestamp" stamped_rows) = inl e) /\
    (forall l, parsed = Some l ->
       l = length (heap Z demo_state) /\
       exists d',
         heap Z s' !! l = Some d' /\
         columns d' = columns stamped_rows /\
         map fst (rows d') = map fst (rows stamped_rows) /\
         (forall c, c <> "timestamp" -> series c d' = series c stamped_rows) /\
         (has_column "timestamp" stamped_rows = false -> d' = stamped_rows) /\
         (has_column "timestamp" stamped_rows = true ->
          is_datetimelike (series "timestamp" d') = true /\
          demo_to_datetime (series "timestamp" stamped_rows)
            = inr (map time_key (series "timestamp" d')))).
Proof.
  apply (parse_uploaded_csv_shape Z (read_csv_model demo_parse_float) demo_to_datetime
           stamped_file stamped_rows demo_state).
  - vm_compute. reflexivity.
  - exact demo_to_datetime_length.
Defined.

Example stamped_file_ingested :
  parse_uploaded_csv Z (read_csv_model demo_parse_float) demo_to_datetime stamped_file demo_state
  = (inr (Some 0%nat),
     demo_state_with
       [mkDF ["timestamp"; "value"]
          [(0%nat, {[ "timestamp" := CTime 1704067202000000000;
                      "value" := CFloat (fdiv (float_of_Z 3) (float_of_Z 2)) ]});
           (1%nat, {[ "timestamp" := CNaT;
                      "value" := CFloat (fdiv (float_of_Z 5) (float_of_Z 2)) ]})]]
       (mkSession None None)).
Proof. vm_compute. reflexivity. Qed.

Lemma stats_skip_missing_witness :
  (dropna [f0_1; S754_nan; f100] = [] ->
   series_mean [f0_1; S754_nan; f100] = S754_nan /\
   series_min [f0_1; S754_nan; f100] = S754_nan /\
   series_max [f0_1; S754_nan; f100] = S754_nan) /\
  (dropna [f0_1; S754_nan; f100] <> [] ->
   series_min [f0_1; S754_nan; f100] ∈ dropna [f0_1; S754_nan; f100] /\
   series_max [f0_1; S754_nan; f100] ∈ dropna [f0_1; S754_nan; f100] /\
   forall x, x ∈ dropna [f0_1; S754_nan; f100] ->
     fleb (series_min [f0_1; S754_nan; f100]) x = true /\
     fleb x (series_max [f0_1; S754_nan; f100]) = true).
Proof.
  apply (stats_skip_missing [f0_1; S754_nan; f100]).
  constructor; [by left|constructor; [by right|constructor; [by left|constructor]]].
Defined.

Example stats_with_a_missing_value :
  series_min [f0_1; S754_nan; f100] = f0_1 /\ series_max [f0_1; S754_nan; f100] = f100.
Proof. split; vm_compute; reflexivity. Qed.


Example quoted_rows_exported :
  export_csv demo_repr_float demo_str_of_timestamp quoted_rows =
  "sensor_id,value" +:+ String LF
  (String dquote ("a,b" +:+ String dquote (String dquote ("c" +:+ String dquote
     (",100.0" +:+ String LF ""))))) /\
  read_csv_model demo_parse_float (export_csv demo_repr_float demo_str_of_timestamp quoted_rows)
  = inr quoted_rows.
Proof. split; vm_compute; reflexivity. Qed.


Example stamped_file_views :
  views_of demo_repr_float demo_str_of_timestamp demo_strftime demo_format_2f
    (mkControls UploadCSV false false false metric_options [] (Some stamped_file))
    (ingested stamped_rows [Some 1704067202000000000; None]) =
  [st_title "📡 Simple Streaming Dashboard";
   st_subheader "Trend";
   st_plotly_chart
     (mkFig (mkDF ["timestamp"; "value"; "metric_type"]
               [(0%nat, {[ "timestamp" := CTime 1704067202000000000;
                           "value" := CFloat (fdiv (float_of_Z 3) (float_of_Z 2));
                           "metric_type" := CStr "unknown" ]});
                (1%nat, {[ "timestamp" := CNaT;
                           "value" := CFloat (fdiv (float_of_Z 5) (float_of_Z 2));
                           "metric_type" := CStr "unknown" ]})])
            "timestamp" "value" "metric_type");
   st_metric "Average value" "2.00";
   st_metric "Min value" "1.50";
   st_metric "Max value" "2.50";
   st_subheader "Controls & Info";
   st_markdown "- Mode: **Upload CSV**";
   st_markdown "- Rows: **2**";
   st_markdown "- Last timestamp: **2024-01-01 00:00:02**";
   st_markdown "---"].
Proof. vm_compute. reflexivity. Qed.
